(** * Transcription app: job orchestration and progress streaming

    A shallow embedding of the two API routes of the application
    ([src/app/api/transcribe/local/route.ts], the upload route, and
    [src/app/api/transcribe-url/route.ts], the URL route) and of the stream
    consumer of [src/app/page.tsx], with the properties of the orchestration
    layer stated over them.

    Conventions.
    - A JavaScript string is a [string]: a sequence of code units restricted
      to the range 0..255.
    - A value of type [any] that came out of [JSON.parse] is a [json]; a
      property that is absent ([undefined]) is [None].
    - A thrown [Error] is represented by its [message].
    - The file system is a finite map from paths to contents.
    - What the outside world answers (the network, the extraction tool, the
      worker process, the uuid generator) is an input of the model. *)

From Stdlib Require Import ZArith String Ascii List Bool Lia.
From stdpp Require Import base option gmap strings.
Import ListNotations.

Local Open Scope string_scope.
Local Open Scope list_scope.

(** ** JavaScript string primitives *)

Module JS.

(** [s.startsWith(pat)] *)
Fixpoint startsWith (pat s : string) : bool :=
  match pat, s with
  | EmptyString, _ => true
  | String a pat', String b s' => Ascii.eqb a b && startsWith pat' s'
  | String _ _, EmptyString => false
  end.

(** [s.indexOf(pat)], [None] standing for [-1]. *)
Fixpoint indexOf (pat s : string) : option nat :=
  if startsWith pat s then Some 0%nat
  else match s with
       | EmptyString => None
       | String _ s' => option_map S (indexOf pat s')
       end.

(** [s.includes(pat)] *)
Definition includes (pat s : string) : bool :=
  match indexOf pat s with Some _ => true | None => false end.

(** [s.substring(k)]: the string from offset [k] to the end. *)
Fixpoint substring (k : nat) (s : string) : string :=
  match k, s with
  | O, _ => s
  | S k', String _ s' => substring k' s'
  | S _, EmptyString => EmptyString
  end.

(** [s.split(sep)] for a one-character separator: always at least one
    piece, [n + 1] pieces for [n] separators. *)
Fixpoint split (sep : ascii) (s : string) : list string :=
  match s with
  | EmptyString => [EmptyString]
  | String c s' =>
      if Ascii.eqb c sep then EmptyString :: split sep s'
      else match split sep s' with
           | [] => [String c EmptyString]
           | l :: ls => String c l :: ls
           end
  end.

(** White space and line terminators removed by [trim], within the
    alphabet of the model: TAB, LF, VT, FF, CR, SP, NBSP. *)
Definition is_space (c : ascii) : bool :=
  let n := nat_of_ascii c in
  (Nat.leb 9 n && Nat.leb n 13) || Nat.eqb n 32 || Nat.eqb n 160.

Fixpoint trimStart (s : string) : string :=
  match s with
  | EmptyString => EmptyString
  | String c s' => if is_space c then trimStart s' else s
  end.

Fixpoint trimEnd (s : string) : string :=
  match s with
  | EmptyString => EmptyString
  | String c s' =>
      match trimEnd s' with
      | EmptyString => if is_space c then EmptyString else String c EmptyString
      | t => String c t
      end
  end.

(** [s.trim()] *)
Definition trim (s : string) : string := trimEnd (trimStart s).

(** The longest prefix of [s] that ends in a closing brace. *)
Fixpoint upto_last_close (s : string) : option string :=
  match s with
  | EmptyString => None
  | String c s' =>
      match upto_last_close s' with
      | Some t => Some (String c t)
      | None => if Ascii.eqb c "}" then Some (String c EmptyString) else None
      end
  end.

(** [s.match(/(\{[\s\S]*\})/)], returning capture group 1: the leftmost
    position holding an opening brace from which the greedy [[\s\S]*] can
    still reach a closing brace; the match runs to the last closing brace. *)
Fixpoint match_braces (s : string) : option string :=
  match s with
  | EmptyString => None
  | String c s' =>
      if Ascii.eqb c "{" then
        match upto_last_close s' with
        | Some t => Some (String c t)
        | None => match_braces s'
        end
      else match_braces s'
  end.

(** Decimal rendering of an integer, as a template literal prints it. *)
Fixpoint digits_of_pos (fuel : nat) (n : N) (acc : string) : string :=
  match fuel with
  | O => acc
  | S f =>
      let d := ascii_of_N (48 + N.modulo n 10) in
      let q := N.div n 10 in
      if N.eqb q 0 then String d acc else digits_of_pos f q (String d acc)
  end.

Definition string_of_N (n : N) : string :=
  digits_of_pos (S (N.to_nat (N.log2 n))) n EmptyString.

Definition string_of_Z (z : Z) : string :=
  match z with
  | Z0 => "0"
  | Zpos p => string_of_N (Npos p)
  | Zneg p => "-" +:+ string_of_N (Npos p)
  end.

End JS.

(** ** JSON values, [JSON.stringify] and [JSON.parse] *)

(** A number is kept as an exact decimal [m * 10^e]; the rounding of the
    platform's binary floating point is outside the model. An object is the
    list of its properties in insertion order. *)
#[warnings="-register-all"]
Inductive json : Type :=
| JNull
| JBool (b : bool)
| JNum (m e : Z)
| JStr (s : string)
| JArr (items : list json)
| JObj (props : list (string * json)).

Definition JInt (z : Z) : json := JNum z 0.

Module JSON.

(** *** Printing *)

Definition hex_digit (n : N) : ascii :=
  if N.ltb n 10 then ascii_of_N (48 + n) else ascii_of_N (87 + n).

(** The double quote character. *)
Definition dquote : ascii := ascii_of_nat 34.

(** One code unit inside a quoted JSON string. *)
Definition quote_char (c : ascii) : string :=
  let n := N_of_ascii c in
  if N.eqb n 8 then "\b"
  else if N.eqb n 9 then "\t"
  else if N.eqb n 10 then "\n"
  else if N.eqb n 12 then "\f"
  else if N.eqb n 13 then "\r"
  else if N.eqb n 34 then String "\" (String dquote EmptyString)
  else if N.eqb n 92 then "\\"
  else if N.ltb n 32 then
    "\u00" +:+ String (hex_digit (N.div n 16)) (String (hex_digit (N.modulo n 16)) EmptyString)
  else String c EmptyString.

Fixpoint quote_body (s : string) : string :=
  match s with
  | EmptyString => EmptyString
  | String c s' => quote_char c +:+ quote_body s'
  end.

Definition quote (s : string) : string :=
  String dquote (quote_body s +:+ String dquote EmptyString).

Fixpoint zeros (n : nat) : string :=
  match n with O => EmptyString | S n' => String "0" (zeros n') end.

Fixpoint take (n : nat) (s : string) : string :=
  match n, s with
  | S n', String c s' => String c (take n' s')
  | _, _ => EmptyString
  end.

(** Plain decimal notation of [m * 10^e] for a normalised pair (exponent
    notation, which the platform uses for very large and very small
    magnitudes, is outside the model). *)
Definition number_to_string (m e : Z) : string :=
  if Z.eqb m 0 then "0"
  else
    let sign := if Z.ltb m 0 then "-" else "" in
    let d := JS.string_of_N (Z.abs_N m) in
    let n := String.length d in
    if Z.leb 0 e then sign +:+ d +:+ zeros (Z.to_nat e)
    else
      let k := Z.to_nat (- e) in
      if Nat.ltb k n then sign +:+ take (n - k) d +:+ "." +:+ JS.substring (n - k) d
      else sign +:+ "0." +:+ zeros (k - n) +:+ d.

Fixpoint join (sep : string) (l : list string) : string :=
  match l with
  | [] => EmptyString
  | [x] => x
  | x :: rest => x +:+ sep +:+ join sep rest
  end.

(** [JSON.stringify(v)] without indentation. *)
Fixpoint stringify (v : json) : string :=
  match v with
  | JNull => "null"
  | JBool true => "true"
  | JBool false => "false"
  | JNum m e => number_to_string m e
  | JStr s => quote s
  | JArr items => "[" +:+ join "," (List.map stringify items) +:+ "]"
  | JObj props =>
      "{" +:+ join "," (List.map (fun kv => quote (fst kv) +:+ ":" +:+ stringify (snd kv)) props) +:+ "}"
  end.

(** *** Property access *)

(** [o[k]] on an object; [None] is [undefined]. *)
Fixpoint lookup_prop (k : string) (props : list (string * json)) : option json :=
  match props with
  | [] => None
  | (k', v) :: rest => if String.eqb k k' then Some v else lookup_prop k rest
  end.

(** [o[k] = v] while an object literal is being read: an existing key keeps
    its position and takes the new value, a new key goes last. *)
Fixpoint set_prop (k : string) (v : json) (props : list (string * json)) : list (string * json) :=
  match props with
  | [] => [(k, v)]
  | (k', v') :: rest =>
      if String.eqb k k' then (k, v) :: rest else (k', v') :: set_prop k v rest
  end.

(** *** A reference reader

    [JSON.parse] belongs to the platform. The routes below are written over
    any reader (see [Platform]); this one follows the JSON grammar and is
    used to run them on concrete inputs. *)

Definition is_ws (c : ascii) : bool :=
  let n := N_of_ascii c in
  N.eqb n 32 || N.eqb n 9 || N.eqb n 10 || N.eqb n 13.

Fixpoint skip_ws (s : string) : string :=
  match s with
  | String c s' => if is_ws c then skip_ws s' else s
  | EmptyString => EmptyString
  end.

Definition digit_val (c : ascii) : option Z :=
  let n := N_of_ascii c in
  if N.leb 48 n && N.leb n 57 then Some (Z.of_N (n - 48)) else None.

Definition hex_val (c : ascii) : option N :=
  let n := N_of_ascii c in
  if N.leb 48 n && N.leb n 57 then Some (n - 48)%N
  else if N.leb 97 n && N.leb n 102 then Some (n - 87)%N
  else if N.leb 65 n && N.leb n 70 then Some (n - 55)%N
  else None.

(** The characters of a string literal after its opening quote, up to the
    closing quote; returns the string denoted and the rest of the input. *)
Fixpoint read_string (s : string) : option (string * string) :=
  match s with
  | EmptyString => None
  | String c s' =>
      if Ascii.eqb c dquote then Some (EmptyString, s')
      else if Ascii.eqb c "\" then
        match s' with
        | EmptyString => None
        | String e s'' =>
            let simple (d : ascii) :=
              match read_string s'' with
              | Some (t, r) => Some (String d t, r)
              | None => None
              end in
            if Ascii.eqb e dquote then simple dquote
            else if Ascii.eqb e "\" then simple "\"%char
            else if Ascii.eqb e "/" then simple "/"%char
            else if Ascii.eqb e "b" then simple (ascii_of_nat 8)
            else if Ascii.eqb e "f" then simple (ascii_of_nat 12)
            else if Ascii.eqb e "n" then simple (ascii_of_nat 10)
            else if Ascii.eqb e "r" then simple (ascii_of_nat 13)
            else if Ascii.eqb e "t" then simple (ascii_of_nat 9)
            else if Ascii.eqb e "u" then
              match s'' with
              | String h1 (String h2 (String h3 (String h4 s4))) =>
                  match hex_val h1, hex_val h2, hex_val h3, hex_val h4 with
                  | Some a, Some b, Some c', Some d =>
                      let n := (((a * 16 + b) * 16 + c') * 16 + d)%N in
                      if N.ltb n 256 then
                        match read_string s4 with
                        | Some (t, r) => Some (String (ascii_of_N n) t, r)
                        | None => None
                        end
                      else None
                  | _, _, _, _ => None
                  end
              | _ => None
              end
            else None
        end
      else if N.ltb (N_of_ascii c) 32 then None
      else
        match read_string s' with
        | Some (t, r) => Some (String c t, r)
        | None => None
        end
  end.

(** A run of decimal digits: its value continuing [acc], how many digits
    were read, and the rest of the input. *)
Fixpoint read_digits (s : string) (acc : Z) (count : nat) : Z * nat * string :=
  match s with
  | String c s' =>
      match digit_val c with
      | Some d => read_digits s' (acc * 10 + d) (S count)
      | None => (acc, count, s)
      end
  | EmptyString => (acc, count, s)
  end.

(** Drops the trailing zeros of the fraction digits. *)
Fixpoint strip_zeros (fuel : nat) (m e : Z) : Z * Z :=
  match fuel with
  | O => (m, e)
  | S f =>
      if Z.ltb e 0 && Z.eqb (Z.rem m 10) 0 then strip_zeros f (Z.quot m 10) (e + 1)
      else (m, e)
  end.

(** The pair kept for a number: an integer has exponent 0, a fraction has
    a negative exponent and a mantissa that does not end in 0. *)
Definition normalise (fuel : nat) (m e : Z) : Z * Z :=
  if Z.eqb m 0 then (0, 0)%Z
  else if Z.leb 0 e then (m * 10 ^ e, 0)%Z
  else strip_zeros fuel m e.

(** [-? int frac? exp?] *)
Definition read_number (s : string) : option (json * string) :=
  let '(neg, s1) :=
    match s with
    | String "-" r => (true, r)
    | _ => (false, s)
    end in
  let int_part :=
    match s1 with
    | String "0" r => Some (0%Z, r)
    | _ => match read_digits s1 0 0 with
           | (_, O, _) => None
           | (v, _, r) => Some (v, r)
           end
    end in
  match int_part with
  | None => None
  | Some (iv, s2) =>
      let frac :=
        match s2 with
        | String "." r =>
            match read_digits r iv 0 with
            | (_, O, _) => None
            | (v, n, r') => Some (v, Z.of_nat n, r')
            end
        | _ => Some (iv, 0%Z, s2)
        end in
      match frac with
      | None => None
      | Some (mv, fd, s3) =>
          let expo :=
            match s3 with
            | String c r =>
                if Ascii.eqb c "e" || Ascii.eqb c "E" then
                  let '(eneg, r1) :=
                    match r with
                    | String "-" r' => (true, r')
                    | String "+" r' => (false, r')
                    | _ => (false, r)
                    end in
                  match read_digits r1 0 0 with
                  | (_, O, _) => None
                  | (v, _, r2) => Some ((if eneg then - v else v)%Z, r2)
                  end
                else Some (0%Z, s3)
            | EmptyString => Some (0%Z, s3)
            end in
          match expo with
          | None => None
          | Some (ev, s4) =>
              let m := (if neg then - mv else mv)%Z in
              let '(m', e') := normalise (String.length s) m (ev - fd) in
              Some (JNum m' e', s4)
          end
      end
  end.

Definition read_literal (lit : string) (v : json) (s : string) : option (json * string) :=
  if JS.startsWith lit s then Some (v, JS.substring (String.length lit) s) else None.

(** Values, the members of an object after its opening brace and the
    elements of an array after its opening bracket. [fuel] bounds the number
    of nested calls; every call consumes input, so the length of the input
    is enough. *)
Fixpoint read_value (fuel : nat) (s : string) : option (json * string) :=
  match fuel with
  | O => None
  | S f =>
      match skip_ws s with
      | EmptyString => None
      | String c r as s0 =>
          if Ascii.eqb c "{" then
            match skip_ws r with
            | String "}" r' => Some (JObj [], r')
            | _ => read_members f r []
            end
          else if Ascii.eqb c "[" then
            match skip_ws r with
            | String "]" r' => Some (JArr [], r')
            | _ => read_elements f r []
            end
          else if Ascii.eqb c dquote then
            match read_string r with
            | Some (t, r') => Some (JStr t, r')
            | None => None
            end
          else if Ascii.eqb c "t" then read_literal "true" (JBool true) s0
          else if Ascii.eqb c "f" then read_literal "false" (JBool false) s0
          else if Ascii.eqb c "n" then read_literal "null" JNull s0
          else read_number s0
      end
  end
with read_members (fuel : nat) (s : string) (acc : list (string * json)) : option (json * string) :=
  match fuel with
  | O => None
  | S f =>
      match skip_ws s with
      | String c r =>
          if Ascii.eqb c dquote then
            match read_string r with
            | Some (k, r1) =>
                match skip_ws r1 with
                | String ":" r2 =>
                    match read_value f r2 with
                    | Some (v, r3) =>
                        match skip_ws r3 with
                        | String "," r4 => read_members f r4 (set_prop k v acc)
                        | String "}" r4 => Some (JObj (set_prop k v acc), r4)
                        | _ => None
                        end
                    | None => None
                    end
                | _ => None
                end
            | None => None
            end
          else None
      | EmptyString => None
      end
  end
with read_elements (fuel : nat) (s : string) (acc : list json) : option (json * string) :=
  match fuel with
  | O => None
  | S f =>
      match read_value f s with
      | Some (v, r) =>
          match skip_ws r with
          | String "," r' => read_elements f r' (acc ++ [v])
          | String "]" r' => Some (JArr (acc ++ [v]), r')
          | _ => None
          end
      | None => None
      end
  end.

(** The whole text must be one value, white space around it allowed. *)
Definition parse (s : string) : option json :=
  match read_value (S (String.length s)) s with
  | Some (v, r) => match skip_ws r with EmptyString => Some v | _ => None end
  | None => None
  end.

End JSON.

(** ** Coercions of the language on JSON values *)

Module Coerce.

(** Truthiness of a value; [None] is [undefined]. *)
Definition truthy (v : option json) : bool :=
  match v with
  | None | Some JNull => false
  | Some (JBool b) => b
  | Some (JNum m _) => negb (Z.eqb m 0)
  | Some (JStr s) => negb (String.eqb s EmptyString)
  | Some (JArr _) | Some (JObj _) => true
  end.

(** [String(v)], which is also what a template literal and string
    concatenation apply to a value. *)
Fixpoint to_string (v : json) : string :=
  match v with
  | JNull => "null"
  | JBool true => "true"
  | JBool false => "false"
  | JNum m e => JSON.number_to_string m e
  | JStr s => s
  | JArr items =>
      JSON.join "," (List.map (fun x => match x with JNull => EmptyString | _ => to_string x end) items)
  | JObj _ => "[object Object]"
  end.

Definition to_string_opt (v : option json) : string :=
  match v with
  | None => "undefined"
  | Some x => to_string x
  end.

(** [v.k] on a value of type [any]: reading a property of [null] or
    [undefined] throws (the outer [None]); on an object the property or
    [undefined]; on other values [undefined] (none of the keys read by the
    application exists on a number, a boolean, a string or an array). *)
Definition get_prop (k : string) (v : json) : option (option json) :=
  match v with
  | JNull => None
  | JObj props => Some (JSON.lookup_prop k props)
  | _ => Some None
  end.

End Coerce.

(** ** URLs *)

(** The fields of a [URL] object the application reads; [searchKeys] are
    the names held by [searchParams]. *)
Record URL : Type := mkURL {
  hostname : string;
  pathname : string;
  searchKeys : list string
}.

Module Url.

Definition lower_char (c : ascii) : ascii :=
  let n := nat_of_ascii c in
  if (Nat.leb 65 n && Nat.leb n 90)
     || (Nat.leb 192 n && Nat.leb n 222 && negb (Nat.eqb n 215))
  then ascii_of_nat (n + 32) else c.

(** [s.toLowerCase()] *)
Fixpoint toLowerCase (s : string) : string :=
  match s with
  | EmptyString => EmptyString
  | String c s' => String (lower_char c) (toLowerCase s')
  end.

(** [s] cut at the first character satisfying [stop]. *)
Fixpoint break_at (stop : ascii -> bool) (s : string) : string * string :=
  match s with
  | EmptyString => (EmptyString, EmptyString)
  | String c s' =>
      if stop c then (EmptyString, s)
      else let '(a, b) := break_at stop s' in (String c a, b)
  end.

Definition is_alpha (c : ascii) : bool :=
  let n := nat_of_ascii (lower_char c) in Nat.leb 97 n && Nat.leb n 122.

Fixpoint all_chars (p : ascii -> bool) (s : string) : bool :=
  match s with
  | EmptyString => true
  | String c s' => p c && all_chars p s'
  end.

(** The last piece of [s] after the separator, when there is one. *)
Definition after_last (sep : ascii) (s : string) : string :=
  List.last (JS.split sep s) EmptyString.

(** A reference reader for [new URL(s)] on URLs of the shape
    [scheme://[user@]host[:port][/path][?query][#fragment]]; anything else is
    refused, as the platform refuses a text without a scheme. Percent
    decoding of query names is outside the model. *)
Definition parse (s : string) : option URL :=
  let '(scheme, r) := break_at (Ascii.eqb ":") s in
  if negb (all_chars is_alpha scheme) || String.eqb scheme EmptyString then None
  else if negb (JS.startsWith "://" r) then None
  else
    let r1 := JS.substring 3 r in
    let '(authority, r2) :=
      break_at (fun c => Ascii.eqb c "/" || Ascii.eqb c "?" || Ascii.eqb c "#") r1 in
    let hostport := after_last "@" authority in
    let '(host, _) := break_at (Ascii.eqb ":") hostport in
    if String.eqb host EmptyString then None
    else
      let '(path, r3) := break_at (fun c => Ascii.eqb c "?" || Ascii.eqb c "#") r2 in
      let '(query, _) :=
        match r3 with
        | String "?" q => break_at (Ascii.eqb "#") q
        | _ => (EmptyString, EmptyString)
        end in
      let keys :=
        if String.eqb query EmptyString then []
        else List.map (fun kv => fst (break_at (Ascii.eqb "=") kv))
                      (List.filter (fun kv => negb (String.eqb kv EmptyString)) (JS.split "&" query)) in
      Some {| hostname := toLowerCase host;
              pathname := if String.eqb path EmptyString then "/" else path;
              searchKeys := keys |}.

End Url.

(** ** The platform

    The parts of the runtime whose answers the routes only consume: the JSON
    reader with the message of the [SyntaxError] it throws, and the URL
    constructor ([None] when it throws). The wording of the two error
    messages differs between engines. *)
Record Platform : Type := mkPlatform {
  JSON_parse : string -> option json;
  JSON_error : string -> string;
  URL_parse : string -> option URL;
  null_error : string -> string     (* the TypeError of reading a property of null *)
}.

(** The reference platform, for concrete runs. *)
Definition reference_platform : Platform :=
  {| JSON_parse := JSON.parse;
     JSON_error := fun _ => "Unexpected token in JSON";
     URL_parse := Url.parse;
     null_error := fun k => "Cannot read properties of null (reading '" +:+ k +:+ "')" |}.

(** ** The world a request runs in *)

(** What [fetch(url)] gives: a response with [ok] true and its body, a
    response with [ok] false, or a thrown network error. *)
Inductive fetch_result : Type :=
| FetchOk (body : string)
| FetchNotOk (status : Z) (statusText : string)
| FetchThrows (message : string).

(** What running a shell command gives: the files it left behind, and either
    its two outputs or the message of the error [exec] rejects with. *)
Record exec_result : Type := mkExec {
  exec_files : list (string * string);
  exec_outcome : string * string + string
}.

(** What the child process does after [spawn]: chunks on its two outputs in
    the order the parent receives them, then either the [close] event with
    the exit code ([None] for [null], a process ended by a signal) or the
    [error] event of a process that could not be started. *)
Inductive worker_event : Type :=
| Stdout (chunk : string)
| Stderr (chunk : string).

Inductive worker_end : Type :=
| Close (code : option Z)
| SpawnError (message : string).

Record worker_run : Type := mkRun {
  run_events : list worker_event;
  run_end : worker_end
}.

(** The environment of one request. *)
Record Env : Type := mkEnv {
  cwd : string;                       (* process.cwd() *)
  uuidv4 : string;                    (* the identifier uuidv4() returns *)
  PYTHON_PATH : option string;        (* process.env.PYTHON_PATH *)
  fetch : string -> fetch_result;
  exec : string -> exec_result;
  spawn : string -> list string -> worker_run
}.

(** Calls that leave the process, in the order they were made. *)
Inductive effect : Type :=
| EFetch (url : string)
| EExec (command : string)
| ESpawn (command : string) (args : list string).

(** The mutable state: the files on disk, the chunks enqueued on the
    response stream and whether it was closed, the external calls made so
    far, and the exceptions that escaped a detached task. *)
Record World : Type := mkWorld {
  files : gmap string string;
  enqueued : list string;
  closed : bool;
  calls : list effect;
  uncaught : list string
}.

Definition initial_world (fs : gmap string string) : World :=
  {| files := fs; enqueued := []; closed := false; calls := []; uncaught := [] |}.

(** *** Computations: state and exceptions *)

Inductive outcome (A : Type) : Type :=
| Returned (a : A)
| Thrown (message : string).
Arguments Returned {A} a.
Arguments Thrown {A} message.

Definition M (A : Type) : Type := World -> outcome A * World.

Definition ret {A} (a : A) : M A := fun w => (Returned a, w).

Definition bind {A B} (m : M A) (k : A -> M B) : M B :=
  fun w => match m w with
           | (Returned a, w') => k a w'
           | (Thrown e, w') => (Thrown e, w')
           end.

(** [throw new Error(message)] *)
Definition throw {A} (message : string) : M A := fun w => (Thrown message, w).

(** [try { body } catch (e) { handler(e.message) }] *)
Definition try_catch {A} (body : M A) (handler : string -> M A) : M A :=
  fun w => match body w with
           | (Returned a, w') => (Returned a, w')
           | (Thrown e, w') => handler e w'
           end.

(** [try { body } finally { final }]: [final] always runs; what it throws
    replaces the outcome of [body]. *)
Definition try_finally {A} (body : M A) (final : M unit) : M A :=
  fun w => match body w with
           | (r, w') =>
               match final w' with
               | (Returned _, w'') => (r, w'')
               | (Thrown e, w'') => (Thrown e, w'')
               end
           end.

(** A task nobody awaits inside a [try]: an event handler or the [start]
    callback of a stream. What it throws is not seen by the caller. *)
Definition detached (task : M unit) : M unit :=
  fun w => match task w with
           | (Returned _, w') => (Returned tt, w')
           | (Thrown e, w') =>
               (Returned tt, {| files := files w'; enqueued := enqueued w';
                                closed := closed w'; calls := calls w';
                                uncaught := uncaught w' ++ [e] |})
           end.

Declare Scope js_scope.
Delimit Scope js_scope with js.
Notation "'let*' x ':=' m 'in' k" := (bind m (fun x => k))
  (at level 10, x pattern, m at level 100, k at level 200) : js_scope.
Notation "'do' m 'then' k" := (bind m (fun _ => k))
  (at level 10, m at level 100, k at level 200) : js_scope.
Local Open Scope js_scope.

(** [for (const x of xs) body(x)] *)
Fixpoint for_of {A} (xs : list A) (body : A -> M unit) : M unit :=
  match xs with
  | [] => ret tt
  | x :: rest => do body x then for_of rest body
  end.

(** *** File system *)

Module fs.

Definition existsSync (path : string) : M bool :=
  fun w => (Returned (bool_decide (is_Some (files w !! path))), w).

Definition writeFileSync (path data : string) : M unit :=
  fun w => (Returned tt, {| files := <[path := data]> (files w); enqueued := enqueued w;
                            closed := closed w; calls := calls w; uncaught := uncaught w |}).

(** Throws when there is no such file. *)
Definition unlinkSync (path : string) : M unit :=
  fun w => match files w !! path with
           | Some _ =>
               (Returned tt, {| files := delete path (files w); enqueued := enqueued w;
                                closed := closed w; calls := calls w; uncaught := uncaught w |})
           | None => (Thrown ("ENOENT: no such file or directory, unlink '" +:+ path +:+ "'"), w)
           end.

(** Throws when there is no such source file. *)
Definition renameSync (old new : string) : M unit :=
  fun w => match files w !! old with
           | Some data =>
               (Returned tt, {| files := <[new := data]> (delete old (files w));
                                enqueued := enqueued w; closed := closed w;
                                calls := calls w; uncaught := uncaught w |})
           | None => (Thrown ("ENOENT: no such file or directory, rename '" +:+ old +:+ "' -> '" +:+ new +:+ "'"), w)
           end.

End fs.

(** *** The controller of the response stream *)

Module controller.

(** Throws once the stream is closed. *)
Definition enqueue (chunk : string) : M unit :=
  fun w => if closed w then (Thrown "Invalid state: Controller is already closed", w)
           else (Returned tt, {| files := files w; enqueued := enqueued w ++ [chunk];
                                 closed := closed w; calls := calls w; uncaught := uncaught w |}).

Definition close : M unit :=
  fun w => if closed w then (Thrown "Invalid state: Controller is already closed", w)
           else (Returned tt, {| files := files w; enqueued := enqueued w;
                                 closed := true; calls := calls w; uncaught := uncaught w |}).

End controller.

(** Records a call that leaves the process. *)
Definition call (e : effect) : M unit :=
  fun w => (Returned tt, {| files := files w; enqueued := enqueued w;
                            closed := closed w; calls := calls w ++ [e]; uncaught := uncaught w |}).

(** ** Shared shapes of the two routes *)

Definition LF : ascii := ascii_of_nat 10.

(** The marker of a progress line. *)
Definition MARKER : string := "PROGRESS:".

(** A frame of the event stream: [`data: ${payload}\n\n`]. *)
Definition sse (payload : string) : string :=
  "data: " +:+ payload +:+ String LF (String LF EmptyString).

(** [`${code}`] for the exit code passed to the [close] handler. *)
Definition show_code (code : option Z) : string :=
  match code with
  | Some z => JS.string_of_Z z
  | None => "null"
  end.

(** [code !== 0] *)
Definition nonzero (code : option Z) : bool :=
  match code with
  | Some z => negb (Z.eqb z 0)
  | None => true
  end.

(** [acceptHeader?.includes('text/event-stream')], taken as a condition. *)
Definition wants_event_stream (accept : option string) : bool :=
  match accept with
  | Some h => JS.includes "text/event-stream" h
  | None => false
  end.

(** What a route handler returns: [NextResponse.json(body, { status })], or
    a [Response] over the stream, whose chunks are [enqueued] in the world. *)
Inductive response : Type :=
| JsonResponse (body : json) (status : Z)
| EventStream.

(** The default Python script of both routes, under the working directory. *)
Definition whisper_script (E : Env) : string :=
  cwd E +:+ "/src/app/api/transcribe/local/whisper_local.py".

(** [path.join(process.cwd(), 'tmp')] *)
Definition TEMP_DIR (E : Env) : string := cwd E +:+ "/tmp".

(** ** The upload route: [src/app/api/transcribe/local/route.ts] *)

(** A value of a multipart form: a text field or a file ([Blob]). *)
Inductive form_value : Type :=
| FormText (s : string)
| FormBlob (bytes : string).

(** An upload request: its form data, or the message [request.formData()]
    rejects with when the body is not a form, and its [accept] header. *)
Record upload_request : Type := mkUpload {
  upload_form : string + list (string * form_value);
  upload_accept : option string
}.

Module Upload.

Record callbacks : Type := mkCallbacks {
  onProgress : json -> M unit;
  onComplete : json -> M unit;
  onError : string -> M unit
}.

(** [formData.get(name)]: the first value of that name, or [null]. *)
Fixpoint form_get (name : string) (form : list (string * form_value)) : option form_value :=
  match form with
  | [] => None
  | (k, v) :: rest => if String.eqb k name then Some v else form_get name rest
  end.

(** [!audioFile]: [null] and the empty text are falsy. *)
Definition falsy (audioFile : option form_value) : bool :=
  match audioFile with
  | None => true
  | Some (FormText s) => String.eqb s EmptyString
  | Some (FormBlob _) => false
  end.

(** [audioFile instanceof Blob] *)
Definition instanceof_Blob (audioFile : option form_value) : bool :=
  match audioFile with
  | Some (FormBlob _) => true
  | _ => false
  end.

(** [await audioFile.arrayBuffer()], read only behind the [Blob] test. *)
Definition arrayBuffer (audioFile : option form_value) : string :=
  match audioFile with
  | Some (FormBlob bytes) => bytes
  | _ => EmptyString
  end.

Section Route.

Variable P : Platform.
Variable E : Env.

Definition pythonPath : string :=
  match PYTHON_PATH E with
  | Some p => if String.eqb p EmptyString
              then "/Users/stellaandorno/.pyenv/versions/whisper_stepbystep/bin/python"
              else p
  | None => "/Users/stellaandorno/.pyenv/versions/whisper_stepbystep/bin/python"
  end.

Definition cleanupFile (filePath : string) : M unit :=
  try_catch (fs.unlinkSync filePath) (fun _ => ret tt).

(** The body of the loop over the lines of a chunk of the worker's
    diagnostic output. *)
Definition stderr_line (cb : callbacks) (line : string) : M unit :=
  if JS.startsWith MARKER line then
    try_catch
      (let progressJson := JS.substring (String.length MARKER) line in
       match JSON_parse P progressJson with
       | Some progressData => onProgress cb progressData
       | None => throw (JSON_error P progressJson)
       end)
      (fun _ => ret tt)
  else ret tt.

(** The two [data] handlers, applied to the events of the run in order;
    returns [stdoutData] and [stderrData]. *)
Fixpoint pump (cb : callbacks) (events : list worker_event) (stdoutData stderrData : string)
  : M (string * string) :=
  match events with
  | [] => ret (stdoutData, stderrData)
  | Stdout chunk :: rest => pump cb rest (stdoutData +:+ chunk) stderrData
  | Stderr chunk :: rest =>
      do for_of (JS.split LF chunk) (stderr_line cb)
      then pump cb rest stdoutData (stderrData +:+ chunk)
  end.

(** The [close] handler of [runPythonScriptWithProgress]. *)
Definition on_close (cb : callbacks) (code : option Z) (stdoutData stderrData : string) : M unit :=
  if nonzero code then
    onError cb ("Python script exited with code " +:+ show_code code +:+ ": " +:+ stderrData)
  else
    try_catch
      (match JS.match_braces stdoutData with
       | Some jsonStr =>
           match JSON_parse P jsonStr with
           | Some result => onComplete cb result
           | None => throw (JSON_error P jsonStr)
           end
       | None => onError cb "Invalid response format from transcription service"
       end)
      (fun _ => onError cb "Failed to parse transcription result").

Definition runPythonScriptWithProgress (filePath : string) (cb : callbacks) : M unit :=
  let scriptPath := whisper_script E in
  do call (ESpawn pythonPath [scriptPath; filePath]) then
  let run := spawn E pythonPath [scriptPath; filePath] in
  let* data := pump cb (run_events run) EmptyString EmptyString in
  match run_end run with
  | Close code => on_close cb code (fst data) (snd data)
  | SpawnError message =>
      onError cb ("Failed to start transcription process: " +:+ message)
  end.

(** The callbacks [handleProgressStreamRequest] gives to the supervisor. *)
Definition stream_callbacks (filePath : string) : callbacks :=
  {| onProgress := fun progress =>
       controller.enqueue (sse (JSON.stringify progress));
     onComplete := fun result =>
       do controller.enqueue
            (sse (JSON.stringify (JObj [("type", JStr "complete"); ("result", result)])))
       then do controller.close
       then cleanupFile filePath;
     onError := fun error =>
       do controller.enqueue
            (sse (JSON.stringify (JObj [("type", JStr "error"); ("error", JStr error)])))
       then do controller.close
       then cleanupFile filePath |}.

Definition handleProgressStreamRequest (filePath : string) : M response :=
  do detached (runPythonScriptWithProgress filePath (stream_callbacks filePath))
  then ret EventStream.

(** Only the final output is read here; the promise is settled by the
    [close] or the [error] event. *)
Fixpoint collect (events : list worker_event) (stdoutData stderrData : string) : string * string :=
  match events with
  | [] => (stdoutData, stderrData)
  | Stdout chunk :: rest => collect rest (stdoutData +:+ chunk) stderrData
  | Stderr chunk :: rest => collect rest stdoutData (stderrData +:+ chunk)
  end.

Definition runPythonScript (scriptPath : string) (args : list string) : M json :=
  do call (ESpawn pythonPath (scriptPath :: args)) then
  let run := spawn E pythonPath (scriptPath :: args) in
  let '(stdoutData, stderrData) := collect (run_events run) EmptyString EmptyString in
  match run_end run with
  | Close code =>
      if nonzero code then
        throw ("Python script exited with code " +:+ show_code code +:+ ": " +:+ stderrData)
      else
        try_catch
          (match JS.match_braces stdoutData with
           | Some jsonStr =>
               match JSON_parse P jsonStr with
               | Some result => ret result
               | None => throw (JSON_error P jsonStr)
               end
           | None => ret (JObj [("text", JStr (JS.trim stdoutData))])
           end)
          (fun error => throw error)
  | SpawnError message => throw message
  end.

Definition handleRegularRequest (filePath : string) : M response :=
  let scriptPath := whisper_script E in
  let* found := fs.existsSync scriptPath in
  if negb found then
    ret (JsonResponse (JObj [("error", JStr "Server configuration error: Script not found")]) 500)
  else
    try_catch
      (let* result := runPythonScript scriptPath [filePath] in
       do cleanupFile filePath then
       ret (JsonResponse result 200))
      (fun message =>
         do cleanupFile filePath then
         ret (JsonResponse (JObj [("error", JStr ("Transcription failed: " +:+ message))]) 500)).

Definition POST (request : upload_request) : M response :=
  try_catch
    (let fileId := uuidv4 E in
     let filePath := TEMP_DIR E +:+ "/" +:+ fileId +:+ ".mp3" in
     let* formData :=
       match upload_form request with
       | inr form => ret form
       | inl message => throw message
       end in
     let audioFile := form_get "audio" formData in
     if falsy audioFile || negb (instanceof_Blob audioFile) then
       ret (JsonResponse (JObj [("error", JStr "No audio file provided")]) 400)
     else
       let buffer := arrayBuffer audioFile in
       do fs.writeFileSync filePath buffer then
       if wants_event_stream (upload_accept request)
       then handleProgressStreamRequest filePath
       else handleRegularRequest filePath)
    (fun message =>
       ret (JsonResponse
              (JObj [("error", JStr ("Server error processing transcription: " +:+ message))])
              500)).

End Route.

End Upload.

(** ** The URL route: [src/app/api/transcribe-url/route.ts] *)

(** A URL request: the text of its body and its [accept] header. *)
Record url_request : Type := mkUrlRequest {
  url_body : string;
  url_accept : option string
}.

Module UrlRoute.

Definition youtubeHosts : list string :=
  ["youtube.com"; "www.youtube.com"; "m.youtube.com"; "youtu.be"].

(** [hosts.includes(h)] on an array of strings. *)
Definition array_includes (hosts : list string) (h : string) : bool :=
  existsb (String.eqb h) hosts.

(** [outputPath.replace(/\.[^/.]+$/, "")]: the leftmost dot followed, up to
    the end, by one or more characters other than a slash and a dot. *)
Fixpoint strip_extension (s : string) : string :=
  match s with
  | EmptyString => EmptyString
  | String c s' =>
      if Ascii.eqb c "."
         && negb (String.eqb s' EmptyString)
         && Url.all_chars (fun d => negb (Ascii.eqb d "/" || Ascii.eqb d ".")) s'
      then EmptyString
      else String c (strip_extension s')
  end.

(** [line.indexOf('PROGRESS:')] where the line is known to include the
    marker. *)
Definition marker_offset (line : string) : nat :=
  match JS.indexOf MARKER line with
  | Some i => i
  | None => 0
  end.

(** A text between double quotes, as the command line has them. *)
Definition quoted (s : string) : string :=
  String JSON.dquote (s +:+ String JSON.dquote EmptyString).

Section Route.

Variable P : Platform.
Variable E : Env.

Definition isYouTubeURL (url : string) : bool :=
  match URL_parse P url with
  | Some urlObj =>
      let hostname := Url.toLowerCase (hostname urlObj) in
      let isYouTubeDomain := array_includes youtubeHosts hostname in
      if JS.includes "youtube.com" hostname then
        let hasVideoPath :=
          JS.includes "/watch" (pathname urlObj)
          || JS.includes "/shorts/" (pathname urlObj)
          || JS.includes "/embed/" (pathname urlObj)
          || array_includes (searchKeys urlObj) "v" in
        isYouTubeDomain && hasVideoPath
      else if String.eqb hostname "youtu.be" then
        Nat.ltb 1 (String.length (pathname urlObj))
      else false
  | None => false
  end.

(** Adds the files a command left behind. *)
Definition leave_files (written : list (string * string)) : M unit :=
  for_of written (fun kv => fs.writeFileSync (fst kv) (snd kv)).

Definition downloadYouTubeAudio (url outputPath : string) : M unit :=
  try_catch
    (let pathWithoutExtension := strip_extension outputPath in
     let ytDlpPath := cwd E +:+ "/.venv/bin/yt-dlp" in
     let command :=
       quoted ytDlpPath +:+ " -x --audio-format mp3 -o "
       +:+ quoted (pathWithoutExtension +:+ ".%(ext)s") +:+ " " +:+ quoted url in
     do call (EExec command) then
     let result := exec E command in
     do leave_files (exec_files result) then
     match exec_outcome result with
     | inr message => throw message
     | inl _ =>
         let expectedFile := pathWithoutExtension +:+ ".mp3" in
         let* found := fs.existsSync expectedFile in
         if negb found then
           throw ("Expected audio file was not created at: " +:+ expectedFile)
         else if negb (String.eqb expectedFile outputPath) then
           fs.renameSync expectedFile outputPath
         else ret tt
     end)
    (fun message =>
       if JS.includes "timeout" message then
         throw "Download timed out - the video might be too long or your connection too slow"
       else if JS.includes "not available" message then
         throw "This YouTube video is not available for download (might be private or deleted)"
       else throw ("YouTube download failed: " +:+ message)).

Definition downloadAudioFromUrl (url outputPath : string) : M unit :=
  try_catch
    (do call (EFetch url) then
     match fetch E url with
     | FetchThrows message => throw message
     | FetchNotOk status statusText =>
         throw ("Failed to fetch audio: " +:+ JS.string_of_Z status +:+ " " +:+ statusText)
     | FetchOk body => fs.writeFileSync outputPath body
     end)
    (fun message => throw ("Failed to download audio from URL: " +:+ message)).

(** The body of the loop over the lines of a chunk of the worker's
    diagnostic output, run only when a progress callback was given. *)
Definition stderr_line (onProgress : json -> M unit) (line : string) : M unit :=
  if JS.includes MARKER line then
    try_catch
      (let progressStr := JS.substring (marker_offset line + 9) line in
       match JSON_parse P progressStr with
       | Some progressData => onProgress progressData
       | None => throw (JSON_error P progressStr)
       end)
      (fun _ => ret tt)
  else ret tt.

Fixpoint pump (onProgress : option (json -> M unit)) (events : list worker_event)
  (stdoutData stderrData : string) : M (string * string) :=
  match events with
  | [] => ret (stdoutData, stderrData)
  | Stdout chunk :: rest => pump onProgress rest (stdoutData +:+ chunk) stderrData
  | Stderr chunk :: rest =>
      do match onProgress with
         | Some f => for_of (JS.split LF chunk) (stderr_line f)
         | None => ret tt
         end
      then pump onProgress rest stdoutData (stderrData +:+ chunk)
  end.

(** The [close] handler: settles the promise. *)
Definition on_close (code : option Z) (stdoutData stderrData : string) : M json :=
  if nonzero code then
    throw ("Python script failed with code " +:+ show_code code +:+ ": " +:+ stderrData)
  else
    try_catch
      (match JS.match_braces stdoutData with
       | Some jsonStr =>
           match JSON_parse P jsonStr with
           | Some result => ret result
           | None => throw (JSON_error P jsonStr)
           end
       | None => ret (JObj [("text", JStr (JS.trim stdoutData))])
       end)
      (fun message => throw ("Failed to parse transcription result: " +:+ message)).

Definition runPythonScriptWithProgress (scriptPath : string) (args : list string)
  (onProgress : option (json -> M unit)) : M json :=
  let pythonPath := cwd E +:+ "/.venv/bin/python" in
  do call (ESpawn pythonPath (scriptPath :: args)) then
  let run := spawn E pythonPath (scriptPath :: args) in
  let* data := pump onProgress (run_events run) EmptyString EmptyString in
  match run_end run with
  | Close code => on_close code (fst data) (snd data)
  | SpawnError message => throw ("Failed to start Python transcription: " +:+ message)
  end.

Definition handleStreamingTranscription (scriptPath filePath : string) : M response :=
  do detached
       (try_finally
          (try_catch
             (let* _ := runPythonScriptWithProgress scriptPath [filePath]
                          (Some (fun progress =>
                                   controller.enqueue (sse (JSON.stringify progress)))) in
              controller.enqueue (sse (JSON.stringify (JObj [("type", JStr "complete")]))))
             (fun message =>
                controller.enqueue
                  (sse (JSON.stringify (JObj [("type", JStr "error"); ("error", JStr message)])))))
          (do try_catch (fs.unlinkSync filePath) (fun _ => ret tt)
           then controller.close))
  then ret EventStream.

(** [await request.json()] *)
Definition request_json (request : url_request) : M json :=
  match JSON_parse P (url_body request) with
  | Some v => ret v
  | None => throw (JSON_error P (url_body request))
  end.

Definition POST (request : url_request) : M response :=
  try_catch
    (let* body := request_json request in
     let* audioUrl :=
       match Coerce.get_prop "audioUrl" body with
       | Some v => ret v
       | None => throw (null_error P "audioUrl")
       end in
     if negb (Coerce.truthy audioUrl) then
       ret (JsonResponse (JObj [("error", JStr "Audio URL is required")]) 400)
     else
       let audioUrl := Coerce.to_string_opt audioUrl in
       let wantsStreaming := wants_event_stream (url_accept request) in
       let fileId := uuidv4 E in
       let filePath := TEMP_DIR E +:+ "/" +:+ fileId +:+ ".mp3" in
       do (if isYouTubeURL audioUrl
           then downloadYouTubeAudio audioUrl filePath
           else downloadAudioFromUrl audioUrl filePath) then
       let scriptPath := whisper_script E in
       let* found := fs.existsSync scriptPath in
       if negb found then
         ret (JsonResponse (JObj [("error", JStr "Server configuration error: Script not found")]) 500)
       else if wantsStreaming then
         handleStreamingTranscription scriptPath filePath
       else
         let* result := runPythonScriptWithProgress scriptPath [filePath] None in
         do try_catch (fs.unlinkSync filePath) (fun _ => ret tt) then
         ret (JsonResponse result 200))
    (fun message =>
       ret (JsonResponse
              (JObj [("error", JStr "Server error processing URL"); ("message", JStr message)])
              500)).

End Route.

End UrlRoute.

(** ** The stream consumer: [src/app/page.tsx] *)

Record ProgressState : Type := mkProgress {
  percentage : option json;
  stage : option json;
  elapsed_time : option json;
  estimated_total_time : option json;
  isActive : bool
}.

(** The state of the page the consumer writes to, with the alerts shown. *)
Record Page : Type := mkPage {
  transcription : option json;
  isLoading : bool;
  progress : ProgressState;
  alerts : list string
}.

(** The response of [fetch] as the consumer reads it: [ok], [status] and
    the chunks its body reader delivers ([None] when there is no body). *)
Record http_response : Type := mkResponse {
  resp_ok : bool;
  resp_status : Z;
  resp_chunks : option (list string)
}.

Module Client.

Definition setTranscription (v : option json) (p : Page) : Page :=
  {| transcription := v; isLoading := isLoading p; progress := progress p; alerts := alerts p |}.

Definition setIsLoading (b : bool) (p : Page) : Page :=
  {| transcription := transcription p; isLoading := b; progress := progress p; alerts := alerts p |}.

Definition setProgress (f : ProgressState -> ProgressState) (p : Page) : Page :=
  {| transcription := transcription p; isLoading := isLoading p;
     progress := f (progress p); alerts := alerts p |}.

Definition alert (message : string) (p : Page) : Page :=
  {| transcription := transcription p; isLoading := isLoading p;
     progress := progress p; alerts := alerts p ++ [message] |}.

(** [v === 'text'] *)
Definition is_text (text : string) (v : option json) : bool :=
  match v with
  | Some (JStr s) => String.eqb s text
  | _ => false
  end.

(** A property of a value already known not to be [null]. *)
Definition prop (k : string) (v : json) : option json :=
  match Coerce.get_prop k v with
  | Some x => x
  | None => None
  end.

(** The update made on a [progress] event. *)
Definition on_progress (eventData : json) (prev : ProgressState) : ProgressState :=
  {| percentage := prop "percentage" eventData;
     stage := prop "stage" eventData;
     elapsed_time := prop "elapsed_time" eventData;
     estimated_total_time := prop "estimated_total_time" eventData;
     isActive := isActive prev |}.

(** The update made on a [complete] event. *)
Definition on_complete (prev : ProgressState) : ProgressState :=
  {| percentage := Some (JInt 100);
     stage := Some (JStr "complete");
     elapsed_time := elapsed_time prev;
     estimated_total_time := estimated_total_time prev;
     isActive := false |}.

Definition deactivate (prev : ProgressState) : ProgressState :=
  {| percentage := percentage prev; stage := stage prev;
     elapsed_time := elapsed_time prev;
     estimated_total_time := estimated_total_time prev;
     isActive := false |}.

Section Consumer.

Variable P : Platform.

(** What [processStreamingResponse] does with a decoded event; the boolean
    tells whether the loop over the lines is left by [break]. The error
    thrown for an [error] event is thrown inside the [try]: it is caught
    there and only logged, like a [TypeError] of reading [type]. *)
Definition url_event (eventData : json) (p : Page) : Page * bool :=
  match Coerce.get_prop "type" eventData with
  | None => (p, false)
  | Some type =>
      if is_text "progress" type then
        (setProgress (on_progress eventData) p, false)
      else if is_text "complete" type then
        let result := prop "result" eventData in
        (setIsLoading false (setProgress on_complete (setTranscription result p)), true)
      else if is_text "error" type then (p, false)
      else (p, false)
  end.

(** The body of the loop over the lines of a chunk in
    [processStreamingResponse]. *)
Definition url_line (line : string) (p : Page) : Page * bool :=
  if JS.startsWith "data: " line then
    match JSON_parse P (JS.substring 6 line) with
    | None => (p, false)
    | Some eventData => url_event eventData p
    end
  else (p, false).

Fixpoint url_lines (lines : list string) (p : Page) : Page :=
  match lines with
  | [] => p
  | line :: rest =>
      let '(p', broke) := url_line line p in
      if broke then p' else url_lines rest p'
  end.

(** The [while] loop of [processStreamingResponse]: one turn per chunk
    read, until the reader is done. *)
Definition processStreamingResponse_loop (chunks : list string) (p : Page) : Page :=
  fold_left (fun q chunk => url_lines (JS.split LF chunk) q) chunks p.

(** What [handleProgressTranscription] does with a decoded event. *)
Definition upload_event (eventData : json) (p : Page) : Page :=
  match Coerce.get_prop "type" eventData with
  | None => p
  | Some type =>
      if is_text "progress" type then setProgress (on_progress eventData) p
      else if is_text "complete" type then
        let result := prop "result" eventData in
        setIsLoading false (setProgress on_complete (setTranscription result p))
      else if is_text "error" type then
        alert ("Transcription failed: " +:+ Coerce.to_string_opt (prop "error" eventData))
              (setIsLoading false (setProgress deactivate p))
      else p
  end.

(** The body of the loop over the lines of a chunk in
    [handleProgressTranscription]. *)
Definition upload_line (line : string) (p : Page) : Page :=
  if JS.startsWith "data: " line then
    match JSON_parse P (JS.substring 6 line) with
    | None => p
    | Some eventData => upload_event eventData p
    end
  else p.

Definition upload_lines (lines : list string) (p : Page) : Page :=
  fold_left (fun q line => upload_line line q) lines p.

(** The [while] loop of [handleProgressTranscription]. *)
Definition handleProgressTranscription_loop (chunks : list string) (p : Page) : Page :=
  fold_left (fun q chunk => upload_lines (JS.split LF chunk) q) chunks p.

(** The state [handleProgressTranscription] starts from. *)
Definition starting (p : Page) : Page :=
  setProgress
    (fun _ => {| percentage := Some (JInt 0); stage := Some (JStr "starting");
                 elapsed_time := Some (JInt 0); estimated_total_time := None;
                 isActive := true |})
    (setTranscription (Some (JStr EmptyString)) (setIsLoading true p)).

(** The [catch] of [handleProgressTranscription]. *)
Definition failed (message : string) (p : Page) : Page :=
  alert ("Transcription failed: " +:+ message)
        (setProgress deactivate (setIsLoading false p)).

(** [handleProgressTranscription] from the point where the server has
    answered; [url] tells whether the form carried an [audioUrl] field. *)
Definition handleProgressTranscription (url : bool) (response : http_response) (p : Page) : Page :=
  let p0 := starting p in
  if negb (resp_ok response) then
    failed ("Server error: " +:+ JS.string_of_Z (resp_status response)) p0
  else
    match resp_chunks response with
    | None => failed "Failed to establish streaming connection" p0
    | Some chunks =>
        if url then processStreamingResponse_loop chunks p0
        else handleProgressTranscription_loop chunks p0
    end.

End Consumer.

End Client.

(** ** Notions used in the statements *)

(** The text a run writes on each of its two outputs. *)
Fixpoint stdout_of (events : list worker_event) : string :=
  match events with
  | [] => EmptyString
  | Stdout chunk :: rest => chunk +:+ stdout_of rest
  | Stderr _ :: rest => stdout_of rest
  end.

Fixpoint stderr_of (events : list worker_event) : string :=
  match events with
  | [] => EmptyString
  | Stdout _ :: rest => stderr_of rest
  | Stderr chunk :: rest => chunk +:+ stderr_of rest
  end.

(** The value a line of the diagnostic output stands for, if any: in the
    upload route and in the URL route. *)
Definition upload_decode (P : Platform) (line : string) : option json :=
  if JS.startsWith MARKER line
  then JSON_parse P (JS.substring (String.length MARKER) line)
  else None.

Definition url_decode (P : Platform) (line : string) : option json :=
  if JS.includes MARKER line
  then JSON_parse P (JS.substring (UrlRoute.marker_offset line + 9) line)
  else None.

(** The progress values of a run, in the order of their lines. *)
Fixpoint progress_of (decode : string -> option json) (events : list worker_event) : list json :=
  match events with
  | [] => []
  | Stdout _ :: rest => progress_of decode rest
  | Stderr chunk :: rest => omap decode (JS.split LF chunk) ++ progress_of decode rest
  end.

(** A callback called inside a [try] whose [catch] only logs. *)
Definition guarded (f : json -> M unit) (v : json) : M unit :=
  try_catch (f v) (fun _ => ret tt).

(** The frames of the event stream. *)
Definition frame (v : json) : string := sse (JSON.stringify v).

Definition error_frame (message : string) : string :=
  frame (JObj [("type", JStr "error"); ("error", JStr message)]).

Definition complete_frame (result : json) : string :=
  frame (JObj [("type", JStr "complete"); ("result", result)]).

Definition bare_complete_frame : string :=
  frame (JObj [("type", JStr "complete")]).

(** The last frame of a streamed upload job, by the way the run ended. *)
Definition upload_terminal (P : Platform) (run : worker_run) : string :=
  match run_end run with
  | Close code =>
      if nonzero code then
        error_frame ("Python script exited with code " +:+ show_code code +:+ ": "
                     +:+ stderr_of (run_events run))
      else
        match JS.match_braces (stdout_of (run_events run)) with
        | Some jsonStr =>
            match JSON_parse P jsonStr with
            | Some result => complete_frame result
            | None => error_frame "Failed to parse transcription result"
            end
        | None => error_frame "Invalid response format from transcription service"
        end
  | SpawnError message =>
      error_frame ("Failed to start transcription process: " +:+ message)
  end.

(** How the promise of the URL route's supervisor settles: the result it
    resolves with, or the message it rejects with. *)
Definition url_settles (P : Platform) (run : worker_run) : json + string :=
  match run_end run with
  | Close code =>
      if nonzero code then
        inr ("Python script failed with code " +:+ show_code code +:+ ": "
             +:+ stderr_of (run_events run))
      else
        match JS.match_braces (stdout_of (run_events run)) with
        | Some jsonStr =>
            match JSON_parse P jsonStr with
            | Some result => inl result
            | None => inr ("Failed to parse transcription result: " +:+ JSON_error P jsonStr)
            end
        | None => inl (JObj [("text", JStr (JS.trim (stdout_of (run_events run))))])
        end
  | SpawnError message => inr ("Failed to start Python transcription: " +:+ message)
  end.

(** The last frame of a streamed URL job. *)
Definition url_terminal (P : Platform) (run : worker_run) : string :=
  match url_settles P run with
  | inl _ => bare_complete_frame
  | inr message => error_frame message
  end.

(** The progress callbacks of the URL route's supervisor, which may have
    been given none. *)
Definition run_progress (f : option (json -> M unit)) (vs : list json) : M unit :=
  match f with
  | Some g => for_of vs (guarded g)
  | None => ret tt
  end.

(** The world once more chunks have been enqueued. *)
Definition push (chunks : list string) (w : World) : World :=
  {| files := files w; enqueued := enqueued w ++ chunks; closed := closed w;
     calls := calls w; uncaught := uncaught w |}.

(** The world after a streamed job that spawned the worker, enqueued
    [frames], closed the stream and removed the artifact. *)
Definition streamed (spawned : effect) (frames : list string) (filePath : string)
  (w : World) : World :=
  {| files := delete filePath (files w); enqueued := enqueued w ++ frames;
     closed := true; calls := calls w ++ [spawned]; uncaught := uncaught w |}.

(** The call that spawns the worker, in each route. *)
Definition upload_spawn (E : Env) (filePath : string) : effect :=
  ESpawn (Upload.pythonPath E) [whisper_script E; filePath].

Definition upload_run (E : Env) (filePath : string) : worker_run :=
  spawn E (Upload.pythonPath E) [whisper_script E; filePath].

Definition url_spawn (E : Env) (scriptPath : string) (args : list string) : effect :=
  ESpawn (cwd E +:+ "/.venv/bin/python") (scriptPath :: args).

Definition url_run (E : Env) (scriptPath : string) (args : list string) : worker_run :=
  spawn E (cwd E +:+ "/.venv/bin/python") (scriptPath :: args).

(** A settled promise, awaited. *)
Definition settle {A} (r : A + string) : M A :=
  match r with
  | inl a => ret a
  | inr message => throw message
  end.

(** The path of the artifact of a request. *)
Definition artifact (E : Env) : string :=
  TEMP_DIR E +:+ "/" +:+ uuidv4 E +:+ ".mp3".

(** The world once [url] has been fetched, and once its body has been
    written to the artifact. *)
Definition fetched (url : string) (w : World) : World :=
  {| files := files w; enqueued := enqueued w; closed := closed w;
     calls := calls w ++ [EFetch url]; uncaught := uncaught w |}.

Definition downloaded (url filePath content : string) (w : World) : World :=
  {| files := <[filePath := content]> (files w); enqueued := enqueued w;
     closed := closed w; calls := calls w ++ [EFetch url]; uncaught := uncaught w |}.

(** A request body that reads as an object whose [audioUrl] is the
    non-empty string [url]. *)
Definition asks_for (P : Platform) (request : url_request) (url : string) : Prop :=
  exists body,
    JSON_parse P (url_body request) = Some body
    /\ Coerce.get_prop "audioUrl" body = Some (Some (JStr url))
    /\ url <> EmptyString.

(** The hosts of the long-form video domain among [youtubeHosts]. *)
Definition long_form_hosts : list string :=
  ["youtube.com"; "www.youtube.com"; "m.youtube.com"].

(** A path or a query parameter that points at a video. *)
Definition has_video_signal (u : URL) : bool :=
  JS.includes "/watch" (pathname u)
  || JS.includes "/shorts/" (pathname u)
  || JS.includes "/embed/" (pathname u)
  || UrlRoute.array_includes (searchKeys u) "v".



(** A text without a line feed. *)
Fixpoint no_LF (s : string) : bool :=
  match s with
  | EmptyString => true
  | String c s' => negb (Ascii.eqb c LF) && no_LF s'
  end.

(** The bytes of a sequence of whole frames, given their payloads. *)
Fixpoint wire (payloads : list string) : string :=
  match payloads with
  | [] => EmptyString
  | payload :: rest => sse payload +:+ wire rest
  end.

(** A payload without a line feed that reads as the event [snd sv]. *)
Definition well_framed (P : Platform) (sv : string * json) : Prop :=
  no_LF (fst sv) = true /\ JSON_parse P (fst sv) = Some (snd sv).

(** The events of one chunk as [processStreamingResponse] handles them: in
    order, up to and including the first [complete] event. *)
Fixpoint url_events (events : list json) (p : Page) : Page :=
  match events with
  | [] => p
  | eventData :: rest =>
      let '(p', broke) := Client.url_event eventData p in
      if broke then p' else url_events rest p'
  end.

(** ** Concrete runs

    A small deployment on the reference platform, used to run the routes
    and the consumer on explicit inputs. *)

Module Demo.

Definition NL : string := String LF EmptyString.

(** The server: the application lives in [/app]; the worker behaves as
    [run] and the network answers [answer] whatever is asked. *)
Definition server (run : worker_run) (answer : fetch_result) : Env :=
  {| cwd := "/app";
     uuidv4 := "0b5c2f9e";
     PYTHON_PATH := None;
     fetch := fun _ => answer;
     exec := fun _ => {| exec_files := []; exec_outcome := inr "Command failed" |};
     spawn := fun _ _ => run |}.

(** The disk holds the worker's script and nothing else. *)
Definition disk : gmap string string :=
  {[ "/app/src/app/api/transcribe/local/whisper_local.py" := "import whisper" ]}.

Definition start : World := initial_world disk.

Definition tmp_file : string := "/app/tmp/0b5c2f9e.mp3".

Definition script : string := "/app/src/app/api/transcribe/local/whisper_local.py".

Definition result : json :=
  JObj [("success", JBool true); ("text", JStr "hello world");
        ("processing_time", JNum 12 (-1))].

Definition progress_50 : json :=
  JObj [("type", JStr "progress"); ("percentage", JInt 50);
        ("stage", JStr "starting_transcription"); ("elapsed_time", JNum 25 (-1))].

Definition progress_150 : json :=
  JObj [("type", JStr "progress"); ("percentage", JInt 150);
        ("stage", JStr "finalizing"); ("elapsed_time", JInt 9)].

(** A progress line as the worker prints it. *)
Definition progress_line (v : json) : string := MARKER +:+ JSON.stringify v +:+ NL.

(** A run that succeeds after one progress line. *)
Definition good_run : worker_run :=
  {| run_events := [Stderr ("Loading model" +:+ NL); Stderr (progress_line progress_50);
                    Stdout (JSON.stringify result +:+ NL)];
     run_end := Close (Some 0%Z) |}.

(** A run that fails with exit code 1 after one progress line. *)
Definition failing_run : worker_run :=
  {| run_events := [Stderr (progress_line progress_50);
                    Stderr ("RuntimeError: out of memory" +:+ NL)];
     run_end := Close (Some 1%Z) |}.

(** A run that succeeds and prints plain text only. *)
Definition plain_run : worker_run :=
  {| run_events := [Stdout ("  hello world " +:+ NL)];
     run_end := Close (Some 0%Z) |}.





(** A request for a plain audio URL, streamed or not. *)
Definition audio_url : string := "https://example.org/talk.mp3".

Definition audio_request (accept : option string) : url_request :=
  {| url_body := JSON.stringify (JObj [("audioUrl", JStr audio_url)]);
     url_accept := accept |}.

(** An upload whose form holds a title and no file. *)
Definition empty_upload : upload_request :=
  {| upload_form := inr [("title", FormText "talk")];
     upload_accept := Some "text/event-stream" |}.

(** The page before a job, and the two halves of a progress frame cut in
    the middle of its payload. *)
Definition idle : Page :=
  {| transcription := Some (JStr EmptyString);
     isLoading := false;
     progress := {| percentage := Some (JInt 0); stage := Some (JStr "idle");
                    elapsed_time := Some (JInt 0); estimated_total_time := None;
                    isActive := false |};
     alerts := [] |}.

Definition first_half : string := JSON.take 30 (frame progress_50).

Definition second_half : string := JS.substring 30 (frame progress_50).

End Demo.


(** ** Further notions used in the statements *)

(** A text without the character [c]. *)
Fixpoint lacks (c : ascii) (s : string) : bool :=
  match s with
  | EmptyString => true
  | String d s' => negb (Ascii.eqb d c) && lacks c s'
  end.

(** A file extension as the pattern of [strip_extension] sees it: one or
    more characters, none of them a slash or a dot. *)
Definition is_extension (ext : string) : bool :=
  negb (String.eqb ext EmptyString)
  && Url.all_chars (fun d => negb (Ascii.eqb d "/" || Ascii.eqb d ".")) ext.

(** The files on disk once a command has left [written] behind. *)
Fixpoint write_all (written : list (string * string)) (m : gmap string string)
  : gmap string string :=
  match written with
  | [] => m
  | kv :: rest => write_all rest (<[fst kv := snd kv]> m)
  end.

(** The command line of the extraction tool for an output path
    [base ++ ".mp3"]. *)
Definition youtube_command (E : Env) (url base : string) : string :=
  UrlRoute.quoted (cwd E +:+ "/.venv/bin/yt-dlp") +:+ " -x --audio-format mp3 -o "
  +:+ UrlRoute.quoted (base +:+ ".%(ext)s") +:+ " " +:+ UrlRoute.quoted url.

(** The world once the extraction tool has run. *)
Definition extracted (E : Env) (url base : string) (w : World) : World :=
  {| files := write_all (exec_files (exec E (youtube_command E url base))) (files w);
     enqueued := enqueued w; closed := closed w;
     calls := calls w ++ [EExec (youtube_command E url base)]; uncaught := uncaught w |}.

(** The three shapes of the message [downloadYouTubeAudio] throws. *)
Definition youtube_failure (inner message : string) : Prop :=
  message = "Download timed out - the video might be too long or your connection too slow"
  \/ message = "This YouTube video is not available for download (might be private or deleted)"
  \/ message = "YouTube download failed: " +:+ inner.

(** The artifact path without its extension. *)
Definition artifact_base (E : Env) : string :=
  TEMP_DIR E +:+ "/" +:+ uuidv4 E.

(** What the URL route does once the audio is on disk. *)
Definition after_download (P : Platform) (E : Env) (request : url_request) : M response :=
  bind (fs.existsSync (whisper_script E))
    (fun found =>
       if negb found then
         ret (JsonResponse
                (JObj [("error", JStr "Server configuration error: Script not found")]) 500)
       else if wants_event_stream (url_accept request) then
         UrlRoute.handleStreamingTranscription P E (whisper_script E) (artifact E)
       else
         bind (UrlRoute.runPythonScriptWithProgress P E (whisper_script E) [artifact E] None)
           (fun result =>
              bind (try_catch (fs.unlinkSync (artifact E)) (fun _ => ret tt))
                (fun _ => ret (JsonResponse result 200)))).

(** The answer of the URL route's outer [catch]. *)
Definition url_failure_body (message : string) : json :=
  JObj [("error", JStr "Server error processing URL"); ("message", JStr message)].

Definition url_failure (message : string) : response :=
  JsonResponse (url_failure_body message) 500.

(** The world after a plain upload job: the worker was spawned and the
    artifact, written with [bytes], removed again. *)
Definition plain_upload_done (E : Env) (w : World) : World :=
  {| files := delete (artifact E) (files w); enqueued := enqueued w; closed := closed w;
     calls := calls w ++ [upload_spawn E (artifact E)]; uncaught := uncaught w |}.

(** An upload request that carries the file [bytes] in its [audio] field. *)
Definition uploads (request : upload_request) (bytes : string) : Prop :=
  exists form,
    upload_form request = inr form
    /\ Upload.form_get "audio" form = Some (FormBlob bytes).

(** A last frame of an event stream: a [complete] frame, with or without a
    result, or an [error] frame. *)
Definition terminal_frame (f : string) : Prop :=
  (exists result, f = complete_frame result)
  \/ f = bare_complete_frame
  \/ (exists message, f = error_frame message).

(** The bytes of a transport chunk that holds the frames of [values]. *)
Definition chunk_of (values : list json) : string :=
  wire (List.map JSON.stringify values).

(** The payload of a [complete] frame of the upload route, of a [complete]
    frame of the URL route, and of an [error] frame. *)
Definition complete_event (result : json) : json :=
  JObj [("type", JStr "complete"); ("result", result)].

Definition bare_complete_event : json := JObj [("type", JStr "complete")].

Definition error_event (message : string) : json :=
  JObj [("type", JStr "error"); ("error", JStr message)].

(** A response that carries an event stream delivered in [chunks]. *)
Definition streaming (chunks : list string) : http_response :=
  {| resp_ok := true; resp_status := 200; resp_chunks := Some chunks |}.

(** ** The recorder: [AudioRecorder], in [src/components/TranscriptionResult.tsx]

    [handleTranscribe] posts the recording to the upload route without
    asking for an event stream and hands a text to its parent. *)

(** What [fetch] gives the recorder: a response with its [ok] flag, its
    status and the text of its body, or a rejection. *)
Inductive fetch_answer : Type :=
| Answered (ok : bool) (status : Z) (body : string)
| Rejected (message : string).

(** What [fetch] resolves with for a JSON response of a route. *)
Definition json_answer (body : json) (status : Z) : fetch_answer :=
  Answered (Z.leb 200 status && Z.leb status 299) status (JSON.stringify body).

(** The callbacks a tab of the page gives to its component. *)
Record tab_handlers : Type := mkHandlers {
  onTranscriptionStart : Page -> Page;
  onTranscriptionComplete : json -> Page -> Page
}.

Module Home.

(** [handleTranscriptionComplete] of [src/app/page.tsx]. *)
Definition handleTranscriptionComplete (result : json) (p : Page) : Page :=
  Client.setProgress Client.deactivate
    (Client.setIsLoading false (Client.setTranscription (Some result) p)).

(** What [getTranscriptionHandler] returns for the [record] tab and for
    every tab other than [upload]. *)
Definition plain_handlers : tab_handlers :=
  {| onTranscriptionStart := Client.setIsLoading true;
     onTranscriptionComplete := handleTranscriptionComplete |}.

(** What the page passes to [LinkInput] as [onTranscriptionComplete]: a
    string goes to [handleTranscriptionComplete], anything else is only
    logged. *)
Definition link_complete (result : json) (p : Page) : Page :=
  match result with
  | JStr _ => handleTranscriptionComplete result p
  | _ => p
  end.

Definition link_handlers : tab_handlers :=
  {| onTranscriptionStart := Client.setIsLoading true;
     onTranscriptionComplete := link_complete |}.

End Home.

Module Recorder.

(** The text shown when anything goes wrong. *)
Definition apology : json :=
  JStr "Error: Could not transcribe audio. Please try again.".

Section Component.

Variable P : Platform.
Variable handlers : tab_handlers.

(** The [catch] of [handleTranscribe], reached with the parent already
    told that transcription started. *)
Definition apologise (p : Page) : bool * Page :=
  (false, onTranscriptionComplete handlers apology p).

(** [handleTranscribe]: the state is the recorder's own [isLoading] and the
    page of the parent; [audioBlob] is the recording, if any, and [answer]
    what the upload route answers. *)
Definition handleTranscribe (audioBlob : option string) (answer : fetch_answer)
  (state : bool * Page) : bool * Page :=
  match audioBlob with
  | None => state
  | Some _ =>
      let p := onTranscriptionStart handlers (snd state) in
      match answer with
      | Rejected _ => apologise p
      | Answered ok status body =>
          if negb ok then apologise p
          else
            match JSON_parse P body with
            | None => apologise p
            | Some data =>
                match Coerce.get_prop "success" data with
                | None => apologise p
                | Some success =>
                    if Coerce.truthy success && Coerce.truthy (Client.prop "text" data)
                    then
                      match Client.prop "text" data with
                      | Some text => (false, onTranscriptionComplete handlers text p)
                      | None => apologise p
                      end
                    else apologise p
                end
            end
      end
  end.

End Component.

(** The request [handleTranscribe] sends for a recording: the recording in
    the [audio] field and the default [accept] header. *)
Definition request (bytes : string) : upload_request :=
  {| upload_form := inr [("audio", FormBlob bytes)];
     upload_accept := Some "*/*" |}.

End Recorder.

(** ** The link form: [LinkInput], in [src/app/page.tsx]

    [handleSubmit] with [enableProgress] false, which is what the page
    passes on the link tab: the URL is posted to the URL route without
    asking for an event stream and a text is handed to the parent. *)

Module LinkInput.

Section Component.

Variable P : Platform.
Variable handlers : tab_handlers.

(** The [catch] of [handleSubmit] for an error with the message [message],
    followed by its [finally]. *)
Definition fail (message : string) (p : Page) : bool * Page :=
  (false, onTranscriptionComplete handlers (JStr ("Error: " +:+ message)) p).

(** [v || other], for a right-hand side that is a value. *)
Definition or_else (v : option json) (other : json) : json :=
  match v with
  | Some x => if Coerce.truthy v then x else other
  | None => other
  end.

(** [data.text || data.transcription || 'No transcription available'] *)
Definition shown (text transcription : option json) : json :=
  or_else text (or_else transcription (JStr "No transcription available")).

(** [handleSubmit]: the state is the form's own [isLoading] and the page of
    the parent; [audioUrl] is the text of the field and [answer] what the
    URL route answers. *)
Definition handleSubmit (audioUrl : string) (answer : fetch_answer)
  (state : bool * Page) : bool * Page :=
  if String.eqb audioUrl EmptyString then state
  else
    let p := onTranscriptionStart handlers (snd state) in
    match answer with
    | Rejected message => fail message p
    | Answered ok status body =>
        if negb ok then
          match JSON_parse P body with
          | None => fail (JSON_error P body) p
          | Some errorData =>
              match Coerce.get_prop "error" errorData with
              | None => fail (null_error P "error") p
              | Some error =>
                  if Coerce.truthy error then fail (Coerce.to_string_opt error) p
                  else fail "Transcription failed" p
              end
          end
        else
          match JSON_parse P body with
          | None => fail (JSON_error P body) p
          | Some data =>
              match Coerce.get_prop "text" data with
              | None => fail (null_error P "text") p
              | Some text =>
                  (false,
                   onTranscriptionComplete handlers
                     (shown text (Client.prop "transcription" data)) p)
              end
          end
    end.

End Component.

(** The request [handleSubmit] sends: the URL as [audioUrl] in a JSON body
    and the default [accept] header. *)
Definition request (audioUrl : string) : url_request :=
  {| url_body := JSON.stringify (JObj [("audioUrl", JStr audioUrl)]);
     url_accept := Some "*/*" |}.

End LinkInput.

(** ** Further concrete runs *)

Module Extra.

(** A server whose extraction tool leaves [left] behind and ends as
    [outcome], and whose network is down. *)
Definition tool_server (run : worker_run) (left : list (string * string))
  (outcome : string * string + string) : Env :=
  {| cwd := "/app";
     uuidv4 := "0b5c2f9e";
     PYTHON_PATH := None;
     fetch := fun _ => FetchThrows "fetch failed";
     exec := fun _ => {| exec_files := left; exec_outcome := outcome |};
     spawn := fun _ _ => run |}.

Definition video_url : string := "https://www.youtube.com/watch?v=abc".

Definition video_request (accept : option string) : url_request :=
  {| url_body := JSON.stringify (JObj [("audioUrl", JStr video_url)]);
     url_accept := accept |}.

(** An upload that carries a file. *)
Definition file_upload (accept : option string) : upload_request :=
  {| upload_form := inr [("audio", FormBlob "RIFF")];
     upload_accept := accept |}.


(** A world whose stream the consumer has left. *)
Definition cancelled : World :=
  {| files := <["/app/tmp/0b5c2f9e.mp3" := "RIFF"]> Demo.disk; enqueued := [];
     closed := true; calls := []; uncaught := [] |}.

End Extra.

(** ** The request [handleProgressTranscription] sends *)

(** What [handleProgressTranscription] is given: a [Blob] or a [FormData]. *)
Inductive audio_data : Type :=
| BlobData (bytes : string)
| FormData (fields : list (string * form_value)).

(** The request it sends: to the upload route or to the URL route. *)
Inductive outgoing : Type :=
| ToUpload (request : upload_request)
| ToUrl (request : url_request).

Module Submit.

(** [formData.has(name)] *)
Definition has (name : string) (fields : list (string * form_value)) : bool :=
  existsb (fun kv => String.eqb (fst kv) name) fields.

(** The value [JSON.stringify] sees for [formData.get('audioUrl')]: a text,
    a file, which has no property of its own to print, or [null]. *)
Definition as_json (v : option form_value) : json :=
  match v with
  | Some (FormText s) => JStr s
  | Some (FormBlob _) => JObj []
  | None => JNull
  end.

(** The endpoint, the headers and the body chosen at the top of
    [handleProgressTranscription]. *)
Definition request_of (audioData : audio_data) : outgoing :=
  match audioData with
  | FormData formData =>
      if has "audioUrl" formData then
        let audioUrl := as_json (Upload.form_get "audioUrl" formData) in
        ToUrl {| url_body := JSON.stringify (JObj [("audioUrl", audioUrl)]);
                 url_accept := Some "text/event-stream" |}
      else
        ToUpload {| upload_form := inr formData;
                    upload_accept := Some "text/event-stream" |}
  | BlobData bytes =>
      ToUpload {| upload_form := inr [("audio", FormBlob bytes)];
                  upload_accept := Some "text/event-stream" |}
  end.

End Submit.


(** * Properties *)

(** ** Strings *)

Section StringFacts.

Lemma append_cons (c : ascii) (a b : string) : String c a +:+ b = String c (a +:+ b).
Proof. reflexivity. Qed.

Lemma append_nil (b : string) : EmptyString +:+ b = b.
Proof. reflexivity. Qed.

Lemma append_assoc (a b c : string) : (a +:+ b) +:+ c = a +:+ (b +:+ c).
Proof.
  induction a as [|x a IH]; [reflexivity|].
  rewrite !append_cons. f_equal. exact IH.
Qed.

Lemma append_empty_r (a : string) : a +:+ EmptyString = a.
Proof.
  induction a as [|x a IH]; [reflexivity|].
  rewrite append_cons. f_equal. exact IH.
Qed.

Lemma length_append (a b : string) :
  String.length (a +:+ b) = (String.length a + String.length b)%nat.
Proof.
  induction a as [|x a IH]; [reflexivity|].
  rewrite append_cons. cbn [String.length]. rewrite IH. reflexivity.
Qed.

Lemma startsWith_append (a b : string) : JS.startsWith a (a +:+ b) = true.
Proof.
  induction a as [|x a IH]; [reflexivity|].
  rewrite append_cons. cbn [JS.startsWith]. now rewrite Ascii.eqb_refl, IH.
Qed.

Lemma substring_append (a b : string) : JS.substring (String.length a) (a +:+ b) = b.
Proof.
  induction a as [|x a IH]; [reflexivity|].
  rewrite append_cons. cbn [String.length JS.substring]. exact IH.
Qed.






End StringFacts.

(** ** Line decoding in the two supervisors *)

Section Decoding.

Variable P : Platform.






End Decoding.

(** ** Computations *)

Section MonadFacts.

Lemma bind_assoc {A B C} (m : M A) (k : A -> M B) (h : B -> M C) (w : World) :
  bind (bind m k) h w = bind m (fun a => bind (k a) h) w.
Proof. unfold bind. destruct (m w) as [[a|e] w']; reflexivity. Qed.

Lemma bind_ext {A B} (m : M A) (k k' : A -> M B) (w : World) :
  (forall a w', k a w' = k' a w') -> bind m k w = bind m k' w.
Proof. intros H. unfold bind. destruct (m w) as [[a|e] w']; [apply H | reflexivity]. Qed.

Lemma for_of_app {A} (xs ys : list A) (body : A -> M unit) (w : World) :
  for_of (xs ++ ys) body w = bind (for_of xs body) (fun _ => for_of ys body) w.
Proof.
  revert w; induction xs as [|x xs IH]; intros w; [reflexivity|].
  cbn [for_of app]. rewrite bind_assoc. apply bind_ext. intros _ w'. apply IH.
Qed.

Lemma bind_ext_l {A B} (m m' : M A) (k : A -> M B) (w : World) :
  m w = m' w -> bind m k w = bind m' k w.
Proof. intros H. unfold bind. now rewrite H. Qed.

Lemma for_of_app_bind {A B} (xs ys : list A) (body : A -> M unit) (k : unit -> M B) (w : World) :
  bind (for_of (xs ++ ys) body) k w =
  bind (for_of xs body) (fun _ => bind (for_of ys body) k) w.
Proof.
  rewrite <- bind_assoc. apply bind_ext_l, for_of_app.
Qed.

(** A loop over lines of which only some stand for a value is the loop over
    those values. *)
Lemma for_of_omap {A B} (decode : A -> option B) (body : A -> M unit) (act : B -> M unit)
  (xs : list A) (w : World) :
  (forall x w', body x w' = match decode x with
                            | Some v => act v w'
                            | None => (Returned tt, w')
                            end) ->
  for_of xs body w = for_of (omap decode xs) act w.
Proof.
  intros H. revert w; induction xs as [|x xs IH]; intros w; [reflexivity|].
  cbn [for_of omap list_omap]. unfold bind at 1. rewrite H.
  destruct (decode x) as [v|].
  - cbn [for_of]. unfold bind. destruct (act v w) as [[[]|e] w']; [apply IH | reflexivity].
  - apply IH.
Qed.



End MonadFacts.

(** ** The two supervisors as sequences of callbacks *)

Section Supervisors.

Variable P : Platform.

Lemma upload_line_decode (cb : Upload.callbacks) (line : string) (w : World) :
  Upload.stderr_line P cb line w =
  match upload_decode P line with
  | Some v => guarded (Upload.onProgress cb) v w
  | None => (Returned tt, w)
  end.
Proof.
  unfold Upload.stderr_line, upload_decode.
  destruct (JS.startsWith MARKER line); [|reflexivity].
  destruct (JSON_parse P _); reflexivity.
Qed.

Lemma url_line_decode (f : json -> M unit) (line : string) (w : World) :
  UrlRoute.stderr_line P f line w =
  match url_decode P line with
  | Some v => guarded f v w
  | None => (Returned tt, w)
  end.
Proof.
  unfold UrlRoute.stderr_line, url_decode.
  destruct (JS.includes MARKER line); [|reflexivity].
  destruct (JSON_parse P _); reflexivity.
Qed.

(** The data handlers of the upload route call the progress callback once
    per progress value, in order, and accumulate both outputs whole. *)
Lemma upload_pump (cb : Upload.callbacks) (events : list worker_event)
  (so se : string) (w : World) :
  Upload.pump P cb events so se w =
  bind (for_of (progress_of (upload_decode P) events) (guarded (Upload.onProgress cb)))
       (fun _ => ret (so +:+ stdout_of events, se +:+ stderr_of events)) w.
Proof.
  revert so se w; induction events as [|[chunk|chunk] events IH]; intros so se w.
  - cbn. now rewrite !append_empty_r.
  - cbn [Upload.pump progress_of stdout_of stderr_of]. rewrite IH, append_assoc. reflexivity.
  - cbn [Upload.pump progress_of stdout_of stderr_of].
    rewrite for_of_app_bind.
    erewrite bind_ext_l
      by (apply (for_of_omap (upload_decode P) _ (guarded (Upload.onProgress cb)));
          intros; apply upload_line_decode).
    apply bind_ext. intros _ w'. rewrite IH, append_assoc. reflexivity.
Qed.

Lemma url_pump (f : option (json -> M unit)) (events : list worker_event)
  (so se : string) (w : World) :
  UrlRoute.pump P f events so se w =
  bind (run_progress f (progress_of (url_decode P) events))
       (fun _ => ret (so +:+ stdout_of events, se +:+ stderr_of events)) w.
Proof.
  revert so se w; induction events as [|[chunk|chunk] events IH]; intros so se w.
  - destruct f; cbn; now rewrite !append_empty_r.
  - cbn [UrlRoute.pump progress_of stdout_of stderr_of]. rewrite IH, append_assoc. reflexivity.
  - cbn [UrlRoute.pump progress_of stdout_of stderr_of].
    destruct f as [g|]; cbn [run_progress].
    + rewrite for_of_app_bind.
      erewrite bind_ext_l
        by (apply (for_of_omap (url_decode P) _ (guarded g));
            intros; apply url_line_decode).
      apply bind_ext. intros _ w'. rewrite IH, append_assoc. reflexivity.
    + unfold bind at 1. cbn [ret]. rewrite IH, append_assoc. reflexivity.
Qed.

End Supervisors.

(** ** Streamed jobs *)

Section Streams.

Variable P : Platform.
Variable E : Env.

Lemma push_nil (w : World) : push [] w = w.
Proof. destruct w; unfold push; cbn. rewrite app_nil_r; reflexivity. Qed.

Lemma push_push (a b : list string) (w : World) : push b (push a w) = push (a ++ b) w.
Proof. unfold push; cbn. rewrite app_assoc; reflexivity. Qed.

Lemma enqueue_open (chunk : string) (w : World) :
  closed w = false -> controller.enqueue chunk w = (Returned tt, push [chunk] w).
Proof. intros H. unfold controller.enqueue, push. rewrite H. reflexivity. Qed.

(** While the stream is open, the progress callbacks of either relay put
    one frame per value on the stream, in order. *)
Lemma relay_progress (vs : list json) (w : World) :
  closed w = false ->
  for_of vs (guarded (fun progress => controller.enqueue (frame progress))) w
  = (Returned tt, push (List.map frame vs) w).
Proof.
  revert w; induction vs as [|v vs IH]; intros w Hopen.
  - cbn. rewrite push_nil; reflexivity.
  - cbn [for_of List.map]. unfold bind, guarded at 1, try_catch.
    rewrite enqueue_open by assumption.
    rewrite IH by assumption. rewrite push_push; reflexivity.
Qed.

Lemma cleanupFile_deletes (filePath : string) (w : World) :
  Upload.cleanupFile filePath w
  = (Returned tt, {| files := delete filePath (files w); enqueued := enqueued w;
                     closed := closed w; calls := calls w; uncaught := uncaught w |}).
Proof.
  unfold Upload.cleanupFile, try_catch, fs.unlinkSync.
  destruct (files w !! filePath) eqn:Hl; [reflexivity|].
  unfold ret. rewrite (delete_id (files w) filePath Hl). destruct w; reflexivity.
Qed.

(** The last callback of the upload relay: one frame, the stream closed,
    the artifact removed. *)
Lemma terminal_callback (chunk filePath : string) (w : World) :
  closed w = false ->
  bind (controller.enqueue chunk)
       (fun _ => bind controller.close (fun _ => Upload.cleanupFile filePath)) w
  = (Returned tt, {| files := delete filePath (files w); enqueued := enqueued w ++ [chunk];
                     closed := true; calls := calls w; uncaught := uncaught w |}).
Proof.
  intros Hopen. unfold bind at 1. rewrite enqueue_open by assumption.
  unfold bind, controller.close. cbn [closed push]. rewrite Hopen.
  rewrite cleanupFile_deletes. reflexivity.
Qed.

(** Whichever way the run ends, the streamed upload job enqueues one frame
    per progress value, then one last frame, closes the stream and removes
    the artifact, provided the stream is still open. *)
Lemma upload_stream_job (filePath : string) (w : World) :
  closed w = false ->
  Upload.runPythonScriptWithProgress P E filePath (Upload.stream_callbacks filePath) w
  = (Returned tt,
     streamed (upload_spawn E filePath)
       (List.map frame (progress_of (upload_decode P) (run_events (upload_run E filePath)))
        ++ [upload_terminal P (upload_run E filePath)])
       filePath w).
Proof.
  intros Hopen.
  unfold Upload.runPythonScriptWithProgress.
  fold (upload_run E filePath). fold (upload_spawn E filePath).
  set (run := upload_run E filePath).
  unfold bind at 1. unfold call at 1.
  unfold bind at 1. rewrite upload_pump. unfold bind at 1.
  cbn [Upload.stream_callbacks Upload.onProgress].
  fold frame.
  rewrite relay_progress by assumption.
  cbn [ret fst snd]. rewrite !append_nil.
  set (vs := List.map frame _).
  assert (Herr : forall message,
    Upload.onError (Upload.stream_callbacks filePath) message
      (push vs {| files := files w; enqueued := enqueued w; closed := closed w;
                  calls := calls w ++ [upload_spawn E filePath]; uncaught := uncaught w |})
    = (Returned tt, streamed (upload_spawn E filePath) (vs ++ [error_frame message]) filePath w)).
  { intros message. cbn [Upload.stream_callbacks Upload.onError].
    rewrite terminal_callback by exact Hopen.
    unfold streamed, error_frame, frame. cbn. rewrite app_assoc. reflexivity. }
  unfold upload_terminal.
  destruct (run_end run) as [code|message].
  - unfold Upload.on_close. destruct (nonzero code); [apply Herr|].
    unfold try_catch.
    destruct (JS.match_braces (stdout_of (run_events run))) as [jsonStr|];
      [|rewrite Herr; reflexivity].
    destruct (JSON_parse P jsonStr) as [result|].
    + cbn [Upload.stream_callbacks Upload.onComplete].
      rewrite terminal_callback by exact Hopen.
      unfold streamed, complete_frame, frame. cbn. rewrite app_assoc. reflexivity.

    + cbn [throw]. apply Herr.
  - apply Herr.
Qed.

End Streams.

Section UrlStreams.

Variable P : Platform.
Variable E : Env.

(** The supervisor of the URL route: the worker is spawned, the progress
    callback is called once per progress value, then the promise settles. *)
Lemma url_supervisor (scriptPath : string) (args : list string)
  (f : option (json -> M unit)) (w : World) :
  UrlRoute.runPythonScriptWithProgress P E scriptPath args f w
  = bind (call (url_spawn E scriptPath args))
      (fun _ => bind (run_progress f (progress_of (url_decode P)
                                        (run_events (url_run E scriptPath args))))
                  (fun _ => settle (url_settles P (url_run E scriptPath args)))) w.
Proof.
  unfold UrlRoute.runPythonScriptWithProgress.
  fold (url_run E scriptPath args). fold (url_spawn E scriptPath args).
  set (run := url_run E scriptPath args).
  apply bind_ext. intros _ w1.
  rewrite bind_ext_l with (m' := bind (run_progress f (progress_of (url_decode P) (run_events run)))
                                   (fun _ => ret (stdout_of (run_events run), stderr_of (run_events run))))
    by (rewrite url_pump, !append_nil; reflexivity).
  rewrite bind_assoc. apply bind_ext. intros _ w2.
  unfold bind at 1. cbn [ret fst snd].
  unfold url_settles, UrlRoute.on_close, settle.
  destruct (run_end run) as [code|message]; [|reflexivity].
  destruct (nonzero code); [reflexivity|].
  unfold try_catch.
  destruct (JS.match_braces (stdout_of (run_events run))) as [jsonStr|]; [|reflexivity].
  destruct (JSON_parse P jsonStr); reflexivity.
Qed.

Lemma unlink_guarded (filePath : string) (w : World) :
  try_catch (fs.unlinkSync filePath) (fun _ => ret tt) w
  = (Returned tt, {| files := delete filePath (files w); enqueued := enqueued w;
                     closed := closed w; calls := calls w; uncaught := uncaught w |}).
Proof. apply cleanupFile_deletes. Qed.

(** Whichever way the run ends, the streamed URL job enqueues one frame per
    progress value, then one last frame, removes the artifact and closes the
    stream, provided the stream is still open. *)
Lemma url_stream_job (scriptPath filePath : string) (w : World) :
  closed w = false ->
  UrlRoute.handleStreamingTranscription P E scriptPath filePath w
  = (Returned EventStream,
     streamed (url_spawn E scriptPath [filePath])
       (List.map frame (progress_of (url_decode P) (run_events (url_run E scriptPath [filePath])))
        ++ [url_terminal P (url_run E scriptPath [filePath])])
       filePath w).
Proof.
  intros Hopen.
  unfold UrlRoute.handleStreamingTranscription.
  set (run := url_run E scriptPath [filePath]).
  set (vs := progress_of (url_decode P) (run_events run)).
  fold frame.
  unfold bind at 1, detached, try_finally, try_catch at 1.
  unfold bind at 1. rewrite url_supervisor.
  fold run. fold vs.
  unfold bind at 1, call at 1. unfold bind at 1.
  cbn [run_progress]. rewrite relay_progress by exact Hopen.
  unfold url_terminal.
  destruct (url_settles P run) as [result|message]; cbn [settle ret throw].
  - fold bare_complete_frame. rewrite enqueue_open by exact Hopen.
    unfold bind at 1. rewrite unlink_guarded.
    unfold controller.close. cbn [closed push]. rewrite Hopen.
    unfold streamed, push. cbn. rewrite <- app_assoc. reflexivity.
  - fold (error_frame message). rewrite enqueue_open by exact Hopen.
    unfold bind at 1. rewrite unlink_guarded.
    unfold controller.close. cbn [closed push]. rewrite Hopen.
    unfold streamed, push. cbn. rewrite <- app_assoc. reflexivity.
Qed.

End UrlStreams.

(** ** How a run that ended is reported *)

Section Endings.

Variable P : Platform.
Variable E : Env.

Lemma collect_spec (events : list worker_event) (so se : string) :
  Upload.collect events so se = (so +:+ stdout_of events, se +:+ stderr_of events).
Proof.
  revert so se; induction events as [|[chunk|chunk] events IH]; intros so se.
  - cbn. rewrite !append_empty_r. reflexivity.
  - cbn [Upload.collect stdout_of stderr_of]. rewrite IH, append_assoc. reflexivity.
  - cbn [Upload.collect stdout_of stderr_of]. rewrite IH, append_assoc. reflexivity.
Qed.

(** The supervisor of the upload route, over any callbacks: the worker is
    spawned, the progress callback is called once per progress value, then
    the handler of the end of the run is called. *)
Lemma upload_supervisor (filePath : string) (cb : Upload.callbacks) (w : World) :
  Upload.runPythonScriptWithProgress P E filePath cb w
  = bind (call (upload_spawn E filePath))
      (fun _ =>
         bind (for_of (progress_of (upload_decode P) (run_events (upload_run E filePath)))
                 (guarded (Upload.onProgress cb)))
           (fun _ =>
              match run_end (upload_run E filePath) with
              | Close code =>
                  Upload.on_close P cb code (stdout_of (run_events (upload_run E filePath)))
                    (stderr_of (run_events (upload_run E filePath)))
              | SpawnError message =>
                  Upload.onError cb ("Failed to start transcription process: " +:+ message)
              end)) w.
Proof.
  unfold Upload.runPythonScriptWithProgress.
  fold (upload_run E filePath). fold (upload_spawn E filePath).
  apply bind_ext. intros _ w1.
  rewrite bind_ext_l
    with (m' := bind (for_of (progress_of (upload_decode P) (run_events (upload_run E filePath)))
                        (guarded (Upload.onProgress cb)))
                  (fun _ => ret (stdout_of (run_events (upload_run E filePath)),
                                 stderr_of (run_events (upload_run E filePath)))))
    by (rewrite upload_pump, !append_nil; reflexivity).
  rewrite bind_assoc. apply bind_ext. intros _ w2. reflexivity.
Qed.


(** C2, on the URL route. A streamed URL job whose run ends with exit code 0
    and whose output holds a readable result: the last frame enqueued is the
    bare [complete] frame, without the result the supervisor resolved with;
    the artifact is then removed and the stream closed. *)
Theorem url_complete_frame_has_no_result (scriptPath filePath jsonStr : string)
  (result : json) (w : World) :
  closed w = false ->
  run_end (url_run E scriptPath [filePath]) = Close (Some 0%Z) ->
  JS.match_braces (stdout_of (run_events (url_run E scriptPath [filePath]))) = Some jsonStr ->
  JSON_parse P jsonStr = Some result ->
  url_settles P (url_run E scriptPath [filePath]) = inl result
  /\ UrlRoute.handleStreamingTranscription P E scriptPath filePath w
     = (Returned EventStream,
        streamed (url_spawn E scriptPath [filePath])
          (List.map frame (progress_of (url_decode P)
                             (run_events (url_run E scriptPath [filePath])))
           ++ [frame (JObj [("type", JStr "complete")])])
          filePath w).
Proof.
  intros Hopen Hend Hmatch Hparse.
  assert (Hset : url_settles P (url_run E scriptPath [filePath]) = inl result).
  { unfold url_settles. rewrite Hend. cbn [nonzero Z.eqb negb]. rewrite Hmatch, Hparse. reflexivity. }
  split; [exact Hset|].
  rewrite url_stream_job by exact Hopen.
  unfold url_terminal. rewrite Hset. reflexivity.
Qed.

(** The upload route, for comparison: the last frame wraps the result. *)
Lemma upload_complete_frame_wraps_result (filePath jsonStr : string)
  (result : json) (w : World) :
  closed w = false ->
  run_end (upload_run E filePath) = Close (Some 0%Z) ->
  JS.match_braces (stdout_of (run_events (upload_run E filePath))) = Some jsonStr ->
  JSON_parse P jsonStr = Some result ->
  Upload.handleProgressStreamRequest P E filePath w
  = (Returned EventStream,
     streamed (upload_spawn E filePath)
       (List.map frame (progress_of (upload_decode P) (run_events (upload_run E filePath)))
        ++ [frame (JObj [("type", JStr "complete"); ("result", result)])])
       filePath w).
Proof.
  intros Hopen Hend Hmatch Hparse.
  unfold Upload.handleProgressStreamRequest, bind, detached.
  rewrite upload_stream_job by exact Hopen.
  unfold upload_terminal. rewrite Hend. cbn [nonzero Z.eqb negb].
  rewrite Hmatch, Hparse. reflexivity.
Qed.


End Endings.

(** ** Streamed jobs whose consumer has gone

    When the consumer cancels the stream before the run ends, the handlers
    of the run find the stream closed. *)

Section Disconnected.

Variable P : Platform.
Variable E : Env.

Lemma relay_progress_closed (vs : list json) (w : World) :
  closed w = true ->
  for_of vs (guarded (fun progress => controller.enqueue (frame progress))) w
  = (Returned tt, w).
Proof.
  intros Hclosed. induction vs as [|v vs IH]; [reflexivity|].
  cbn [for_of]. unfold bind, guarded at 1, try_catch, controller.enqueue at 1.
  rewrite Hclosed. cbn [ret]. exact IH.
Qed.

(** The upload relay cleans up after the last frame: with the stream
    closed, enqueueing that frame throws and the artifact is left behind. *)
Lemma upload_stream_disconnected (filePath : string) (w : World) :
  closed w = true ->
  Upload.handleProgressStreamRequest P E filePath w
  = (Returned EventStream,
     {| files := files w; enqueued := enqueued w; closed := closed w;
        calls := calls w ++ [upload_spawn E filePath];
        uncaught := uncaught w ++ ["Invalid state: Controller is already closed"] |}).
Proof.
  intros Hclosed.
  assert (Herr : forall message w1, closed w1 = true ->
            Upload.onError (Upload.stream_callbacks filePath) message w1
            = (Thrown "Invalid state: Controller is already closed", w1)).
  { intros message w1 H1. cbn [Upload.stream_callbacks Upload.onError].
    unfold bind at 1, controller.enqueue. rewrite H1. reflexivity. }
  unfold Upload.handleProgressStreamRequest, bind at 1, detached.
  rewrite upload_supervisor.
  unfold bind at 1, call at 1. unfold bind at 1.
  cbn [Upload.stream_callbacks Upload.onProgress]. fold frame.
  rewrite relay_progress_closed by exact Hclosed.
  set (w1 := {| files := files w; enqueued := enqueued w; closed := closed w;
                calls := calls w ++ [upload_spawn E filePath]; uncaught := uncaught w |}).
  assert (Hend :
    match run_end (upload_run E filePath) with
    | Close code =>
        Upload.on_close P (Upload.stream_callbacks filePath) code
          (stdout_of (run_events (upload_run E filePath)))
          (stderr_of (run_events (upload_run E filePath)))
    | SpawnError message =>
        Upload.onError (Upload.stream_callbacks filePath)
          ("Failed to start transcription process: " +:+ message)
    end w1 = (Thrown "Invalid state: Controller is already closed", w1)).
  { destruct (run_end (upload_run E filePath)) as [code|message];
      [|apply Herr; exact Hclosed].
    unfold Upload.on_close. destruct (nonzero code); [apply Herr; exact Hclosed|].
    unfold try_catch.
    destruct (JS.match_braces _) as [jsonStr|].
    - destruct (JSON_parse P jsonStr) as [result|].
      + cbn [Upload.stream_callbacks Upload.onComplete].
        unfold bind at 1, controller.enqueue at 1.
        change (closed w1) with (closed w). rewrite Hclosed.
        apply Herr. exact Hclosed.
      + cbn [throw]. apply Herr. exact Hclosed.
    - rewrite Herr by exact Hclosed. apply Herr. exact Hclosed. }
  rewrite Hend. reflexivity.
Qed.

(** The URL relay cleans up in a [finally]: the artifact is removed even
    though enqueueing the last frame throws. *)
Lemma url_stream_disconnected (scriptPath filePath : string) (w : World) :
  closed w = true ->
  UrlRoute.handleStreamingTranscription P E scriptPath filePath w
  = (Returned EventStream,
     {| files := delete filePath (files w); enqueued := enqueued w; closed := closed w;
        calls := calls w ++ [url_spawn E scriptPath [filePath]];
        uncaught := uncaught w ++ ["Invalid state: Controller is already closed"] |}).
Proof.
  intros Hclosed.
  unfold UrlRoute.handleStreamingTranscription.
  fold frame.
  unfold bind at 1, detached, try_finally, try_catch at 1.
  unfold bind at 1. rewrite url_supervisor.
  unfold bind at 1, call at 1. unfold bind at 1.
  cbn [run_progress]. rewrite relay_progress_closed by exact Hclosed.
  destruct (url_settles P (url_run E scriptPath [filePath])) as [result|message];
    cbn [settle ret throw];
    unfold controller.enqueue; rewrite Hclosed; cbn [closed]; cbv beta iota;
    unfold bind at 1; rewrite unlink_guarded;
    unfold controller.close; cbn [closed]; reflexivity.
Qed.

End Disconnected.

(** ** The URL route, request by request *)

Section UrlPost.

Variable P : Platform.
Variable E : Env.

Lemma append_inj_l (a b c : string) : a +:+ b = a +:+ c -> b = c.
Proof.
  induction a as [|x a IH]; [trivial|].
  rewrite !append_cons. intros H. injection H as H. exact (IH H).
Qed.

(** The artifact is not the worker's script. *)
Lemma artifact_not_script : artifact E <> whisper_script E.
Proof.
  unfold artifact, TEMP_DIR, whisper_script. rewrite append_assoc.
  intros H. apply append_inj_l in H. discriminate H.
Qed.

Lemma download_ok (url filePath content : string) (w : World) :
  fetch E url = FetchOk content ->
  UrlRoute.downloadAudioFromUrl E url filePath w
  = (Returned tt, downloaded url filePath content w).
Proof.
  intros H. unfold UrlRoute.downloadAudioFromUrl, try_catch, bind, call. rewrite H.
  reflexivity.
Qed.

Lemma download_not_ok (url filePath statusText : string) (status : Z) (w : World) :
  fetch E url = FetchNotOk status statusText ->
  UrlRoute.downloadAudioFromUrl E url filePath w
  = (Thrown ("Failed to download audio from URL: Failed to fetch audio: "
             +:+ JS.string_of_Z status +:+ " " +:+ statusText),
     fetched url w).
Proof.
  intros H. unfold UrlRoute.downloadAudioFromUrl, try_catch, bind, call. rewrite H.
  reflexivity.
Qed.


(** A request for a URL that is not taken for a video page: the route
    downloads it as a plain URL and goes on from there. *)
Lemma url_post_plain_url (request : url_request) (url : string) (w : World) :
  asks_for P request url ->
  UrlRoute.isYouTubeURL P url = false ->
  UrlRoute.POST P E request w
  = try_catch
      (bind (UrlRoute.downloadAudioFromUrl E url (artifact E))
         (fun _ =>
            bind (fs.existsSync (whisper_script E))
              (fun found =>
                 if negb found then
                   ret (JsonResponse
                          (JObj [("error", JStr "Server configuration error: Script not found")])
                          500)
                 else if wants_event_stream (url_accept request) then
                   UrlRoute.handleStreamingTranscription P E (whisper_script E) (artifact E)
                 else
                   bind (UrlRoute.runPythonScriptWithProgress P E (whisper_script E)
                           [artifact E] None)
                     (fun result =>
                        bind (try_catch (fs.unlinkSync (artifact E)) (fun _ => ret tt))
                          (fun _ => ret (JsonResponse result 200))))))
      (fun message =>
         ret (JsonResponse
                (JObj [("error", JStr "Server error processing URL"); ("message", JStr message)])
                500)) w.
Proof.
  intros (body & Hparse & Hget & Hne) Hyt.
  unfold UrlRoute.POST, UrlRoute.request_json.
  rewrite Hparse. unfold try_catch at 1. unfold bind at 1. cbn [ret].
  rewrite Hget. unfold bind at 1. cbn [ret Coerce.truthy Coerce.to_string_opt Coerce.to_string].
  destruct (String.eqb_spec url EmptyString) as [->|_]; [now elim Hne|].
  cbn [negb]. rewrite Hyt. reflexivity.
Qed.

(** C1, on the URL route. A request for a plain URL whose download
    succeeded, so that the artifact was written. If the worker's script is
    missing, the route answers 500 and the artifact stays on disk; if the
    request is not streamed and the worker exits with a non-zero code, the
    route answers 500 and the artifact stays on disk. *)
Theorem url_route_leaves_artifact (request : url_request) (url content : string) :
  asks_for P request url ->
  UrlRoute.isYouTubeURL P url = false ->
  fetch E url = FetchOk content ->
  (forall w,
     files w !! whisper_script E = None ->
     UrlRoute.POST P E request w
     = (Returned (JsonResponse
                    (JObj [("error", JStr "Server configuration error: Script not found")]) 500),
        downloaded url (artifact E) content w)
     /\ files (downloaded url (artifact E) content w) !! artifact E = Some content)
  /\ (forall w code,
        is_Some (files w !! whisper_script E) ->
        wants_event_stream (url_accept request) = false ->
        run_end (url_run E (whisper_script E) [artifact E]) = Close code ->
        nonzero code = true ->
        exists message w',
          UrlRoute.POST P E request w
          = (Returned (JsonResponse
                         (JObj [("error", JStr "Server error processing URL");
                                ("message", JStr message)]) 500), w')
          /\ files w' !! artifact E = Some content).
Proof.
  intros Hreq Hyt Hfetch. split.
  - intros w Hmissing. split; [|apply lookup_insert_eq].
    rewrite (url_post_plain_url request url w) by assumption.
    unfold try_catch, bind at 1. rewrite (download_ok _ _ _ _ Hfetch).
    unfold bind, fs.existsSync. cbn [files downloaded].
    rewrite lookup_insert_ne by apply artifact_not_script.
    rewrite Hmissing. rewrite bool_decide_false by (intros [? ?]; discriminate).
    reflexivity.
  - intros w code Hscript Hplain Hend Hcode.
    rewrite (url_post_plain_url request url w) by assumption.
    unfold try_catch at 1, bind at 1. rewrite (download_ok _ _ _ _ Hfetch).
    unfold bind at 1, fs.existsSync. cbn [files downloaded].
    rewrite lookup_insert_ne by apply artifact_not_script.
    rewrite bool_decide_true by exact Hscript. cbn [negb]. rewrite Hplain.
    unfold bind at 1. rewrite url_supervisor.
    unfold url_settles. rewrite Hend, Hcode.
    unfold bind, call. cbn [run_progress ret settle throw].
    eexists _, _. split; [reflexivity|]. apply lookup_insert_eq.
Qed.

End UrlPost.

Section BareChannel.

Variable P : Platform.
Variable E : Env.



End BareChannel.

(** ** The upload request without a file *)

(** C10. An upload whose form has no [audio] field, or whose [audio] field
    is a text and not a file: the route answers 400 with the error
    [No audio file provided] and leaves the world as it was; in particular
    no file has been written. *)
Theorem upload_without_audio_rejected (P : Platform) (E : Env) (request : upload_request)
  (form : list (string * form_value)) (w : World) :
  upload_form request = inr form ->
  (Upload.form_get "audio" form = None
   \/ exists s, Upload.form_get "audio" form = Some (FormText s)) ->
  Upload.POST P E request w
  = (Returned (JsonResponse (JObj [("error", JStr "No audio file provided")]) 400), w).
Proof.
  intros Hform Haudio. unfold Upload.POST, try_catch, bind. rewrite Hform. cbn [ret].
  destruct Haudio as [-> | [s ->]].
  - reflexivity.
  - cbn [Upload.falsy Upload.instanceof_Blob negb]. rewrite orb_true_r. reflexivity.
Qed.

(** With a file in the [audio] field, writing the artifact is the first
    thing the route does. *)
Lemma upload_with_audio_writes (P : Platform) (E : Env) (request : upload_request)
  (form : list (string * form_value)) (bytes : string) (w : World) :
  upload_form request = inr form ->
  Upload.form_get "audio" form = Some (FormBlob bytes) ->
  wants_event_stream (upload_accept request) = true ->
  closed w = false ->
  exists w', Upload.POST P E request w = (Returned EventStream, w')
             /\ files w' = delete (artifact E) (<[artifact E := bytes]> (files w)).
Proof.
  intros Hform Haudio Hstream Hopen.
  unfold Upload.POST, try_catch, bind at 1. rewrite Hform. cbn [ret]. rewrite Haudio.
  cbn [Upload.falsy Upload.instanceof_Blob negb orb Upload.arrayBuffer].
  unfold bind at 1, fs.writeFileSync. rewrite Hstream.
  unfold Upload.handleProgressStreamRequest, bind, detached.
  fold (artifact E).
  rewrite upload_stream_job by exact Hopen.
  eexists. split; reflexivity.
Qed.

(** The plain upload request has the same early return as the URL route:
    with the script missing it answers 500 and the artifact just written
    stays on disk. *)
Lemma upload_route_leaves_artifact_without_script (P : Platform) (E : Env)
  (request : upload_request) (form : list (string * form_value)) (bytes : string) (w : World) :
  upload_form request = inr form ->
  Upload.form_get "audio" form = Some (FormBlob bytes) ->
  wants_event_stream (upload_accept request) = false ->
  files w !! whisper_script E = None ->
  exists w', Upload.POST P E request w
             = (Returned (JsonResponse
                            (JObj [("error", JStr "Server configuration error: Script not found")])
                            500), w')
             /\ files w' !! artifact E = Some bytes.
Proof.
  intros Hform Haudio Hplain Hmissing.
  unfold Upload.POST, try_catch, bind at 1. rewrite Hform. cbn [ret]. rewrite Haudio.
  cbn [Upload.falsy Upload.instanceof_Blob negb orb Upload.arrayBuffer].
  unfold bind at 1, fs.writeFileSync. rewrite Hplain.
  unfold Upload.handleRegularRequest, bind, fs.existsSync. cbn [files].
  fold (artifact E).
  rewrite lookup_insert_ne by apply artifact_not_script.
  rewrite Hmissing, bool_decide_false by (intros [? ?]; discriminate).
  eexists. split; [reflexivity|]. apply lookup_insert_eq.
Qed.

(** ** Percentages *)


(** ** The stream consumer *)

Section ConsumerFacts.

Variable P : Platform.

Lemma split_line (a rest : string) :
  no_LF a = true -> JS.split LF (a +:+ String LF rest) = a :: JS.split LF rest.
Proof.
  induction a as [|c a IH]; intros H.
  - rewrite append_nil. cbn [JS.split]. rewrite Ascii.eqb_refl. reflexivity.
  - cbn [no_LF] in H. apply andb_true_iff in H as [Hc Ha].
    rewrite append_cons. cbn [JS.split].
    apply negb_true_iff in Hc. rewrite Hc, IH by exact Ha. reflexivity.
Qed.

Lemma no_LF_append (a b : string) : no_LF (a +:+ b) = no_LF a && no_LF b.
Proof.
  induction a as [|c a IH]; [reflexivity|].
  rewrite append_cons. cbn [no_LF]. rewrite IH, andb_assoc. reflexivity.
Qed.

(** A whole frame at the head of a chunk is one [data: ] line followed by
    an empty line. *)
Lemma split_frame (payload rest : string) :
  no_LF payload = true ->
  JS.split LF (sse payload +:+ rest)
  = ("data: " +:+ payload) :: EmptyString :: JS.split LF rest.
Proof.
  intros H. unfold sse. rewrite !append_assoc.
  change (String LF (String LF EmptyString) +:+ rest) with (String LF (String LF rest)).
  rewrite <- (append_assoc "data: " payload).
  rewrite split_line by (rewrite no_LF_append, H; reflexivity).
  reflexivity.
Qed.

Lemma upload_data_line (payload : string) (p : Page) :
  Client.upload_line P ("data: " +:+ payload) p
  = match JSON_parse P payload with
    | Some eventData => Client.upload_event eventData p
    | None => p
    end.
Proof.
  unfold Client.upload_line. rewrite startsWith_append.
  change 6%nat with (String.length "data: "). rewrite substring_append. reflexivity.
Qed.

Lemma url_data_line (payload : string) (p : Page) :
  Client.url_line P ("data: " +:+ payload) p
  = match JSON_parse P payload with
    | Some eventData => Client.url_event eventData p
    | None => (p, false)
    end.
Proof.
  unfold Client.url_line. rewrite startsWith_append.
  change 6%nat with (String.length "data: "). rewrite substring_append. reflexivity.
Qed.

Lemma upload_whole_frames (evs : list (string * json)) (p : Page) :
  Forall (well_framed P) evs ->
  Client.upload_lines P (JS.split LF (wire (List.map fst evs))) p
  = fold_left (fun q sv => Client.upload_event (snd sv) q) evs p.
Proof.
  intros H. revert p. induction H as [|[s v] evs [Hs Hv] _ IH]; intros p; [reflexivity|].
  cbn [List.map fst wire fold_left snd] in *.
  rewrite split_frame by exact Hs.
  unfold Client.upload_lines in *. cbn [fold_left].
  rewrite upload_data_line, Hv. apply IH.
Qed.

Lemma url_whole_frames (evs : list (string * json)) (p : Page) :
  Forall (well_framed P) evs ->
  Client.url_lines P (JS.split LF (wire (List.map fst evs))) p
  = url_events (List.map snd evs) p.
Proof.
  intros H. revert p. induction H as [|[s v] evs [Hs Hv] _ IH]; intros p; [reflexivity|].
  cbn [List.map fst wire snd url_events] in *.
  rewrite split_frame by exact Hs.
  cbn [Client.url_lines]. rewrite url_data_line, Hv.
  destruct (Client.url_event v p) as [p' [|]]; [reflexivity|].
  cbn [Client.url_line JS.startsWith]. apply IH.
Qed.

(** C9, as amended. The consumer decodes each chunk it reads on its own,
    line by line, and keeps nothing from one read to the next. When every
    chunk is made of whole frames, each frame is dispatched exactly once, in
    order: by the loop of [handleProgressTranscription] all of them, by the
    loop of [processStreamingResponse] those of each chunk up to its first
    [complete] event. *)
Theorem whole_frames_dispatched_once (chunks : list (list (string * json))) (p : Page) :
  Forall (Forall (well_framed P)) chunks ->
  Client.handleProgressTranscription_loop P
    (List.map (fun evs => wire (List.map fst evs)) chunks) p
  = fold_left (fun q sv => Client.upload_event (snd sv) q) (concat chunks) p
  /\ Client.processStreamingResponse_loop P
       (List.map (fun evs => wire (List.map fst evs)) chunks) p
     = fold_left (fun q evs => url_events (List.map snd evs) q) chunks p.
Proof.
  intros H. split.
  - revert p. induction H as [|evs chunks Hevs _ IH]; intros p; [reflexivity|].
    unfold Client.handleProgressTranscription_loop in *.
    cbn [List.map fold_left concat]. rewrite fold_left_app.
    rewrite upload_whole_frames by exact Hevs. apply IH.
  - revert p. induction H as [|evs chunks Hevs _ IH]; intros p; [reflexivity|].
    unfold Client.processStreamingResponse_loop in *.
    cbn [List.map fold_left]. rewrite url_whole_frames by exact Hevs. apply IH.
Qed.

End ConsumerFacts.

(** ** What the braces pattern finds *)

Lemma upto_last_close_some (b c : string) :
  exists t, JS.upto_last_close (b +:+ "}" +:+ c) = Some t.
Proof.
  induction b as [|x b [t IH]].
  - rewrite append_nil. change ("}" +:+ c) with (String "}" c). cbn [JS.upto_last_close].
    destruct (JS.upto_last_close c); eauto.
  - rewrite append_cons. cbn [JS.upto_last_close]. rewrite IH. eauto.
Qed.

Lemma upto_last_close_inv (s t : string) :
  JS.upto_last_close s = Some t -> exists b c, s = b +:+ "}" +:+ c /\ t = b +:+ "}".
Proof.
  revert t; induction s as [|x s IH]; intros t H; [discriminate|].
  cbn [JS.upto_last_close] in H.
  destruct (JS.upto_last_close s) as [u|].
  - destruct (IH u eq_refl) as (b & c & -> & ->).
    injection H as <-. exists (String x b), c. split; reflexivity.
  - destruct (Ascii.eqb_spec x "}") as [->|_]; [|discriminate].
    injection H as <-. exists EmptyString, s. split; reflexivity.
Qed.

(** The pattern matches exactly the texts that hold an opening brace with
    a closing brace somewhere after it, and what it captures starts at an
    opening brace and ends at a closing brace. *)
Lemma match_braces_some_iff (s : string) :
  (exists t, JS.match_braces s = Some t)
  <-> (exists a b c, s = a +:+ "{" +:+ b +:+ "}" +:+ c).
Proof.
  split.
  - intros [t H]. revert t H. induction s as [|x s IH]; intros t H; [discriminate|].
    cbn [JS.match_braces] in H.
    destruct (Ascii.eqb_spec x "{") as [->|_].
    + destruct (JS.upto_last_close s) as [u|] eqn:Hu.
      * destruct (upto_last_close_inv s u Hu) as (b & c & -> & _).
        exists EmptyString, b, c. reflexivity.
      * destruct (IH t H) as (a & b & c & ->).
        exists (String "{" a), b, c. reflexivity.
    + destruct (IH t H) as (a & b & c & ->).
      exists (String x a), b, c. reflexivity.
  - intros (a & b & c & ->). induction a as [|x a [t IH]].
    + rewrite append_nil. change ("{" +:+ b +:+ "}" +:+ c) with (String "{" (b +:+ "}" +:+ c)).
      cbn [JS.match_braces]. rewrite Ascii.eqb_refl.
      destruct (upto_last_close_some b c) as [t ->]. eauto.
    + rewrite append_cons. cbn [JS.match_braces]. rewrite IH.
      destruct (Ascii.eqb x "{"); [|eauto].
      destruct (JS.upto_last_close _); eauto.
Qed.

Lemma match_braces_none_iff (s : string) :
  JS.match_braces s = None
  <-> ~ (exists a b c, s = a +:+ "{" +:+ b +:+ "}" +:+ c).
Proof.
  rewrite <- match_braces_some_iff. split.
  - intros H [t Ht]. congruence.
  - intros H. destruct (JS.match_braces s) as [t|]; [|reflexivity].
    elim H. eauto.
Qed.

(** ** The statements on the concrete runs *)

(** The upload without a file is rejected and the disk is untouched. *)
Lemma upload_without_audio_rejected_witness :
  upload_form Demo.empty_upload = inr [("title", FormText "talk")]
  /\ Upload.form_get "audio" [("title", FormText "talk")] = None
  /\ Upload.POST reference_platform (Demo.server Demo.good_run (FetchOk EmptyString)) Demo.empty_upload Demo.start
     = (Returned (JsonResponse (JObj [("error", JStr "No audio file provided")]) 400),
        Demo.start).
Proof.
  split; [reflexivity|]. split; [reflexivity|].
  apply (upload_without_audio_rejected reference_platform _ Demo.empty_upload [("title", FormText "talk")]).
  - reflexivity.
  - left. reflexivity.
Defined.





(** The successful streamed URL job ends with the bare [complete] frame. *)
Lemma url_complete_frame_has_no_result_witness :
  closed Demo.start = false
  /\ run_end Demo.good_run = Close (Some 0%Z)
  /\ JS.match_braces (stdout_of (run_events Demo.good_run)) = Some (JSON.stringify Demo.result)
  /\ JSON_parse reference_platform (JSON.stringify Demo.result) = Some Demo.result
  /\ enqueued (snd (UrlRoute.handleStreamingTranscription reference_platform
                      (Demo.server Demo.good_run (FetchOk EmptyString))
                      Demo.script Demo.tmp_file Demo.start))
     = [frame Demo.progress_50; frame (JObj [("type", JStr "complete")])].
Proof.
  assert (H1 : JS.match_braces (stdout_of (run_events Demo.good_run))
               = Some (JSON.stringify Demo.result)) by (vm_compute; reflexivity).
  assert (H2 : JSON_parse reference_platform (JSON.stringify Demo.result) = Some Demo.result)
    by (vm_compute; reflexivity).
  split; [reflexivity|]. split; [reflexivity|]. split; [exact H1|]. split; [exact H2|].
  destruct (url_complete_frame_has_no_result reference_platform
              (Demo.server Demo.good_run (FetchOk EmptyString))
              Demo.script Demo.tmp_file _ Demo.result Demo.start eq_refl eq_refl H1 H2)
    as [_ Hjob].
  rewrite Hjob. reflexivity.
Defined.



(** A failed plain URL job leaves its artifact on disk, and so does a
    request that finds the script missing. *)
Lemma url_route_leaves_artifact_witness :
  asks_for reference_platform (Demo.audio_request None) Demo.audio_url
  /\ UrlRoute.isYouTubeURL reference_platform Demo.audio_url = false
  /\ (exists message w',
        UrlRoute.POST reference_platform (Demo.server Demo.failing_run (FetchOk "ID3"))
          (Demo.audio_request None) Demo.start
        = (Returned (JsonResponse
                       (JObj [("error", JStr "Server error processing URL");
                              ("message", JStr message)]) 500), w')
        /\ files w' !! Demo.tmp_file = Some "ID3")
  /\ UrlRoute.POST reference_platform (Demo.server Demo.failing_run (FetchOk "ID3"))
       (Demo.audio_request (Some "text/event-stream")) (initial_world ∅)
     = (Returned (JsonResponse
                    (JObj [("error", JStr "Server configuration error: Script not found")]) 500),
        downloaded Demo.audio_url Demo.tmp_file "ID3" (initial_world ∅)).
Proof.
  assert (H1 : asks_for reference_platform (Demo.audio_request None) Demo.audio_url).
  { exists (JObj [("audioUrl", JStr Demo.audio_url)]).
    split; [vm_compute; reflexivity|]. split; [reflexivity | discriminate]. }
  assert (H1' : asks_for reference_platform (Demo.audio_request (Some "text/event-stream"))
                  Demo.audio_url).
  { exists (JObj [("audioUrl", JStr Demo.audio_url)]).
    split; [vm_compute; reflexivity|]. split; [reflexivity | discriminate]. }
  assert (H2 : UrlRoute.isYouTubeURL reference_platform Demo.audio_url = false)
    by (vm_compute; reflexivity).
  split; [exact H1|]. split; [exact H2|]. split.
  - destruct (url_route_leaves_artifact reference_platform
                (Demo.server Demo.failing_run (FetchOk "ID3"))
                (Demo.audio_request None) Demo.audio_url "ID3" H1 H2 eq_refl) as [_ Hfail].
    apply (Hfail Demo.start (Some 1%Z)).
    + vm_compute. eauto.
    + reflexivity.
    + reflexivity.
    + reflexivity.
  - destruct (url_route_leaves_artifact reference_platform
                (Demo.server Demo.failing_run (FetchOk "ID3"))
                (Demo.audio_request (Some "text/event-stream")) Demo.audio_url "ID3"
                H1' H2 eq_refl) as [Hmissing _].
    apply (Hmissing (initial_world ∅)). reflexivity.
Defined.





(** Two chunks of whole frames are dispatched frame by frame. *)
Lemma whole_frames_dispatched_once_witness :
  Forall (Forall (well_framed reference_platform))
    [[(JSON.stringify Demo.progress_50, Demo.progress_50)];
     [(JSON.stringify Demo.progress_150, Demo.progress_150);
      (JSON.stringify (JObj [("type", JStr "complete"); ("result", Demo.result)]),
       JObj [("type", JStr "complete"); ("result", Demo.result)])]]
  /\ Client.handleProgressTranscription_loop reference_platform
       [frame Demo.progress_50;
        frame Demo.progress_150 +:+ complete_frame Demo.result] Demo.idle
     = Client.upload_event (JObj [("type", JStr "complete"); ("result", Demo.result)])
         (Client.upload_event Demo.progress_150
            (Client.upload_event Demo.progress_50 Demo.idle)).
Proof.
  assert (H : Forall (Forall (well_framed reference_platform))
    [[(JSON.stringify Demo.progress_50, Demo.progress_50)];
     [(JSON.stringify Demo.progress_150, Demo.progress_150);
      (JSON.stringify (JObj [("type", JStr "complete"); ("result", Demo.result)]),
       JObj [("type", JStr "complete"); ("result", Demo.result)])]]).
  { repeat constructor; vm_compute; reflexivity. }
  split; [exact H|].
  destruct (whole_frames_dispatched_once reference_platform _ Demo.idle H) as [Hup _].
  exact Hup.
Defined.

(** C9 fails: a progress frame that arrives in two reads is dispatched by
    neither loop, while the same bytes in one read are. *)
Lemma split_frame_is_lost :
  Demo.first_half +:+ Demo.second_half = frame Demo.progress_50
  /\ Client.handleProgressTranscription_loop reference_platform
       [Demo.first_half; Demo.second_half] Demo.idle = Demo.idle
  /\ Client.processStreamingResponse_loop reference_platform
       [Demo.first_half; Demo.second_half] Demo.idle = Demo.idle
  /\ percentage (progress (Client.handleProgressTranscription_loop reference_platform
                             [Demo.first_half +:+ Demo.second_half] Demo.idle))
     = Some (JInt 50).
Proof. repeat split; vm_compute; reflexivity. Qed.

(** * Further properties of the code *)

(** ** The two patterns *)

Lemma all_chars_append (p : ascii -> bool) (a b : string) :
  Url.all_chars p (a +:+ b) = Url.all_chars p a && Url.all_chars p b.
Proof.
  induction a as [|c a IH]; [reflexivity|].
  rewrite append_cons. cbn [Url.all_chars]. rewrite IH, andb_assoc. reflexivity.
Qed.

Lemma strip_extension_last (base ext : string) :
  is_extension ext = true ->
  UrlRoute.strip_extension (base +:+ "." +:+ ext) = base.
Proof.
  intros Hext. unfold is_extension in Hext. apply andb_true_iff in Hext as [Hne Hclean].
  induction base as [|c base IH].
  - rewrite append_nil. change ("." +:+ ext) with (String "." ext).
    cbn [UrlRoute.strip_extension]. rewrite Ascii.eqb_refl, Hne, Hclean. reflexivity.
  - rewrite append_cons. cbn [UrlRoute.strip_extension]. rewrite IH.
    destruct (Ascii.eqb c "."); [|reflexivity].
    rewrite all_chars_append. change ("." +:+ ext) with (String "." ext).
    cbn [Url.all_chars]. rewrite Ascii.eqb_refl, orb_true_r. cbn [negb andb].
    rewrite andb_false_r, andb_false_r. reflexivity.
Qed.

Lemma strip_extension_without_dot (base : string) :
  lacks "." base = true -> UrlRoute.strip_extension base = base.
Proof.
  induction base as [|c base IH]; intros H; [reflexivity|].
  cbn [lacks] in H. apply andb_true_iff in H as [Hc Hb].
  cbn [UrlRoute.strip_extension]. apply negb_true_iff in Hc. rewrite Hc, IH by exact Hb.
  reflexivity.
Qed.

(** [outputPath.replace(/\.[^/.]+$/, "")] removes the last extension of a
    path and nothing else, also when a directory of the path has a dot in its
    name; a path without a dot is left as it is. *)
Theorem strip_extension_drops_last_extension (base ext : string) :
  is_extension ext = true ->
  UrlRoute.strip_extension (base +:+ "." +:+ ext) = base
  /\ (lacks "." base = true -> UrlRoute.strip_extension base = base).
Proof.
  intros Hext. split.
  - apply strip_extension_last, Hext.
  - apply strip_extension_without_dot.
Qed.

Lemma strip_extension_drops_last_extension_witness :
  is_extension "mp3" = true
  /\ UrlRoute.strip_extension ("/srv/app.v2/tmp/0b5c2f9e" +:+ "." +:+ "mp3")
     = "/srv/app.v2/tmp/0b5c2f9e".
Proof.
  split; [reflexivity|].
  exact (proj1 (strip_extension_drops_last_extension "/srv/app.v2/tmp/0b5c2f9e" "mp3" eq_refl)).
Defined.

Lemma upto_last_close_none (s : string) :
  lacks "}" s = true -> JS.upto_last_close s = None.
Proof.
  induction s as [|c s IH]; intros H; [reflexivity|].
  cbn [lacks] in H. apply andb_true_iff in H as [Hc Hs].
  cbn [JS.upto_last_close]. rewrite IH by exact Hs.
  apply negb_true_iff in Hc. rewrite Hc. reflexivity.
Qed.

Lemma upto_last_close_last (body post : string) :
  lacks "}" post = true ->
  JS.upto_last_close (body +:+ "}" +:+ post) = Some (body +:+ "}").
Proof.
  intros H. induction body as [|c body IH].
  - rewrite !append_nil. change ("}" +:+ post) with (String "}" post).
    cbn [JS.upto_last_close]. rewrite upto_last_close_none by exact H. reflexivity.
  - rewrite !(append_cons c body). cbn [JS.upto_last_close]. rewrite IH. reflexivity.
Qed.

Lemma upto_last_close_split (s t : string) :
  JS.upto_last_close s = Some t ->
  exists body post, s = body +:+ "}" +:+ post /\ t = body +:+ "}" /\ lacks "}" post = true.
Proof.
  revert t; induction s as [|c s IH]; intros t H; [discriminate|].
  cbn [JS.upto_last_close] in H.
  destruct (JS.upto_last_close s) as [u|] eqn:Hu.
  - destruct (IH u eq_refl) as (body & post & -> & -> & Hpost).
    injection H as <-. exists (String c body), post. repeat split. exact Hpost.
  - destruct (Ascii.eqb_spec c "}") as [->|_]; [|discriminate].
    injection H as <-. exists EmptyString, s. repeat split.
    clear IH. induction s as [|d s IHs]; [reflexivity|].
    cbn [JS.upto_last_close] in Hu.
    destruct (JS.upto_last_close s); [discriminate|].
    destruct (Ascii.eqb d "}") eqn:Hd; [discriminate|].
    cbn [lacks]. rewrite Hd. cbn [negb andb]. apply IHs. reflexivity.
Qed.

Lemma match_braces_parts (s t : string) :
  JS.match_braces s = Some t ->
  exists pre body post,
    s = pre +:+ "{" +:+ body +:+ "}" +:+ post
    /\ t = "{" +:+ body +:+ "}"
    /\ lacks "{" pre = true
    /\ lacks "}" post = true.
Proof.
  revert t. induction s as [|c s IH]; intros t H; [discriminate|].
  cbn [JS.match_braces] in H.
  destruct (Ascii.eqb_spec c "{") as [->|Hc].
  - destruct (JS.upto_last_close s) as [u|] eqn:Hu.
    + destruct (upto_last_close_split s u Hu) as (body & post & -> & -> & Hpost).
      injection H as <-. exists EmptyString, body, post. repeat split. exact Hpost.
    + exfalso. clear IH. revert t H. induction s as [|d s IHs]; intros t H; [discriminate|].
      cbn [JS.upto_last_close] in Hu.
      destruct (JS.upto_last_close s) eqn:Hs; [discriminate|].
      cbn [JS.match_braces] in H. rewrite Hs in H.
      destruct (Ascii.eqb d "{"); apply (IHs eq_refl t H).
  - destruct (IH t H) as (pre & body & post & -> & -> & Hpre & Hpost).
    exists (String c pre), body, post. repeat split; [|exact Hpost].
    cbn [lacks]. rewrite Hpre, andb_true_r. apply negb_true_iff.
    destruct (Ascii.eqb_spec c "{"); [contradiction | reflexivity].
Qed.

Lemma match_braces_of_parts (pre body post : string) :
  lacks "{" pre = true ->
  lacks "}" post = true ->
  JS.match_braces (pre +:+ "{" +:+ body +:+ "}" +:+ post) = Some ("{" +:+ body +:+ "}").
Proof.
  intros Hpre Hpost. induction pre as [|c pre IH].
  - rewrite append_nil.
    change ("{" +:+ body +:+ "}" +:+ post) with (String "{" (body +:+ "}" +:+ post)).
    cbn [JS.match_braces]. rewrite Ascii.eqb_refl, upto_last_close_last by exact Hpost.
    reflexivity.
  - cbn [lacks] in Hpre. apply andb_true_iff in Hpre as [Hc Hpre].
    rewrite append_cons. cbn [JS.match_braces].
    apply negb_true_iff in Hc. rewrite Hc. apply IH. exact Hpre.
Qed.

(** What [stdoutData.match(/(\{[\s\S]*\})/)] captures: the text from the
    first opening brace of the output to its last closing brace, and nothing
    when no closing brace follows the first opening brace. Text before the
    first opening brace and after the last closing brace is left out; a
    closing brace anywhere later in the output is always taken in. *)
Theorem match_braces_first_to_last (s t : string) :
  JS.match_braces s = Some t
  <-> exists pre body post,
        s = pre +:+ "{" +:+ body +:+ "}" +:+ post
        /\ t = "{" +:+ body +:+ "}"
        /\ lacks "{" pre = true
        /\ lacks "}" post = true.
Proof.
  split.
  - apply match_braces_parts.
  - intros (pre & body & post & -> & -> & Hpre & Hpost).
    apply match_braces_of_parts; assumption.
Qed.

(** ** Which URLs are taken for a video page *)

(** [isYouTubeURL] accepts exactly the URLs that parse and whose host,
    in lower case, is either one of the three long-form hosts with a path
    holding [/watch], [/shorts/] or [/embed/] or a query parameter [v], or
    the short host [youtu.be] with a path longer than the slash. Any other
    host, a subdomain of the long-form domain included, is refused, and so is
    a text that is not a URL. *)
Theorem isYouTubeURL_iff (P : Platform) (url : string) :
  UrlRoute.isYouTubeURL P url = true
  <-> exists u,
        URL_parse P url = Some u
        /\ ((UrlRoute.array_includes long_form_hosts (Url.toLowerCase (hostname u)) = true
             /\ has_video_signal u = true)
            \/ (Url.toLowerCase (hostname u) = "youtu.be"
                /\ (1 < String.length (pathname u))%nat)).
Proof.
  unfold UrlRoute.isYouTubeURL.
  destruct (URL_parse P url) as [u|]; [|split; [discriminate | intros (u & H & _); discriminate]].
  set (h := Url.toLowerCase (hostname u)).
  fold (has_video_signal u).
  assert (Hlong : UrlRoute.array_includes long_form_hosts h = true ->
                  JS.includes "youtube.com" h = true
                  /\ UrlRoute.array_includes UrlRoute.youtubeHosts h = true).
  { intros H. unfold UrlRoute.array_includes, long_form_hosts in H. cbn [existsb] in H.
    rewrite !orb_true_iff in H. destruct H as [H|[H|[H|H]]]; [| | |discriminate H];
      apply String.eqb_eq in H; rewrite H; split; reflexivity. }
  split.
  - intros H. exists u. split; [reflexivity|].
    destruct (JS.includes "youtube.com" h) eqn:Hinc.
    + left. apply andb_true_iff in H as [Hdom Hsig]. split; [|exact Hsig].
      unfold UrlRoute.array_includes, UrlRoute.youtubeHosts in Hdom. cbn [existsb] in Hdom.
      unfold UrlRoute.array_includes, long_form_hosts. cbn [existsb].
      rewrite !orb_true_iff in Hdom. rewrite !orb_true_iff.
      destruct Hdom as [Hd|[Hd|[Hd|[Hd|Hd]]]]; [auto | auto | auto | | discriminate Hd].
      apply String.eqb_eq in Hd. rewrite Hd in Hinc. discriminate Hinc.
    + right. destruct (String.eqb_spec h "youtu.be") as [Hh|_]; [|discriminate H].
      split; [exact Hh|]. apply Nat.ltb_lt. exact H.
  - intros (u' & Hu & Hcase). injection Hu as <-.
    destruct Hcase as [[Hhost Hsig]|[Hhost Hlen]].
    + destruct (Hlong Hhost) as [-> ->]. rewrite Hsig. reflexivity.
    + fold h in Hhost. rewrite Hhost. cbn [JS.includes]. 
      change (JS.includes "youtube.com" "youtu.be") with false. cbn iota.
      rewrite String.eqb_refl. apply Nat.ltb_lt. exact Hlen.
Qed.

(** ** Frames are single lines *)

Lemma no_LF_take (n : nat) (s : string) : no_LF s = true -> no_LF (JSON.take n s) = true.
Proof.
  revert s; induction n as [|n IH]; intros [|c s] H; try reflexivity.
  cbn [no_LF JSON.take] in *. apply andb_true_iff in H as [-> H]. now apply IH.
Qed.

Lemma no_LF_substring (n : nat) (s : string) : no_LF s = true -> no_LF (JS.substring n s) = true.
Proof.
  revert s; induction n as [|n IH]; intros [|c s] H; try reflexivity; try exact H.
  cbn [no_LF JS.substring] in *. apply andb_true_iff in H as [_ H]. now apply IH.
Qed.

Lemma no_LF_zeros (n : nat) : no_LF (JSON.zeros n) = true.
Proof. induction n as [|n IH]; [reflexivity | exact IH]. Qed.

Lemma digit_not_LF (r : N) : (r < 10)%N -> Ascii.eqb (ascii_of_N (48 + r)) LF = false.
Proof.
  intros H.
  assert (Hr : (r = 0 \/ r = 1 \/ r = 2 \/ r = 3 \/ r = 4 \/ r = 5 \/ r = 6 \/ r = 7
                \/ r = 8 \/ r = 9)%N) by lia.
  repeat (destruct Hr as [->|Hr]; [reflexivity|]). rewrite Hr. reflexivity.
Qed.

Lemma no_LF_digits (fuel : nat) (n : N) (acc : string) :
  no_LF acc = true -> no_LF (JS.digits_of_pos fuel n acc) = true.
Proof.
  revert n acc; induction fuel as [|fuel IH]; intros n acc H; [exact H|].
  cbn [JS.digits_of_pos].
  assert (Hd : no_LF (String (ascii_of_N (48 + n mod 10)) acc) = true).
  { cbn [no_LF]. rewrite digit_not_LF by (apply N.mod_lt; discriminate). exact H. }
  destruct (N.eqb (n / 10) 0); [exact Hd | apply IH, Hd].
Qed.

Lemma no_LF_number (m e : Z) : no_LF (JSON.number_to_string m e) = true.
Proof.
  unfold JSON.number_to_string.
  destruct (Z.eqb m 0); [reflexivity|].
  assert (Hd : no_LF (JS.string_of_N (Z.abs_N m)) = true)
    by (apply no_LF_digits; reflexivity).
  assert (Hs : no_LF (if Z.ltb m 0 then "-" else EmptyString) = true)
    by (destruct (Z.ltb m 0); reflexivity).
  destruct (Z.leb 0 e).
  - rewrite !no_LF_append, Hs, Hd, no_LF_zeros. reflexivity.
  - destruct (Nat.ltb _ _).
    + rewrite !no_LF_append, Hs, no_LF_take, no_LF_substring by exact Hd. reflexivity.
    + rewrite !no_LF_append, Hs, no_LF_zeros, Hd. reflexivity.
Qed.

Lemma no_LF_quote_char (c : ascii) : no_LF (JSON.quote_char c) = true.
Proof. destruct c as [[] [] [] [] [] [] [] []]; reflexivity. Qed.

Lemma no_LF_quote (s : string) : no_LF (JSON.quote s) = true.
Proof.
  unfold JSON.quote. cbn [no_LF]. change (Ascii.eqb JSON.dquote LF) with false. cbn [negb andb].
  rewrite no_LF_append.
  replace (no_LF (String JSON.dquote EmptyString)) with true by reflexivity.
  rewrite andb_true_r.
  induction s as [|c s IH]; [reflexivity|].
  cbn [JSON.quote_body]. rewrite no_LF_append, no_LF_quote_char, IH. reflexivity.
Qed.

Lemma no_LF_join (sep : string) (l : list string) :
  no_LF sep = true -> Forall (fun s => no_LF s = true) l -> no_LF (JSON.join sep l) = true.
Proof.
  intros Hsep H. induction H as [|x l Hx Hl IH]; [reflexivity|].
  cbn [JSON.join]. destruct l as [|y l]; [exact Hx|].
  rewrite !no_LF_append, Hx, Hsep, IH. reflexivity.
Qed.

(** [JSON.stringify] never writes a line feed: inside strings it writes the
    two characters of its escape instead. *)
Lemma stringify_no_LF : forall v : json, no_LF (JSON.stringify v) = true.
Proof.
  fix IH 1. intros [ | [|] | m e | s | items | props ]; cbn [JSON.stringify].
  - reflexivity.
  - reflexivity.
  - reflexivity.
  - apply no_LF_number.
  - apply no_LF_quote.
  - rewrite !no_LF_append.
    replace (no_LF "[") with true by reflexivity.
    replace (no_LF "]") with true by reflexivity.
    rewrite andb_true_r. cbn [andb].
    apply no_LF_join; [reflexivity|].
    induction items as [|x items IHitems]; constructor; [apply IH | exact IHitems].
  - rewrite !no_LF_append.
    replace (no_LF "{") with true by reflexivity.
    replace (no_LF "}") with true by reflexivity.
    rewrite andb_true_r. cbn [andb].
    apply no_LF_join; [reflexivity|].
    induction props as [|[k x] props IHprops]; constructor; [|exact IHprops].
    cbn [fst snd]. rewrite !no_LF_append, no_LF_quote, IH. reflexivity.
Qed.

Lemma split_of_frame (v : json) :
  JS.split LF (frame v) = ["data: " +:+ JSON.stringify v; EmptyString; EmptyString].
Proof.
  unfold frame.
  rewrite <- (append_empty_r (sse (JSON.stringify v))).
  rewrite split_frame by apply stringify_no_LF. reflexivity.
Qed.

(** Every frame a relay enqueues, whatever value it carries, is one
    [data: ] line holding the printed value, followed by one empty line: a
    line feed inside a string of the value never breaks the framing, since
    [JSON.stringify] writes none. *)
Theorem frame_is_one_line (v : json) :
  no_LF (JSON.stringify v) = true
  /\ JS.split LF (frame v) = ["data: " +:+ JSON.stringify v; EmptyString; EmptyString].
Proof. split; [apply stringify_no_LF | apply split_of_frame]. Qed.

(** ** The extraction tool *)

Section Extraction.

Variable P : Platform.
Variable E : Env.

Lemma leave_files_spec (written : list (string * string)) (w : World) :
  UrlRoute.leave_files written w
  = (Returned tt, {| files := write_all written (files w); enqueued := enqueued w;
                     closed := closed w; calls := calls w; uncaught := uncaught w |}).
Proof.
  unfold UrlRoute.leave_files. revert w.
  induction written as [|kv written IH]; intros w; [destruct w; reflexivity|].
  cbn [for_of write_all]. unfold bind, fs.writeFileSync at 1. rewrite IH. reflexivity.
Qed.

Lemma youtube_rethrow (inner : string) (w : World) :
  exists message,
    (if JS.includes "timeout" inner then
       throw "Download timed out - the video might be too long or your connection too slow"
     else if JS.includes "not available" inner then
       throw "This YouTube video is not available for download (might be private or deleted)"
     else throw ("YouTube download failed: " +:+ inner)) w
    = (@Thrown unit message, w)
    /\ youtube_failure inner message
    /\ (JS.includes "timeout" inner = false -> JS.includes "not available" inner = false ->
        message = "YouTube download failed: " +:+ inner).
Proof.
  unfold youtube_failure.
  destruct (JS.includes "timeout" inner); [|destruct (JS.includes "not available" inner)];
    eexists; (split; [reflexivity|]); split; auto; discriminate.
Qed.

(** The ways [downloadYouTubeAudio] ends, for an output path
    [base ++ ".mp3"]. *)
Lemma youtube_download_cases (url base : string) (w : World) :
  let result := exec E (youtube_command E url base) in
  let w1 := extracted E url base w in
  (forall outputs,
     exec_outcome result = inl outputs ->
     is_Some (files w1 !! (base +:+ ".mp3")) ->
     UrlRoute.downloadYouTubeAudio E url (base +:+ ".mp3") w = (Returned tt, w1))
  /\ (forall inner,
        exec_outcome result = inr inner
        \/ ((exists outputs, exec_outcome result = inl outputs)
            /\ files w1 !! (base +:+ ".mp3") = None
            /\ inner = "Expected audio file was not created at: " +:+ base +:+ ".mp3") ->
        exists message,
          UrlRoute.downloadYouTubeAudio E url (base +:+ ".mp3") w = (Thrown message, w1)
          /\ youtube_failure inner message
          /\ (JS.includes "timeout" inner = false ->
              JS.includes "not available" inner = false ->
              message = "YouTube download failed: " +:+ inner)).
Proof.
  intros result w1.
  assert (Hstrip : UrlRoute.strip_extension (base +:+ ".mp3") = base)
    by exact (strip_extension_last base "mp3" eq_refl).
  assert (Hrun : forall (k : M unit),
    bind (call (EExec (youtube_command E url base)))
         (fun _ => bind (UrlRoute.leave_files (exec_files result)) (fun _ => k)) w
    = k w1).
  { intros k. unfold bind, call. rewrite leave_files_spec. reflexivity. }
  split.
  - intros outputs Hok Hfile.
    unfold UrlRoute.downloadYouTubeAudio, try_catch. rewrite Hstrip.
    fold (youtube_command E url base). fold result. rewrite Hrun, Hok.
    unfold bind, fs.existsSync. rewrite bool_decide_true by exact Hfile.
    cbn [negb]. rewrite String.eqb_refl. reflexivity.
  - intros inner Hfail.
    destruct (youtube_rethrow inner w1) as (message & Hthrow & Hshape & Hplain).
    exists message. split; [|split; assumption].
    unfold UrlRoute.downloadYouTubeAudio, try_catch. rewrite Hstrip.
    fold (youtube_command E url base). fold result. rewrite Hrun.
    destruct Hfail as [Hbad | ([outputs Hok] & Hmissing & ->)].
    + rewrite Hbad. cbn [throw]. exact Hthrow.
    + rewrite Hok. unfold bind, fs.existsSync. rewrite Hmissing.
      rewrite bool_decide_false by (intros [? ?]; discriminate).
      cbn [negb throw]. exact Hthrow.
Qed.

(** [downloadYouTubeAudio] for an output path [base ++ ".mp3"]: the tool is
    run once with [base ++ ".%(ext)s"] as its output template. The function
    returns exactly when the tool succeeded and the file [base ++ ".mp3"] is
    there afterwards, and it then leaves the disk as the tool left it,
    without renaming anything. If the tool fails, or succeeds without having
    produced the file, an error is thrown whose message is one of the two
    fixed texts or the inner message behind [YouTube download failed: ], the
    latter whenever the inner message mentions neither [timeout] nor
    [not available]. *)
Theorem youtube_download_outcomes (url base : string) (w : World) :
  let result := exec E (youtube_command E url base) in
  let w1 := extracted E url base w in
  (forall outputs,
     exec_outcome result = inl outputs ->
     is_Some (files w1 !! (base +:+ ".mp3")) ->
     UrlRoute.downloadYouTubeAudio E url (base +:+ ".mp3") w = (Returned tt, w1))
  /\ (forall inner,
        exec_outcome result = inr inner
        \/ ((exists outputs, exec_outcome result = inl outputs)
            /\ files w1 !! (base +:+ ".mp3") = None
            /\ inner = "Expected audio file was not created at: " +:+ base +:+ ".mp3") ->
        exists message,
          UrlRoute.downloadYouTubeAudio E url (base +:+ ".mp3") w = (Thrown message, w1)
          /\ youtube_failure inner message
          /\ (JS.includes "timeout" inner = false ->
              JS.includes "not available" inner = false ->
              message = "YouTube download failed: " +:+ inner)).
Proof. exact (youtube_download_cases url base w). Qed.

End Extraction.

Lemma youtube_download_outcomes_witness :
  exec_outcome (exec (Demo.server Demo.good_run (FetchOk EmptyString))
                  (youtube_command (Demo.server Demo.good_run (FetchOk EmptyString))
                     "https://youtu.be/abc" "/app/tmp/0b5c2f9e"))
  = inr "Command failed"
  /\ exists message,
       UrlRoute.downloadYouTubeAudio (Demo.server Demo.good_run (FetchOk EmptyString))
         "https://youtu.be/abc" ("/app/tmp/0b5c2f9e" +:+ ".mp3") Demo.start
       = (Thrown message,
          extracted (Demo.server Demo.good_run (FetchOk EmptyString))
            "https://youtu.be/abc" "/app/tmp/0b5c2f9e" Demo.start)
       /\ message = "YouTube download failed: Command failed".
Proof.
  split; [reflexivity|].
  destruct (youtube_download_outcomes (Demo.server Demo.good_run (FetchOk EmptyString))
              "https://youtu.be/abc" "/app/tmp/0b5c2f9e" Demo.start) as [_ Hfail].
  destruct (Hfail "Command failed" (or_introl eq_refl)) as (message & Hrun & _ & Hplain).
  exists message. split; [exact Hrun|]. apply Hplain; reflexivity.
Defined.

(** ** The URL route: what is asked for *)

Section UrlRequests.

Variable P : Platform.
Variable E : Env.

(** Unless the body reads as a value with a truthy [audioUrl], the URL
    route answers at once and touches nothing: 500 with the reader's message
    for a body that is not JSON, 500 for the body [null], and 400 with
    [Audio URL is required] when [audioUrl] is absent, [null], empty, zero or
    [false]. Nothing is fetched, run or written. *)
Theorem url_post_without_url (request : url_request) (w : World) :
  (JSON_parse P (url_body request) = None ->
   UrlRoute.POST P E request w = (Returned (url_failure (JSON_error P (url_body request))), w))
  /\ (forall body,
        JSON_parse P (url_body request) = Some body ->
        Coerce.get_prop "audioUrl" body = None ->
        UrlRoute.POST P E request w = (Returned (url_failure (null_error P "audioUrl")), w))
  /\ (forall body audioUrl,
        JSON_parse P (url_body request) = Some body ->
        Coerce.get_prop "audioUrl" body = Some audioUrl ->
        Coerce.truthy audioUrl = false ->
        UrlRoute.POST P E request w
        = (Returned (JsonResponse (JObj [("error", JStr "Audio URL is required")]) 400), w)).
Proof.
  repeat split.
  - intros H. unfold UrlRoute.POST, UrlRoute.request_json, try_catch, bind. rewrite H.
    reflexivity.
  - intros body H Hget. unfold UrlRoute.POST, UrlRoute.request_json, try_catch, bind.
    rewrite H. cbn [ret]. rewrite Hget. reflexivity.
  - intros body audioUrl H Hget Hfalsy.
    unfold UrlRoute.POST, UrlRoute.request_json, try_catch, bind.
    rewrite H. cbn [ret]. rewrite Hget. cbn [ret]. rewrite Hfalsy. reflexivity.
Qed.

Lemma artifact_split : artifact E = artifact_base E +:+ ".mp3".
Proof. unfold artifact, artifact_base. rewrite !append_assoc. reflexivity. Qed.

(** The route up to the download, for a URL taken for a video page and for
    any other URL. *)
Lemma url_post_download (request : url_request) (url : string) (w : World) :
  asks_for P request url ->
  UrlRoute.POST P E request w
  = try_catch
      (bind (if UrlRoute.isYouTubeURL P url
             then UrlRoute.downloadYouTubeAudio E url (artifact E)
             else UrlRoute.downloadAudioFromUrl E url (artifact E))
         (fun _ => after_download P E request))
      (fun message => ret (url_failure message)) w.
Proof.
  intros (body & Hparse & Hget & Hne).
  unfold UrlRoute.POST, UrlRoute.request_json.
  rewrite Hparse. unfold try_catch at 1. unfold bind at 1. cbn [ret].
  rewrite Hget. unfold bind at 1. cbn [ret Coerce.truthy Coerce.to_string_opt Coerce.to_string].
  destruct (String.eqb_spec url EmptyString) as [->|_]; [now elim Hne|].
  reflexivity.
Qed.

(** A URL taken for a video page is handed to the extraction tool and is
    not fetched. When the tool fails, or succeeds without producing the mp3
    file, the route answers 500 with the message of [downloadYouTubeAudio]:
    the only call made is the tool's, and no worker is spawned. *)
Theorem video_url_tool_failure (request : url_request) (url inner : string) (w : World) :
  asks_for P request url ->
  UrlRoute.isYouTubeURL P url = true ->
  (exec_outcome (exec E (youtube_command E url (artifact_base E))) = inr inner
   \/ ((exists outputs,
          exec_outcome (exec E (youtube_command E url (artifact_base E))) = inl outputs)
       /\ files (extracted E url (artifact_base E) w) !! artifact E = None
       /\ inner = "Expected audio file was not created at: " +:+ artifact E)) ->
  exists message,
    UrlRoute.POST P E request w
    = (Returned (url_failure message), extracted E url (artifact_base E) w)
    /\ youtube_failure inner message
    /\ calls (extracted E url (artifact_base E) w)
       = calls w ++ [EExec (youtube_command E url (artifact_base E))].
Proof.
  intros Hreq Hyt Hfail.
  destruct (youtube_download_cases E url (artifact_base E) w) as [_ Hthrow].
  rewrite <- artifact_split in Hthrow.
  destruct (Hthrow inner Hfail) as (message & Hrun & Hshape & _).
  exists message. split; [|split; [exact Hshape | reflexivity]].
  rewrite (url_post_download request url w Hreq), Hyt.
  unfold try_catch, bind. rewrite Hrun. reflexivity.
Qed.

(** When the tool succeeds and the mp3 file is there, a streamed request
    for a video page goes on with the worker, spawned on the file the tool
    wrote; the stream ends as for any streamed job and the file is removed. *)
Theorem video_url_reaches_worker (request : url_request) (url : string) (w : World) :
  asks_for P request url ->
  UrlRoute.isYouTubeURL P url = true ->
  (exists outputs,
     exec_outcome (exec E (youtube_command E url (artifact_base E))) = inl outputs) ->
  is_Some (files (extracted E url (artifact_base E) w) !! artifact E) ->
  is_Some (files (extracted E url (artifact_base E) w) !! whisper_script E) ->
  wants_event_stream (url_accept request) = true ->
  closed w = false ->
  UrlRoute.POST P E request w
  = (Returned EventStream,
     streamed (url_spawn E (whisper_script E) [artifact E])
       (List.map frame (progress_of (url_decode P)
                          (run_events (url_run E (whisper_script E) [artifact E])))
        ++ [url_terminal P (url_run E (whisper_script E) [artifact E])])
       (artifact E) (extracted E url (artifact_base E) w)).
Proof.
  intros Hreq Hyt [outputs Hok] Hfile Hscript Hstream Hopen.
  destruct (youtube_download_cases E url (artifact_base E) w) as [Hret _].
  rewrite <- artifact_split in Hret.
  rewrite (url_post_download request url w Hreq), Hyt.
  unfold try_catch at 1, bind at 1. rewrite (Hret outputs Hok Hfile).
  unfold after_download, bind at 1, fs.existsSync.
  rewrite bool_decide_true by exact Hscript. cbn [negb]. rewrite Hstream.
  rewrite url_stream_job by exact Hopen. reflexivity.
Qed.

(** Any URL not taken for a video page is fetched. When the answer is not
    ok the route answers 500 with the status code and text in its message,
    after the fetch alone: nothing is written, no worker is spawned. *)
Theorem plain_url_fetch_failure (request : url_request) (url statusText : string)
  (status : Z) (w : World) :
  asks_for P request url ->
  UrlRoute.isYouTubeURL P url = false ->
  fetch E url = FetchNotOk status statusText ->
  UrlRoute.POST P E request w
  = (Returned (url_failure ("Failed to download audio from URL: Failed to fetch audio: "
                            +:+ JS.string_of_Z status +:+ " " +:+ statusText)),
     fetched url w).
Proof.
  intros Hreq Hyt Hfetch.
  rewrite (url_post_download request url w Hreq), Hyt.
  unfold try_catch, bind. rewrite (download_not_ok E _ _ _ _ _ Hfetch). reflexivity.
Qed.

(** The plain job of the URL route on a fetched URL. *)
Lemma url_post_plain_job (request : url_request) (url content jsonStr : string)
  (result : json) (w : World) :
  asks_for P request url ->
  UrlRoute.isYouTubeURL P url = false ->
  fetch E url = FetchOk content ->
  is_Some (files w !! whisper_script E) ->
  wants_event_stream (url_accept request) = false ->
  run_end (url_run E (whisper_script E) [artifact E]) = Close (Some 0%Z) ->
  JS.match_braces (stdout_of (run_events (url_run E (whisper_script E) [artifact E])))
  = Some jsonStr ->
  JSON_parse P jsonStr = Some result ->
  exists w',
    UrlRoute.POST P E request w = (Returned (JsonResponse result 200), w')
    /\ files w' = delete (artifact E) (files w)
    /\ calls w' = calls w ++ [EFetch url; url_spawn E (whisper_script E) [artifact E]]
    /\ enqueued w' = enqueued w.
Proof.
  intros Hreq Hyt Hfetch Hscript Hplain Hend Hmatch Hparse.
  rewrite (url_post_download request url w Hreq), Hyt.
  unfold try_catch at 1, bind at 1. rewrite (download_ok E _ _ _ _ Hfetch).
  unfold after_download, bind at 1, fs.existsSync. cbn [files downloaded].
  rewrite lookup_insert_ne by apply artifact_not_script.
  rewrite bool_decide_true by exact Hscript. cbn [negb]. rewrite Hplain.
  unfold bind at 1. rewrite url_supervisor.
  unfold url_settles. rewrite Hend. cbn [nonzero Z.eqb negb]. rewrite Hmatch, Hparse.
  unfold bind at 1, call. unfold bind at 1. cbn [run_progress ret settle].
  unfold bind. rewrite unlink_guarded. cbn [files downloaded enqueued calls closed uncaught].
  eexists. split; [reflexivity|]. cbn [files calls enqueued].
  split; [apply delete_insert_eq|]. split; [|reflexivity].
  rewrite <- app_assoc. reflexivity.
Qed.

(** A plain request for a plain URL whose worker exits with code 0 and
    prints a readable result: the route answers 200 with that result, and
    the artifact it wrote is gone again. *)
Theorem plain_url_success (request : url_request) (url content jsonStr : string)
  (result : json) (w : World) :
  asks_for P request url ->
  UrlRoute.isYouTubeURL P url = false ->
  fetch E url = FetchOk content ->
  is_Some (files w !! whisper_script E) ->
  wants_event_stream (url_accept request) = false ->
  run_end (url_run E (whisper_script E) [artifact E]) = Close (Some 0%Z) ->
  JS.match_braces (stdout_of (run_events (url_run E (whisper_script E) [artifact E])))
  = Some jsonStr ->
  JSON_parse P jsonStr = Some result ->
  exists w',
    UrlRoute.POST P E request w = (Returned (JsonResponse result 200), w')
    /\ files w' = delete (artifact E) (files w)
    /\ calls w' = calls w ++ [EFetch url; url_spawn E (whisper_script E) [artifact E]]
    /\ enqueued w' = enqueued w.
Proof. apply url_post_plain_job. Qed.

End UrlRequests.

(** ** The plain upload request *)

Section PlainUpload.

Variable P : Platform.
Variable E : Env.

Lemma upload_post_plain (request : upload_request) (bytes : string) (w : World) :
  uploads request bytes ->
  wants_event_stream (upload_accept request) = false ->
  is_Some (files w !! whisper_script E) ->
  Upload.POST P E request w
  = try_catch
      (bind (Upload.runPythonScript P E (whisper_script E) [artifact E])
         (fun result =>
            bind (Upload.cleanupFile (artifact E)) (fun _ => ret (JsonResponse result 200))))
      (fun message =>
         bind (Upload.cleanupFile (artifact E))
           (fun _ => ret (JsonResponse
                            (JObj [("error", JStr ("Transcription failed: " +:+ message))]) 500)))
      {| files := <[artifact E := bytes]> (files w); enqueued := enqueued w;
         closed := closed w; calls := calls w; uncaught := uncaught w |}.
Proof.
  intros (form & Hform & Haudio) Hplain Hscript.
  unfold Upload.POST. unfold try_catch at 1. unfold bind at 1. rewrite Hform. cbn [ret].
  rewrite Haudio. cbn [Upload.falsy Upload.instanceof_Blob negb orb Upload.arrayBuffer].
  unfold bind at 1, fs.writeFileSync. rewrite Hplain.
  unfold Upload.handleRegularRequest. unfold bind at 1, fs.existsSync. cbn [files].
  fold (artifact E).
  rewrite lookup_insert_ne by apply artifact_not_script.
  rewrite bool_decide_true by exact Hscript. cbn [negb].
  destruct (try_catch _ _ _) as [[r|e] w'] eqn:Hrun; [reflexivity|].
  exfalso. revert Hrun. unfold try_catch.
  destruct (bind _ _ _) as [[r|e'] w1]; [discriminate|].
  unfold bind. rewrite cleanupFile_deletes. discriminate.
Qed.

(** A plain upload with the script in place: whichever way the worker
    ends, the route answers with a JSON response, 200 with what the
    supervisor resolved with or 500 with [Transcription failed: ] and the
    message it rejected with, and the artifact is removed in both cases. The
    worker is spawned once, with the script and the artifact as its
    arguments; nothing is put on a stream. *)
Theorem plain_upload_always_cleans_up (request : upload_request) (bytes : string) (w : World) :
  uploads request bytes ->
  wants_event_stream (upload_accept request) = false ->
  is_Some (files w !! whisper_script E) ->
  (exists result,
     Upload.POST P E request w = (Returned (JsonResponse result 200), plain_upload_done E w))
  \/ (exists message,
        Upload.POST P E request w
        = (Returned (JsonResponse
                       (JObj [("error", JStr ("Transcription failed: " +:+ message))]) 500),
           plain_upload_done E w)).
Proof.
  intros Hup Hplain Hscript.
  rewrite (upload_post_plain request bytes w Hup Hplain Hscript).
  assert (Hclean :
    Upload.cleanupFile (artifact E)
      {| files := <[artifact E := bytes]> (files w); enqueued := enqueued w;
         closed := closed w; calls := calls w ++ [upload_spawn E (artifact E)];
         uncaught := uncaught w |}
    = (Returned tt, plain_upload_done E w)).
  { rewrite cleanupFile_deletes. cbn [files enqueued closed calls uncaught].
    unfold plain_upload_done. rewrite delete_insert_eq. reflexivity. }
  unfold Upload.runPythonScript. fold (upload_spawn E (artifact E)).
  destruct (Upload.collect _ _ _) as [stdoutData stderrData].
  destruct (run_end _) as [code|message].
  - destruct (nonzero code).
    + right. eexists. unfold try_catch, bind, call, throw, ret.
      cbn [files enqueued closed calls uncaught]. rewrite Hclean. reflexivity.
    + destruct (JS.match_braces stdoutData) as [jsonStr|].
      * destruct (JSON_parse P jsonStr) as [result|].
        -- left. exists result. unfold try_catch, bind, call, throw, ret.
           cbn [files enqueued closed calls uncaught]. rewrite Hclean. reflexivity.
        -- right. eexists. unfold try_catch, bind, call, throw, ret.
           cbn [files enqueued closed calls uncaught]. rewrite Hclean. reflexivity.
      * left. eexists. unfold try_catch, bind, call, throw, ret.
        cbn [files enqueued closed calls uncaught]. rewrite Hclean. reflexivity.
  - right. eexists. unfold try_catch, bind, call, throw, ret.
    cbn [files enqueued closed calls uncaught]. rewrite Hclean. reflexivity.
Qed.

(** The same request when the worker exits with a non-zero code: the
    answer is 500 and its message carries the exit code and the whole
    diagnostic output. *)
Theorem plain_upload_worker_failure (request : upload_request) (bytes : string)
  (code : option Z) (w : World) :
  uploads request bytes ->
  wants_event_stream (upload_accept request) = false ->
  is_Some (files w !! whisper_script E) ->
  run_end (upload_run E (artifact E)) = Close code ->
  nonzero code = true ->
  Upload.POST P E request w
  = (Returned (JsonResponse
                 (JObj [("error",
                         JStr ("Transcription failed: Python script exited with code "
                               +:+ show_code code +:+ ": "
                               +:+ stderr_of (run_events (upload_run E (artifact E)))))]) 500),
     plain_upload_done E w).
Proof.
  intros Hup Hplain Hscript Hend Hcode.
  rewrite (upload_post_plain request bytes w Hup Hplain Hscript).
  unfold Upload.runPythonScript.
  fold (upload_spawn E (artifact E)). fold (upload_run E (artifact E)).
  rewrite collect_spec, !append_nil, Hend, Hcode.
  unfold try_catch, bind, call, throw, ret. cbn [files enqueued closed calls uncaught].
  rewrite cleanupFile_deletes. cbn [files enqueued closed calls uncaught].
  unfold plain_upload_done. rewrite delete_insert_eq. reflexivity.
Qed.

(** An upload that carries a file when the worker's script is not on disk.
    A plain request is answered 500 with a configuration error after the
    artifact has been written: the artifact stays and no worker is spawned.
    A streamed request never looks for the script: the worker is spawned on
    the missing script all the same and the job goes on as any other. *)
Theorem upload_without_script (request : upload_request) (bytes : string) (w : World) :
  uploads request bytes ->
  files w !! whisper_script E = None ->
  (wants_event_stream (upload_accept request) = false ->
   Upload.POST P E request w
   = (Returned (JsonResponse
                  (JObj [("error", JStr "Server configuration error: Script not found")]) 500),
      {| files := <[artifact E := bytes]> (files w); enqueued := enqueued w;
         closed := closed w; calls := calls w; uncaught := uncaught w |}))
  /\ (wants_event_stream (upload_accept request) = true ->
      closed w = false ->
      exists w',
        Upload.POST P E request w = (Returned EventStream, w')
        /\ calls w' = calls w ++ [ESpawn (Upload.pythonPath E) [whisper_script E; artifact E]]
        /\ files w' = delete (artifact E) (files w)).
Proof.
  intros (form & Hform & Haudio) Hmissing. split.
  - intros Hplain.
    unfold Upload.POST, try_catch, bind at 1. rewrite Hform. cbn [ret]. rewrite Haudio.
    cbn [Upload.falsy Upload.instanceof_Blob negb orb Upload.arrayBuffer].
    unfold bind at 1, fs.writeFileSync. rewrite Hplain.
    unfold Upload.handleRegularRequest, bind, fs.existsSync. cbn [files].
    fold (artifact E).
    rewrite lookup_insert_ne by apply artifact_not_script.
    rewrite Hmissing, bool_decide_false by (intros [? ?]; discriminate).
    reflexivity.
  - intros Hstream Hopen.
    unfold Upload.POST, try_catch, bind at 1. rewrite Hform. cbn [ret]. rewrite Haudio.
    cbn [Upload.falsy Upload.instanceof_Blob negb orb Upload.arrayBuffer].
    unfold bind at 1, fs.writeFileSync. rewrite Hstream.
    unfold Upload.handleProgressStreamRequest, bind, detached.
    fold (artifact E).
    rewrite upload_stream_job by exact Hopen.
    eexists. split; [reflexivity|].
    cbn [calls files streamed]. split; [reflexivity | apply delete_insert_eq].
Qed.

End PlainUpload.

(** ** Streamed jobs, whichever way they end *)

Section StreamShape.

Variable P : Platform.
Variable E : Env.


Lemma url_terminal_is_terminal (run : worker_run) : terminal_frame (url_terminal P run).
Proof.
  unfold url_terminal, terminal_frame.
  destruct (url_settles P run) as [result|message].
  - right; left; reflexivity.
  - right; right; exists message; reflexivity.
Qed.


(** The streamed relay of the URL route removes the artifact whether the
    consumer is still connected or not; when it is, the frames are one per
    progress value, then exactly one last frame, and the stream is closed. *)
Theorem streamed_url_always_cleans_up (scriptPath filePath : string) (w : World) :
  exists w',
    UrlRoute.handleStreamingTranscription P E scriptPath filePath w = (Returned EventStream, w')
    /\ files w' = delete filePath (files w)
    /\ calls w' = calls w ++ [url_spawn E scriptPath [filePath]]
    /\ (closed w = false ->
        exists last,
          terminal_frame last
          /\ enqueued w'
             = enqueued w
               ++ List.map frame (progress_of (url_decode P)
                                    (run_events (url_run E scriptPath [filePath])))
               ++ [last]
          /\ closed w' = true
          /\ uncaught w' = uncaught w).
Proof.
  destruct (closed w) eqn:Hc.
  - rewrite url_stream_disconnected by exact Hc.
    eexists. split; [reflexivity|]. repeat split. discriminate.
  - rewrite url_stream_job by exact Hc.
    eexists. split; [reflexivity|]. repeat split.
    intros _. exists (url_terminal P (url_run E scriptPath [filePath])).
    repeat split. apply url_terminal_is_terminal.
Qed.

(** The streamed relay of the upload route removes the artifact after it
    has sent the last frame: when the consumer has gone, sending that frame
    throws, the exception escapes the handler and the artifact stays on
    disk; no frame is enqueued. *)
Theorem streamed_upload_after_cancel (filePath : string) (w : World) :
  closed w = true ->
  exists w',
    Upload.handleProgressStreamRequest P E filePath w = (Returned EventStream, w')
    /\ files w' = files w
    /\ enqueued w' = enqueued w
    /\ uncaught w' = uncaught w ++ ["Invalid state: Controller is already closed"].
Proof.
  intros Hc. rewrite upload_stream_disconnected by exact Hc.
  eexists. split; [reflexivity|]. repeat split.
Qed.

End StreamShape.

(** ** Chunks of the diagnostic output *)

Section Chunks.

Variable P : Platform.

Lemma split_cons (sep : ascii) (s : string) : exists l ls, JS.split sep s = l :: ls.
Proof.
  induction s as [|c s (l & ls & IH)]; [now eexists _, _|].
  cbn [JS.split]. rewrite IH. destruct (Ascii.eqb c sep); eauto.
Qed.

(** Splitting a text cut at a separator gives the pieces of the two parts. *)
Lemma split_at_separator (sep : ascii) (a b : string) :
  JS.split sep (a +:+ String sep b) = JS.split sep a ++ JS.split sep b.
Proof.
  induction a as [|c a IH].
  - rewrite append_nil. cbn [JS.split]. rewrite Ascii.eqb_refl. reflexivity.
  - rewrite append_cons. cbn [JS.split]. rewrite IH.
    destruct (Ascii.eqb c sep); [reflexivity|].
    destruct (split_cons sep a) as (l & ls & ->). reflexivity.
Qed.

Lemma progress_at_line_end (decode : string -> option json) (a c : string)
  (rest : list worker_event) :
  decode EmptyString = None ->
  progress_of decode (Stderr (a +:+ String LF c) :: rest)
  = progress_of decode (Stderr (a +:+ String LF EmptyString) :: Stderr c :: rest).
Proof.
  intros Hempty. cbn [progress_of].
  rewrite !split_at_separator, !omap_app. cbn [JS.split omap list_omap].
  rewrite Hempty, app_nil_r, <- app_assoc. reflexivity.
Qed.

(** Both supervisors decode the diagnostic output chunk by chunk, and the
    result does not depend on the chunking as long as every chunk ends at
    the end of a line: delivering a text in one chunk or cut in two after a
    line feed calls the same progress callbacks in the same order and
    accumulates the same outputs. *)
Theorem chunking_at_line_ends (a c : string) (rest : list worker_event)
  (so se : string) (w : World) :
  (forall cb,
     Upload.pump P cb (Stderr (a +:+ String LF EmptyString) :: Stderr c :: rest) so se w
     = Upload.pump P cb (Stderr (a +:+ String LF c) :: rest) so se w)
  /\ (forall f,
        UrlRoute.pump P f (Stderr (a +:+ String LF EmptyString) :: Stderr c :: rest) so se w
        = UrlRoute.pump P f (Stderr (a +:+ String LF c) :: rest) so se w).
Proof.
  assert (Herr : stderr_of (Stderr (a +:+ String LF EmptyString) :: Stderr c :: rest)
                 = stderr_of (Stderr (a +:+ String LF c) :: rest)).
  { cbn [stderr_of]. rewrite <- !append_assoc. f_equal. rewrite append_assoc. reflexivity. }
  split.
  - intros cb. rewrite !upload_pump.
    rewrite <- (progress_at_line_end (upload_decode P) a c rest) by reflexivity.
    rewrite Herr. reflexivity.
  - intros f. rewrite !url_pump.
    rewrite <- (progress_at_line_end (url_decode P) a c rest) by reflexivity.
    rewrite Herr. reflexivity.
Qed.

End Chunks.

(** ** The result among other output *)


(** ** From the relay to the page *)

Section EndToEnd.

Variable P : Platform.

Lemma wire_append (a b : list string) : wire (a ++ b) = wire a +:+ wire b.
Proof.
  induction a as [|x a IH]; [reflexivity|].
  cbn [app wire]. rewrite IH, append_assoc. reflexivity.
Qed.

(** The lines of a chunk of whole frames, for the loop of
    [handleProgressTranscription]: one [data: ] line per frame. *)
Lemma upload_lines_of_chunk (values : list json) (p : Page) :
  Client.upload_lines P (JS.split LF (chunk_of values)) p
  = fold_left (fun q v => Client.upload_line P ("data: " +:+ JSON.stringify v) q) values p.
Proof.
  unfold chunk_of. revert p. induction values as [|v values IH]; intros p; [reflexivity|].
  cbn [List.map wire fold_left].
  rewrite split_frame by apply stringify_no_LF.
  unfold Client.upload_lines in *. cbn [fold_left].
  change (Client.upload_line P EmptyString ?q) with q. apply IH.
Qed.

Lemma upload_loop_of_chunks (groups : list (list json)) (p : Page) :
  Client.handleProgressTranscription_loop P (List.map chunk_of groups) p
  = fold_left (fun q v => Client.upload_line P ("data: " +:+ JSON.stringify v) q)
      (concat groups) p.
Proof.
  unfold Client.handleProgressTranscription_loop. revert p.
  induction groups as [|g groups IH]; intros p; [reflexivity|].
  cbn [List.map fold_left concat]. rewrite fold_left_app, upload_lines_of_chunk. apply IH.
Qed.

(** A streamed upload that succeeds, seen from the page. Whatever the
    progress values were and however the frames are grouped into transport
    chunks, as long as no frame is cut: once the platform reads the
    [complete] payload back as it was printed, the page ends with the result
    as its transcription, a percentage of 100, the stage [complete], and
    neither loading nor active. *)
Theorem upload_success_reaches_page (values : list json) (result : json)
  (groups : list (list json)) (p : Page) :
  JSON_parse P (JSON.stringify (complete_event result)) = Some (complete_event result) ->
  concat groups = values ++ [complete_event result] ->
  let final := Client.handleProgressTranscription P false
                 (streaming (List.map chunk_of groups)) p in
  transcription final = Some result
  /\ percentage (progress final) = Some (JInt 100)
  /\ stage (progress final) = Some (JStr "complete")
  /\ isLoading final = false
  /\ isActive (progress final) = false.
Proof.
  intros Hread Hgroups final. subst final.
  unfold Client.handleProgressTranscription, streaming. cbn [resp_ok resp_chunks negb].
  rewrite upload_loop_of_chunks, Hgroups, fold_left_app. cbn [fold_left].
  rewrite upload_data_line, Hread.
  repeat split.
Qed.

(** The loop of [processStreamingResponse] on frames that arrive one per
    chunk. *)
Lemma url_loop_of_frames (values : list json) (p : Page) :
  Client.processStreamingResponse_loop P (List.map frame values) p
  = fold_left (fun q v => fst (Client.url_line P ("data: " +:+ JSON.stringify v) q)) values p.
Proof.
  unfold Client.processStreamingResponse_loop. revert p.
  induction values as [|v values IH]; intros p; [reflexivity|].
  cbn [List.map fold_left]. rewrite split_of_frame. cbn [Client.url_lines].
  destruct (Client.url_line P ("data: " +:+ JSON.stringify v) p) as [p' [|]] eqn:Hline;
    cbn [fst]; [apply IH|].
  change (Client.url_line P EmptyString p') with (p', false). cbn iota. apply IH.
Qed.

(** A streamed URL job that succeeds, seen from the page, its frames
    arriving one per chunk: the page ends with a percentage of 100, the
    stage [complete] and not loading, but with no transcription at all,
    since the last frame carries no result. *)
Theorem url_success_loses_transcript (values : list json) (p : Page) :
  JSON_parse P (JSON.stringify bare_complete_event) = Some bare_complete_event ->
  let final := Client.handleProgressTranscription P true
                 (streaming (List.map frame (values ++ [bare_complete_event]))) p in
  transcription final = None
  /\ percentage (progress final) = Some (JInt 100)
  /\ stage (progress final) = Some (JStr "complete")
  /\ isLoading final = false
  /\ isActive (progress final) = false.
Proof.
  intros Hread final. subst final.
  unfold Client.handleProgressTranscription, streaming. cbn [resp_ok resp_chunks negb].
  rewrite url_loop_of_frames, fold_left_app. cbn [fold_left].
  rewrite url_data_line, Hread.
  repeat split.
Qed.

(** An [error] frame at the end of a stream, once the platform reads its
    payload back as it was printed. The loop of
    [handleProgressTranscription] shows it: one alert with the message,
    loading and activity off. The loop of [processStreamingResponse] throws
    the error inside its own [try], whose [catch] only logs: the page is left
    exactly as it was before the frame, still loading. *)
Theorem error_frame_on_the_page (message : string) (chunks : list string) (p : Page) :
  JSON_parse P (JSON.stringify (error_event message)) = Some (error_event message) ->
  (let before := Client.handleProgressTranscription_loop P chunks p in
   let final := Client.handleProgressTranscription_loop P (chunks ++ [error_frame message]) p in
   alerts final = alerts before ++ ["Transcription failed: " +:+ message]
   /\ isLoading final = false
   /\ isActive (progress final) = false
   /\ transcription final = transcription before)
  /\ Client.processStreamingResponse_loop P (chunks ++ [error_frame message]) p
     = Client.processStreamingResponse_loop P chunks p.
Proof.
  intros Hread. split.
  - intros before final. subst before final.
    unfold Client.handleProgressTranscription_loop. rewrite fold_left_app. cbn [fold_left].
    unfold error_frame. rewrite split_of_frame.
    unfold Client.upload_lines. cbn [fold_left].
    fold (error_event message).
    rewrite upload_data_line, Hread.
    change (Client.upload_line P EmptyString ?q) with q.
    repeat split.
  - unfold Client.processStreamingResponse_loop. rewrite fold_left_app. cbn [fold_left].
    unfold error_frame. rewrite split_of_frame. cbn [Client.url_lines].
    fold (error_event message).
    rewrite url_data_line, Hread. reflexivity.
Qed.

(** A response that is not ok, or that has no body: for either endpoint
    the page reads no event and ends in the failed state, with exactly one
    new alert, an empty transcription, loading and activity off. *)
Theorem refused_response_on_the_page (url : bool) (response : http_response) (p : Page) :
  resp_ok response = false \/ resp_chunks response = None ->
  let final := Client.handleProgressTranscription P url response p in
  (exists message, alerts final = alerts p ++ ["Transcription failed: " +:+ message]
                   /\ (resp_ok response = false ->
                       message = "Server error: " +:+ JS.string_of_Z (resp_status response)))
  /\ transcription final = Some (JStr EmptyString)
  /\ isLoading final = false
  /\ isActive (progress final) = false
  /\ percentage (progress final) = Some (JInt 0).
Proof.
  intros Hrefused final. subst final. unfold Client.handleProgressTranscription.
  destruct (resp_ok response) eqn:Hok; cbn [negb].
  - destruct Hrefused as [Hno|Hnone]; [discriminate|]. rewrite Hnone.
    split; [|repeat split]. eexists. split; [reflexivity | discriminate].
  - split; [|repeat split]. eexists. split; reflexivity.
Qed.

End EndToEnd.

(** ** The recorder and the plain upload *)

Section RecorderFacts.

Variable P : Platform.

(** [handleTranscribe] does nothing without a recording. With one, and
    whatever the server answers, it tells the parent once that transcription
    started and once that it completed, and ends with its own loading flag
    off. The text it hands over is the [text] of the answer only when the
    answer is ok and reads as a value whose [success] and [text] are both
    truthy; in every other case it is the fixed apology. *)
Theorem recorder_completes_once (handlers : tab_handlers) (answer : fetch_answer)
  (state : bool * Page) :
  Recorder.handleTranscribe P handlers None answer state = state
  /\ forall bytes,
       exists text,
         Recorder.handleTranscribe P handlers (Some bytes) answer state
         = (false, onTranscriptionComplete handlers text
                     (onTranscriptionStart handlers (snd state)))
         /\ (text = Recorder.apology
             \/ exists status body data success,
                  answer = Answered true status body
                  /\ JSON_parse P body = Some data
                  /\ Coerce.get_prop "success" data = Some success
                  /\ Coerce.truthy success = true
                  /\ Client.prop "text" data = Some text
                  /\ Coerce.truthy (Some text) = true).
Proof.
  split; [reflexivity|]. intros bytes.
  assert (Hgive : exists text,
            Recorder.apologise handlers (onTranscriptionStart handlers (snd state))
            = (false, onTranscriptionComplete handlers text
                        (onTranscriptionStart handlers (snd state)))
            /\ (text = Recorder.apology
                \/ exists status body data success,
                     answer = Answered true status body
                     /\ JSON_parse P body = Some data
                     /\ Coerce.get_prop "success" data = Some success
                     /\ Coerce.truthy success = true
                     /\ Client.prop "text" data = Some text
                     /\ Coerce.truthy (Some text) = true)).
  { exists Recorder.apology. split; [reflexivity|left; reflexivity]. }
  cbn [Recorder.handleTranscribe].
  destruct answer as [ok status body|message]; [|exact Hgive].
  destruct ok; cbn [negb]; [|exact Hgive].
  destruct (JSON_parse P body) as [data|] eqn:Hdata; [|exact Hgive].
  destruct (Coerce.get_prop "success" data) as [success|] eqn:Hsuccess; [|exact Hgive].
  destruct (Coerce.truthy success) eqn:Hs; cbn [andb]; [|exact Hgive].
  destruct (Client.prop "text" data) as [text|] eqn:Htext;
    [|destruct (Coerce.truthy None); exact Hgive].
  destruct (Coerce.truthy (Some text)) eqn:Ht; [|exact Hgive].
  exists text. split; [reflexivity|]. right.
  exists status, body, data, success. repeat split; assumption.
Qed.

Variable E : Env.

Lemma recorder_request_uploads (bytes : string) : uploads (Recorder.request bytes) bytes.
Proof. exists [("audio", FormBlob bytes)]. split; reflexivity. Qed.

(** A recording whose worker exits with code 0 and prints plain text: the
    upload route answers 200 with the text as its only property, and the
    recorder, which looks for a truthy [success], hands the apology to its
    parent instead of the text. *)
Theorem recorder_rejects_plain_text (handlers : tab_handlers) (bytes : string)
  (w : World) (state : bool * Page) :
  is_Some (files w !! whisper_script E) ->
  run_end (upload_run E (artifact E)) = Close (Some 0%Z) ->
  JS.match_braces (stdout_of (run_events (upload_run E (artifact E)))) = None ->
  let degraded :=
    JObj [("text", JStr (JS.trim (stdout_of (run_events (upload_run E (artifact E))))))] in
  JSON_parse P (JSON.stringify degraded) = Some degraded ->
  Upload.POST P E (Recorder.request bytes) w
  = (Returned (JsonResponse degraded 200), plain_upload_done E w)
  /\ Recorder.handleTranscribe P handlers (Some bytes) (json_answer degraded 200) state
     = (false, onTranscriptionComplete handlers Recorder.apology
                 (onTranscriptionStart handlers (snd state))).
Proof.
  intros Hscript Hend Hmatch degraded Hread. split.
  - rewrite (upload_post_plain P E (Recorder.request bytes) bytes w
               (recorder_request_uploads bytes) eq_refl Hscript).
    unfold Upload.runPythonScript.
    fold (upload_spawn E (artifact E)). fold (upload_run E (artifact E)).
    rewrite collect_spec, !append_nil, Hend. cbn [nonzero Z.eqb negb]. rewrite Hmatch.
    unfold try_catch, bind, call, throw, ret. cbn [files enqueued closed calls uncaught].
    rewrite cleanupFile_deletes. cbn [files enqueued closed calls uncaught].
    unfold plain_upload_done. rewrite delete_insert_eq. reflexivity.
  - unfold Recorder.handleTranscribe, json_answer. cbn [Z.leb Z.compare andb negb Pos.compare Pos.compare_cont].
    rewrite Hread. reflexivity.
Qed.

(** A recording whose worker prints a result with [success] true and a
    non-empty [text]: the upload route answers 200 with the result, the
    artifact is gone, and on the record tab the page ends with that text as
    its transcription and not loading. *)
Theorem recorder_shows_text (bytes jsonStr text : string) (result : json)
  (w : World) (state : bool * Page) :
  is_Some (files w !! whisper_script E) ->
  run_end (upload_run E (artifact E)) = Close (Some 0%Z) ->
  JS.match_braces (stdout_of (run_events (upload_run E (artifact E)))) = Some jsonStr ->
  JSON_parse P jsonStr = Some result ->
  JSON_parse P (JSON.stringify result) = Some result ->
  Coerce.get_prop "success" result = Some (Some (JBool true)) ->
  Client.prop "text" result = Some (JStr text) ->
  text <> EmptyString ->
  Upload.POST P E (Recorder.request bytes) w
  = (Returned (JsonResponse result 200), plain_upload_done E w)
  /\ (let final := Recorder.handleTranscribe P Home.plain_handlers (Some bytes)
                     (json_answer result 200) state in
      fst final = false
      /\ transcription (snd final) = Some (JStr text)
      /\ isLoading (snd final) = false
      /\ isActive (progress (snd final)) = false).
Proof.
  intros Hscript Hend Hmatch Hparse Hread Hsuccess Htext Hne. split.
  - rewrite (upload_post_plain P E (Recorder.request bytes) bytes w
               (recorder_request_uploads bytes) eq_refl Hscript).
    unfold Upload.runPythonScript.
    fold (upload_spawn E (artifact E)). fold (upload_run E (artifact E)).
    rewrite collect_spec, !append_nil, Hend. cbn [nonzero Z.eqb negb]. rewrite Hmatch, Hparse.
    unfold try_catch, bind, call, throw, ret. cbn [files enqueued closed calls uncaught].
    rewrite cleanupFile_deletes. cbn [files enqueued closed calls uncaught].
    unfold plain_upload_done. rewrite delete_insert_eq. reflexivity.
  - intros final. subst final.
    unfold Recorder.handleTranscribe, json_answer.
    cbn [Z.leb Z.compare andb negb Pos.compare Pos.compare_cont].
    rewrite Hread, Hsuccess, Htext. cbn [Coerce.truthy andb].
    destruct (String.eqb_spec text EmptyString) as [->|_]; [now elim Hne|].
    cbn [negb]. repeat split.
Qed.

End RecorderFacts.

(** ** The further statements on concrete runs *)

Lemma url_post_without_url_witness :
  UrlRoute.POST reference_platform (Demo.server Demo.good_run (FetchOk EmptyString))
    {| url_body := JSON.stringify (JObj [("audioUrl", JStr EmptyString)]);
       url_accept := None |} Demo.start
  = (Returned (JsonResponse (JObj [("error", JStr "Audio URL is required")]) 400), Demo.start).
Proof.
  destruct (url_post_without_url reference_platform
              (Demo.server Demo.good_run (FetchOk EmptyString))
              {| url_body := JSON.stringify (JObj [("audioUrl", JStr EmptyString)]);
                 url_accept := None |} Demo.start) as (_ & _ & H).
  apply (H (JObj [("audioUrl", JStr EmptyString)]) (Some (JStr EmptyString))).
  - vm_compute. reflexivity.
  - reflexivity.
  - reflexivity.
Defined.

Lemma video_request_asks (accept : option string) :
  asks_for reference_platform (Extra.video_request accept) Extra.video_url.
Proof.
  exists (JObj [("audioUrl", JStr Extra.video_url)]).
  split; [vm_compute; reflexivity|]. split; [reflexivity | discriminate].
Defined.

Lemma audio_request_asks (accept : option string) :
  asks_for reference_platform (Demo.audio_request accept) Demo.audio_url.
Proof.
  exists (JObj [("audioUrl", JStr Demo.audio_url)]).
  split; [vm_compute; reflexivity|]. split; [reflexivity | discriminate].
Defined.

Lemma video_url_tool_failure_witness :
  exists message,
    UrlRoute.POST reference_platform
      (Extra.tool_server Demo.good_run [] (inr "ERROR: Video unavailable"))
      (Extra.video_request None) Demo.start
    = (Returned (url_failure message),
       extracted (Extra.tool_server Demo.good_run [] (inr "ERROR: Video unavailable"))
         Extra.video_url "/app/tmp/0b5c2f9e" Demo.start)
    /\ youtube_failure "ERROR: Video unavailable" message
    /\ calls (extracted (Extra.tool_server Demo.good_run [] (inr "ERROR: Video unavailable"))
                Extra.video_url "/app/tmp/0b5c2f9e" Demo.start)
       = calls Demo.start
         ++ [EExec (youtube_command
                      (Extra.tool_server Demo.good_run [] (inr "ERROR: Video unavailable"))
                      Extra.video_url "/app/tmp/0b5c2f9e")].
Proof.
  apply (video_url_tool_failure reference_platform
           (Extra.tool_server Demo.good_run [] (inr "ERROR: Video unavailable"))
           (Extra.video_request None) Extra.video_url "ERROR: Video unavailable" Demo.start).
  - apply video_request_asks.
  - vm_compute. reflexivity.
  - left. reflexivity.
Defined.

Lemma video_url_reaches_worker_witness :
  UrlRoute.POST reference_platform
    (Extra.tool_server Demo.good_run [(Demo.tmp_file, "ID3")] (inl (EmptyString, EmptyString)))
    (Extra.video_request (Some "text/event-stream")) Demo.start
  = (Returned EventStream,
     streamed (ESpawn "/app/.venv/bin/python" [Demo.script; Demo.tmp_file])
       [frame Demo.progress_50; bare_complete_frame] Demo.tmp_file
       (extracted
          (Extra.tool_server Demo.good_run [(Demo.tmp_file, "ID3")]
             (inl (EmptyString, EmptyString)))
          Extra.video_url "/app/tmp/0b5c2f9e" Demo.start)).
Proof.
  apply (video_url_reaches_worker reference_platform
           (Extra.tool_server Demo.good_run [(Demo.tmp_file, "ID3")]
              (inl (EmptyString, EmptyString)))
           (Extra.video_request (Some "text/event-stream")) Extra.video_url Demo.start).
  - apply video_request_asks.
  - vm_compute. reflexivity.
  - eexists. reflexivity.
  - vm_compute. eauto.
  - vm_compute. eauto.
  - reflexivity.
  - reflexivity.
Defined.

Lemma plain_url_fetch_failure_witness :
  UrlRoute.POST reference_platform (Demo.server Demo.good_run (FetchNotOk 404 "Not Found"))
    (Demo.audio_request None) Demo.start
  = (Returned (url_failure
                 "Failed to download audio from URL: Failed to fetch audio: 404 Not Found"),
     fetched Demo.audio_url Demo.start).
Proof.
  apply (plain_url_fetch_failure reference_platform
           (Demo.server Demo.good_run (FetchNotOk 404 "Not Found"))
           (Demo.audio_request None) Demo.audio_url "Not Found" 404 Demo.start).
  - apply audio_request_asks.
  - vm_compute. reflexivity.
  - reflexivity.
Defined.

Lemma plain_url_success_witness :
  exists w',
    UrlRoute.POST reference_platform (Demo.server Demo.good_run (FetchOk "ID3"))
      (Demo.audio_request None) Demo.start
    = (Returned (JsonResponse Demo.result 200), w')
    /\ files w' = delete Demo.tmp_file (files Demo.start)
    /\ calls w' = calls Demo.start
                  ++ [EFetch Demo.audio_url;
                      ESpawn "/app/.venv/bin/python" [Demo.script; Demo.tmp_file]]
    /\ enqueued w' = enqueued Demo.start.
Proof.
  apply (plain_url_success reference_platform (Demo.server Demo.good_run (FetchOk "ID3"))
           (Demo.audio_request None) Demo.audio_url "ID3" (JSON.stringify Demo.result)).
  - apply audio_request_asks.
  - vm_compute. reflexivity.
  - reflexivity.
  - vm_compute. eauto.
  - reflexivity.
  - reflexivity.
  - vm_compute. reflexivity.
  - vm_compute. reflexivity.
Defined.

Lemma file_upload_uploads (accept : option string) : uploads (Extra.file_upload accept) "RIFF".
Proof. exists [("audio", FormBlob "RIFF")]. split; reflexivity. Defined.

Lemma plain_upload_always_cleans_up_witness :
  (exists result,
     Upload.POST reference_platform (Demo.server Demo.plain_run (FetchOk EmptyString))
       (Extra.file_upload None) Demo.start
     = (Returned (JsonResponse result 200),
        plain_upload_done (Demo.server Demo.plain_run (FetchOk EmptyString)) Demo.start))
  \/ (exists message,
        Upload.POST reference_platform (Demo.server Demo.plain_run (FetchOk EmptyString))
          (Extra.file_upload None) Demo.start
        = (Returned (JsonResponse
                       (JObj [("error", JStr ("Transcription failed: " +:+ message))]) 500),
           plain_upload_done (Demo.server Demo.plain_run (FetchOk EmptyString)) Demo.start)).
Proof.
  apply (plain_upload_always_cleans_up reference_platform
           (Demo.server Demo.plain_run (FetchOk EmptyString))
           (Extra.file_upload None) "RIFF" Demo.start).
  - apply file_upload_uploads.
  - reflexivity.
  - vm_compute. eauto.
Defined.

Lemma plain_upload_worker_failure_witness :
  Upload.POST reference_platform (Demo.server Demo.failing_run (FetchOk EmptyString))
    (Extra.file_upload None) Demo.start
  = (Returned (JsonResponse
                 (JObj [("error",
                         JStr ("Transcription failed: Python script exited with code 1: "
                               +:+ Demo.progress_line Demo.progress_50
                               +:+ "RuntimeError: out of memory" +:+ Demo.NL))]) 500),
     plain_upload_done (Demo.server Demo.failing_run (FetchOk EmptyString)) Demo.start).
Proof.
  apply (plain_upload_worker_failure reference_platform
           (Demo.server Demo.failing_run (FetchOk EmptyString))
           (Extra.file_upload None) "RIFF" (Some 1%Z) Demo.start).
  - apply file_upload_uploads.
  - reflexivity.
  - vm_compute. eauto.
  - reflexivity.
  - reflexivity.
Defined.


Lemma streamed_upload_after_cancel_witness :
  exists w',
    Upload.handleProgressStreamRequest reference_platform
      (Demo.server Demo.good_run (FetchOk EmptyString)) Demo.tmp_file Extra.cancelled
    = (Returned EventStream, w')
    /\ files w' = files Extra.cancelled
    /\ enqueued w' = enqueued Extra.cancelled
    /\ uncaught w' = uncaught Extra.cancelled ++ ["Invalid state: Controller is already closed"].
Proof.
  apply (streamed_upload_after_cancel reference_platform
           (Demo.server Demo.good_run (FetchOk EmptyString)) Demo.tmp_file Extra.cancelled).
  reflexivity.
Defined.


Lemma upload_success_reaches_page_witness :
  transcription
    (Client.handleProgressTranscription reference_platform false
       (streaming [chunk_of [Demo.progress_50];
                   chunk_of [Demo.progress_150; complete_event Demo.result]]) Demo.idle)
  = Some Demo.result.
Proof.
  refine (proj1 (upload_success_reaches_page reference_platform
                   [Demo.progress_50; Demo.progress_150] Demo.result
                   [[Demo.progress_50]; [Demo.progress_150; complete_event Demo.result]]
                   Demo.idle _ _)).
  - vm_compute. reflexivity.
  - reflexivity.
Defined.

Lemma url_success_loses_transcript_witness :
  transcription
    (Client.handleProgressTranscription reference_platform true
       (streaming (List.map frame ([Demo.progress_50] ++ [bare_complete_event]))) Demo.idle)
  = None.
Proof.
  refine (proj1 (url_success_loses_transcript reference_platform [Demo.progress_50]
                   Demo.idle _)).
  vm_compute. reflexivity.
Defined.

Lemma error_frame_on_the_page_witness :
  Client.processStreamingResponse_loop reference_platform
    ([frame Demo.progress_50] ++ [error_frame "Python script failed with code 1: "])
    (Client.starting Demo.idle)
  = Client.processStreamingResponse_loop reference_platform [frame Demo.progress_50]
      (Client.starting Demo.idle).
Proof.
  refine (proj2 (error_frame_on_the_page reference_platform
                   "Python script failed with code 1: " [frame Demo.progress_50]
                   (Client.starting Demo.idle) _)).
  vm_compute. reflexivity.
Defined.

Lemma refused_response_on_the_page_witness :
  isLoading (Client.handleProgressTranscription reference_platform true
               {| resp_ok := false; resp_status := 500; resp_chunks := Some [] |} Demo.idle)
  = false.
Proof.
  refine (proj1 (proj2 (proj2 (refused_response_on_the_page reference_platform true
                   {| resp_ok := false; resp_status := 500; resp_chunks := Some [] |}
                   Demo.idle _)))).
  left. reflexivity.
Defined.

Lemma recorder_rejects_plain_text_witness :
  Recorder.handleTranscribe reference_platform Home.plain_handlers (Some "RIFF")
    (json_answer (JObj [("text", JStr "hello world")]) 200) (false, Demo.idle)
  = (false, Home.handleTranscriptionComplete Recorder.apology
              (Client.setIsLoading true Demo.idle)).
Proof.
  refine (proj2 (recorder_rejects_plain_text reference_platform
                   (Demo.server Demo.plain_run (FetchOk EmptyString))
                   Home.plain_handlers "RIFF" Demo.start (false, Demo.idle) _ _ _ _)).
  - vm_compute. eauto.
  - reflexivity.
  - vm_compute. reflexivity.
  - vm_compute. reflexivity.
Defined.

Lemma recorder_shows_text_witness :
  transcription
    (snd (Recorder.handleTranscribe reference_platform Home.plain_handlers (Some "RIFF")
            (json_answer Demo.result 200) (false, Demo.idle)))
  = Some (JStr "hello world").
Proof.
  refine (proj1 (proj2 (proj2 (recorder_shows_text reference_platform
                   (Demo.server Demo.good_run (FetchOk EmptyString))
                   "RIFF" (JSON.stringify Demo.result) "hello world" Demo.result
                   Demo.start (false, Demo.idle) _ _ _ _ _ _ _ _)))).
  - vm_compute. eauto.
  - reflexivity.
  - vm_compute. reflexivity.
  - vm_compute. reflexivity.
  - vm_compute. reflexivity.
  - reflexivity.
  - reflexivity.
  - discriminate.
Defined.

(** ** From the form to the page *)

Section Journeys.

Variable P : Platform.
Variable E : Env.

(** An audio file sent by [handleProgressTranscription], as a [Blob] or in
    the [audio] field of a form without [audioUrl], whose worker exits with
    code 0 and prints a readable result. The request goes to the upload
    route with the event stream asked for; the route sends the progress
    values and the result in whole frames, removes the artifact, and the
    page, reading those frames however they are grouped into chunks, ends
    with the result as its transcription, at 100 percent and not loading. *)
Theorem upload_journey (audioData : audio_data) (bytes jsonStr : string) (result : json)
  (groups : list (list json)) (w : World) (p : Page) :
  (audioData = BlobData bytes
   \/ exists fields, audioData = FormData fields
                     /\ Submit.has "audioUrl" fields = false
                     /\ Upload.form_get "audio" fields = Some (FormBlob bytes)) ->
  closed w = false ->
  enqueued w = [] ->
  run_end (upload_run E (artifact E)) = Close (Some 0%Z) ->
  JS.match_braces (stdout_of (run_events (upload_run E (artifact E)))) = Some jsonStr ->
  JSON_parse P jsonStr = Some result ->
  JSON_parse P (JSON.stringify (complete_event result)) = Some (complete_event result) ->
  concat groups
  = progress_of (upload_decode P) (run_events (upload_run E (artifact E)))
    ++ [complete_event result] ->
  exists request w',
    Submit.request_of audioData = ToUpload request
    /\ Upload.POST P E request w = (Returned EventStream, w')
    /\ enqueued w' = List.map frame (concat groups)
    /\ files w' = delete (artifact E) (files w)
    /\ (let final := Client.handleProgressTranscription P false
                       (streaming (List.map chunk_of groups)) p in
        transcription final = Some result
        /\ percentage (progress final) = Some (JInt 100)
        /\ isLoading final = false).
Proof.
  intros Hdata Hopen Hempty Hend Hmatch Hparse Hread Hgroups.
  assert (Hreq : exists request form,
            Submit.request_of audioData = ToUpload request
            /\ upload_form request = inr form
            /\ Upload.form_get "audio" form = Some (FormBlob bytes)
            /\ wants_event_stream (upload_accept request) = true).
  { destruct Hdata as [-> | (fields & -> & Hno & Haudio)].
    - eexists _, _. repeat split.
    - eexists _, _. cbn [Submit.request_of]. rewrite Hno. repeat split. exact Haudio. }
  destruct Hreq as (request & form & Hsend & Hform & Haudio & Hstream).
  exists request. eexists. split; [exact Hsend|].
  split.
  { unfold Upload.POST, try_catch, bind at 1. rewrite Hform. cbn [ret]. rewrite Haudio.
    cbn [Upload.falsy Upload.instanceof_Blob negb orb Upload.arrayBuffer].
    unfold bind at 1, fs.writeFileSync. rewrite Hstream.
    unfold Upload.handleProgressStreamRequest, bind, detached.
    fold (artifact E). rewrite upload_stream_job by exact Hopen. reflexivity. }
  cbn [enqueued files streamed]. rewrite Hempty.
  split.
  { rewrite Hgroups, List.map_app. cbn [app List.map]. f_equal. f_equal.
    unfold upload_terminal. rewrite Hend. cbn [nonzero Z.eqb negb].
    rewrite Hmatch, Hparse. reflexivity. }
  split; [apply delete_insert_eq|].
  cbv zeta.
  unfold Client.handleProgressTranscription, streaming. cbn [resp_ok resp_chunks negb].
  rewrite upload_loop_of_chunks, Hgroups, fold_left_app. cbn [fold_left].
  rewrite upload_data_line, Hread. repeat split.
Qed.

(** A form with an [audioUrl] text sent by [handleProgressTranscription],
    for a plain URL that is fetched, whose worker exits with code 0 and
    prints a readable result. The request goes to the URL route with the
    event stream asked for; the route sends the progress values and a bare
    [complete] frame and removes the artifact; the page, reading one frame
    per chunk, ends at 100 percent and not loading, with no transcription:
    the result never leaves the server. *)
Theorem url_journey (fields : list (string * form_value)) (url content jsonStr : string)
  (result : json) (w : World) (p : Page) :
  Submit.has "audioUrl" fields = true ->
  Upload.form_get "audioUrl" fields = Some (FormText url) ->
  url <> EmptyString ->
  JSON_parse P (JSON.stringify (JObj [("audioUrl", JStr url)]))
  = Some (JObj [("audioUrl", JStr url)]) ->
  UrlRoute.isYouTubeURL P url = false ->
  fetch E url = FetchOk content ->
  is_Some (files w !! whisper_script E) ->
  closed w = false ->
  enqueued w = [] ->
  run_end (url_run E (whisper_script E) [artifact E]) = Close (Some 0%Z) ->
  JS.match_braces (stdout_of (run_events (url_run E (whisper_script E) [artifact E])))
  = Some jsonStr ->
  JSON_parse P jsonStr = Some result ->
  JSON_parse P (JSON.stringify bare_complete_event) = Some bare_complete_event ->
  exists request w',
    Submit.request_of (FormData fields) = ToUrl request
    /\ UrlRoute.POST P E request w = (Returned EventStream, w')
    /\ files w' = delete (artifact E) (files w)
    /\ (let final := Client.handleProgressTranscription P true (streaming (enqueued w')) p in
        transcription final = None
        /\ percentage (progress final) = Some (JInt 100)
        /\ isLoading final = false).
Proof.
  intros Hhas Hget Hne Hbody Hyt Hfetch Hscript Hopen Hempty Hend Hmatch Hparse Hread.
  eexists _, _. split.
  { cbn [Submit.request_of]. rewrite Hhas, Hget. reflexivity. }
  cbn [Submit.as_json].
  assert (Hasks : asks_for P
            {| url_body := JSON.stringify (JObj [("audioUrl", JStr url)]);
               url_accept := Some "text/event-stream" |} url).
  { exists (JObj [("audioUrl", JStr url)]). cbn [url_body].
    split; [exact Hbody|]. split; [|exact Hne].
    cbn [Coerce.get_prop JSON.lookup_prop]. rewrite String.eqb_refl. reflexivity. }
  assert (Hrun :
    UrlRoute.POST P E
      {| url_body := JSON.stringify (JObj [("audioUrl", JStr url)]);
         url_accept := Some "text/event-stream" |} w
    = (Returned EventStream,
       streamed (url_spawn E (whisper_script E) [artifact E])
         (List.map frame (progress_of (url_decode P)
                            (run_events (url_run E (whisper_script E) [artifact E]))
                          ++ [bare_complete_event]))
         (artifact E) (downloaded url (artifact E) content w))).
  { rewrite (url_post_download P E _ url w Hasks), Hyt.
    unfold try_catch at 1, bind at 1. rewrite (download_ok E _ _ _ _ Hfetch).
    unfold after_download, bind at 1, fs.existsSync. cbn [files downloaded].
    rewrite lookup_insert_ne by apply artifact_not_script.
    rewrite bool_decide_true by exact Hscript. cbn [negb url_accept wants_event_stream].
    change (JS.includes "text/event-stream" "text/event-stream") with true. cbn iota.
    rewrite url_stream_job by exact Hopen.
    unfold url_terminal, url_settles. rewrite Hend. cbn [nonzero Z.eqb negb].
    rewrite Hmatch, Hparse, List.map_app. reflexivity. }
  split; [exact Hrun|].
  cbn [files enqueued streamed downloaded]. rewrite Hempty. cbn [app].
  split; [apply delete_insert_eq|].
  cbv zeta.
  unfold Client.handleProgressTranscription, streaming. cbn [resp_ok resp_chunks negb].
  rewrite url_loop_of_frames, fold_left_app. cbn [fold_left].
  rewrite url_data_line, Hread. repeat split.
Qed.

End Journeys.

Lemma streamed_url_always_cleans_up_witness :
  exists w',
    UrlRoute.handleStreamingTranscription reference_platform
      (Demo.server Demo.good_run (FetchOk EmptyString)) Demo.script Demo.tmp_file
      Extra.cancelled
    = (Returned EventStream, w')
    /\ files w' = delete Demo.tmp_file (files Extra.cancelled).
Proof.
  destruct (streamed_url_always_cleans_up reference_platform
              (Demo.server Demo.good_run (FetchOk EmptyString)) Demo.script Demo.tmp_file
              Extra.cancelled) as (w' & Hrun & Hfiles & _).
  exists w'. split; [exact Hrun | exact Hfiles].
Defined.

Lemma upload_journey_witness :
  exists request w',
    Submit.request_of (BlobData "RIFF") = ToUpload request
    /\ Upload.POST reference_platform (Demo.server Demo.good_run (FetchOk EmptyString))
         request Demo.start
       = (Returned EventStream, w')
    /\ enqueued w' = [frame Demo.progress_50; complete_frame Demo.result]
    /\ transcription
         (Client.handleProgressTranscription reference_platform false
            (streaming [chunk_of [Demo.progress_50; complete_event Demo.result]]) Demo.idle)
       = Some Demo.result.
Proof.
  destruct (upload_journey reference_platform
              (Demo.server Demo.good_run (FetchOk EmptyString))
              (BlobData "RIFF") "RIFF" (JSON.stringify Demo.result) Demo.result
              [[Demo.progress_50; complete_event Demo.result]] Demo.start Demo.idle)
    as (request & w' & Hsend & Hpost & Hframes & _ & Hpage & _).
  - left. reflexivity.
  - reflexivity.
  - reflexivity.
  - reflexivity.
  - vm_compute. reflexivity.
  - vm_compute. reflexivity.
  - vm_compute. reflexivity.
  - vm_compute. reflexivity.
  - exists request, w'. split; [exact Hsend|]. split; [exact Hpost|].
    split; [exact Hframes | exact Hpage].
Defined.

Lemma url_journey_witness :
  exists request w',
    Submit.request_of (FormData [("audioUrl", FormText Demo.audio_url)]) = ToUrl request
    /\ UrlRoute.POST reference_platform (Demo.server Demo.good_run (FetchOk "ID3"))
         request Demo.start
       = (Returned EventStream, w')
    /\ transcription
         (Client.handleProgressTranscription reference_platform true
            (streaming (enqueued w')) Demo.idle)
       = None.
Proof.
  destruct (url_journey reference_platform (Demo.server Demo.good_run (FetchOk "ID3"))
              [("audioUrl", FormText Demo.audio_url)] Demo.audio_url "ID3"
              (JSON.stringify Demo.result) Demo.result Demo.start Demo.idle)
    as (request & w' & Hsend & Hpost & _ & Hpage & _).
  - reflexivity.
  - reflexivity.
  - discriminate.
  - vm_compute. reflexivity.
  - vm_compute. reflexivity.
  - reflexivity.
  - vm_compute. eauto.
  - reflexivity.
  - reflexivity.
  - reflexivity.
  - vm_compute. reflexivity.
  - vm_compute. reflexivity.
  - vm_compute. reflexivity.
  - exists request, w'. split; [exact Hsend|]. split; [exact Hpost | exact Hpage].
Defined.

Lemma upload_without_script_witness :
  Upload.POST reference_platform (Demo.server Demo.good_run (FetchOk EmptyString))
    (Extra.file_upload None) (initial_world ∅)
  = (Returned (JsonResponse
                 (JObj [("error", JStr "Server configuration error: Script not found")]) 500),
     {| files := <[Demo.tmp_file := "RIFF"]> ∅; enqueued := []; closed := false;
        calls := []; uncaught := [] |}).
Proof.
  refine (proj1 (upload_without_script reference_platform
                   (Demo.server Demo.good_run (FetchOk EmptyString))
                   (Extra.file_upload None) "RIFF" (initial_world ∅) _ _) _).
  - apply file_upload_uploads.
  - reflexivity.
  - reflexivity.
Defined.

(** ** The link form and the URL route *)

Section LinkFacts.

Variable P : Platform.
Variable E : Env.

Lemma link_request_asks (url : string) :
  url <> EmptyString ->
  JSON_parse P (JSON.stringify (JObj [("audioUrl", JStr url)]))
  = Some (JObj [("audioUrl", JStr url)]) ->
  asks_for P (LinkInput.request url) url.
Proof.
  intros Hne Hbody. exists (JObj [("audioUrl", JStr url)]).
  split; [exact Hbody|]. split; [|exact Hne].
  cbn [Coerce.get_prop JSON.lookup_prop]. rewrite String.eqb_refl. reflexivity.
Qed.

(** The link tab on a plain URL that is fetched, whose worker exits with
    code 0 and prints a result with a non-empty [text]: the URL route
    answers 200 with the result, the artifact is gone, and the page ends
    with that text as its transcription, not loading. *)
Theorem link_tab_shows_text (url content jsonStr text : string) (result : json)
  (w : World) (state : bool * Page) :
  url <> EmptyString ->
  JSON_parse P (JSON.stringify (JObj [("audioUrl", JStr url)]))
  = Some (JObj [("audioUrl", JStr url)]) ->
  UrlRoute.isYouTubeURL P url = false ->
  fetch E url = FetchOk content ->
  is_Some (files w !! whisper_script E) ->
  run_end (url_run E (whisper_script E) [artifact E]) = Close (Some 0%Z) ->
  JS.match_braces (stdout_of (run_events (url_run E (whisper_script E) [artifact E])))
  = Some jsonStr ->
  JSON_parse P jsonStr = Some result ->
  JSON_parse P (JSON.stringify result) = Some result ->
  Coerce.get_prop "text" result = Some (Some (JStr text)) ->
  text <> EmptyString ->
  (exists w',
     UrlRoute.POST P E (LinkInput.request url) w = (Returned (JsonResponse result 200), w')
     /\ files w' = delete (artifact E) (files w))
  /\ (let final := LinkInput.handleSubmit P Home.link_handlers url
                     (json_answer result 200) state in
      fst final = false
      /\ transcription (snd final) = Some (JStr text)
      /\ isLoading (snd final) = false).
Proof.
  intros Hne Hbody Hyt Hfetch Hscript Hend Hmatch Hparse Hread Htext Htne. split.
  - destruct (url_post_plain_job P E (LinkInput.request url) url content jsonStr result w
                (link_request_asks url Hne Hbody) Hyt Hfetch Hscript eq_refl Hend Hmatch Hparse)
      as (w' & Hpost & Hfiles & _).
    exists w'. split; assumption.
  - cbv zeta. unfold LinkInput.handleSubmit, json_answer.
    destruct (String.eqb_spec url EmptyString) as [Hu|_]; [elim Hne; exact Hu|].
    cbn [Z.leb Z.compare andb negb Pos.compare Pos.compare_cont].
    rewrite Hread, Htext. unfold LinkInput.shown, LinkInput.or_else. cbn [Coerce.truthy].
    destruct (String.eqb_spec text EmptyString) as [Ht|_]; [elim Htne; exact Ht|].
    cbn [negb]. repeat split.
Qed.

(** The link tab on a plain URL whose fetch is answered with an error
    status: the URL route answers 500, with the status in the [message] of
    its answer; the form reads only the [error] of that answer, so that for
    every failure of the route, whatever its message, the page ends with the
    same text, [Error: Server error processing URL], and not loading. *)
Theorem link_tab_hides_failure_detail (url statusText : string) (status : Z)
  (w : World) (state : bool * Page) :
  url <> EmptyString ->
  JSON_parse P (JSON.stringify (JObj [("audioUrl", JStr url)]))
  = Some (JObj [("audioUrl", JStr url)]) ->
  UrlRoute.isYouTubeURL P url = false ->
  fetch E url = FetchNotOk status statusText ->
  UrlRoute.POST P E (LinkInput.request url) w
  = (Returned (url_failure ("Failed to download audio from URL: Failed to fetch audio: "
                            +:+ JS.string_of_Z status +:+ " " +:+ statusText)),
     fetched url w)
  /\ (forall message,
        JSON_parse P (JSON.stringify (url_failure_body message))
        = Some (url_failure_body message) ->
        let final := LinkInput.handleSubmit P Home.link_handlers url
                       (json_answer (url_failure_body message) 500) state in
        fst final = false
        /\ transcription (snd final) = Some (JStr "Error: Server error processing URL")
        /\ isLoading (snd final) = false).
Proof.
  intros Hne Hbody Hyt Hfetch. split.
  - rewrite (url_post_download P E _ url w (link_request_asks url Hne Hbody)), Hyt.
    unfold try_catch, bind. rewrite (download_not_ok E _ _ _ _ _ Hfetch). reflexivity.
  - intros message Hread. cbv zeta. unfold LinkInput.handleSubmit, json_answer.
    destruct (String.eqb_spec url EmptyString) as [Hu|_]; [elim Hne; exact Hu|].
    cbn [Z.leb Z.compare andb negb Pos.compare Pos.compare_cont].
    rewrite Hread. repeat split.
Qed.

(** An ok answer whose [text] is truthy and not a string, a number or an
    object for instance: the form hands it to the page, which shows strings
    only and otherwise just logs. The page is left as it was when the
    request started, still loading, and nothing is shown. *)
Theorem link_tab_drops_non_text (audioUrl body : string) (status : Z) (data v : json)
  (state : bool * Page) :
  audioUrl <> EmptyString ->
  JSON_parse P body = Some data ->
  Coerce.get_prop "text" data = Some (Some v) ->
  Coerce.truthy (Some v) = true ->
  (forall s, v <> JStr s) ->
  LinkInput.handleSubmit P Home.link_handlers audioUrl (Answered true status body) state
  = (false, Client.setIsLoading true (snd state)).
Proof.
  intros Hne Hparse Htext Htruthy Hv. unfold LinkInput.handleSubmit.
  destruct (String.eqb_spec audioUrl EmptyString) as [Hu|_]; [elim Hne; exact Hu|].
  cbn [negb]. rewrite Hparse, Htext.
  unfold LinkInput.shown, LinkInput.or_else. rewrite Htruthy.
  destruct v as [ | b | m e | s | items | props ]; try reflexivity.
  elim (Hv s). reflexivity.
Qed.

End LinkFacts.

Lemma link_tab_shows_text_witness :
  transcription
    (snd (LinkInput.handleSubmit reference_platform Home.link_handlers Demo.audio_url
            (json_answer Demo.result 200) (false, Demo.idle)))
  = Some (JStr "hello world").
Proof.
  refine (proj1 (proj2 (proj2 (link_tab_shows_text reference_platform
                   (Demo.server Demo.good_run (FetchOk "ID3"))
                   Demo.audio_url "ID3" (JSON.stringify Demo.result) "hello world" Demo.result
                   Demo.start (false, Demo.idle) _ _ _ _ _ _ _ _ _ _ _)))).
  - discriminate.
  - vm_compute. reflexivity.
  - vm_compute. reflexivity.
  - reflexivity.
  - vm_compute. eauto.
  - reflexivity.
  - vm_compute. reflexivity.
  - vm_compute. reflexivity.
  - vm_compute. reflexivity.
  - reflexivity.
  - discriminate.
Defined.

Lemma link_tab_hides_failure_detail_witness :
  UrlRoute.POST reference_platform (Demo.server Demo.good_run (FetchNotOk 404 "Not Found"))
    (LinkInput.request Demo.audio_url) Demo.start
  = (Returned (url_failure
                 "Failed to download audio from URL: Failed to fetch audio: 404 Not Found"),
     fetched Demo.audio_url Demo.start).
Proof.
  refine (proj1 (link_tab_hides_failure_detail reference_platform
                   (Demo.server Demo.good_run (FetchNotOk 404 "Not Found"))
                   Demo.audio_url "Not Found" 404 Demo.start (false, Demo.idle) _ _ _ _)).
  - discriminate.
  - vm_compute. reflexivity.
  - vm_compute. reflexivity.
  - reflexivity.
Defined.

Lemma link_tab_drops_non_text_witness :
  LinkInput.handleSubmit reference_platform Home.link_handlers Demo.audio_url
    (Answered true 200 (JSON.stringify (JObj [("text", JInt 42)]))) (false, Demo.idle)
  = (false, Client.setIsLoading true Demo.idle).
Proof.
  apply (link_tab_drops_non_text reference_platform Demo.audio_url
           (JSON.stringify (JObj [("text", JInt 42)])) 200
           (JObj [("text", JInt 42)]) (JInt 42) (false, Demo.idle)).
  - discriminate.
  - vm_compute. reflexivity.
  - reflexivity.
  - reflexivity.
  - discriminate.
Defined.
